(** * uproot TTree writer: a shallow embedding of the record serializer

    The development follows [uproot/write/objects/TTree.py] (classes [TTree]
    and [branch]) and [write/TObjString/key.py] (class [Key]).

    Python values are dynamically typed, so the field bags ([self.fields]) are
    finite maps from key strings to a small universe of Python values; every
    dictionary access, index operation and [struct] packing can raise, and an
    exception leaves behind whatever mutation happened before it.  Methods are
    therefore functions in a state-and-exception monad over a world holding
    the live cursor, the tree object, the heap of branch objects (the tree
    refers to its branches by reference) and the state of the external
    collaborators. *)

From Stdlib Require Import ZArith List Lia.
From Stdlib Require Import Strings.Byte.
From stdpp Require Import base gmap strings list.

Local Open Scope Z_scope.
Set Warnings "-register-all".

(** ** Bytes and big-endian integers *)

Abbreviation bytes := (list byte).

Definition Z_of_byte (b : byte) : Z := Z.of_N (Byte.to_N b).

Definition byte_of_Z (z : Z) : byte :=
  match Byte.of_N (Z.to_N (z mod 256)) with
  | Some b => b
  | None => x00
  end.

(** [be_bytes w z]: the [w] low-order bytes of [z], most significant first
    (two's complement for negative [z]). *)
Fixpoint be_bytes (w : nat) (z : Z) : bytes :=
  match w with
  | O => []
  | S w' => byte_of_Z (Z.shiftr z (8 * Z.of_nat w')) :: be_bytes w' z
  end.

Definition le_bytes (w : nat) (z : Z) : bytes := rev (be_bytes w z).

Fixpoint be_value (acc : Z) (bs : bytes) : Z :=
  match bs with
  | [] => acc
  | b :: bs' => be_value (acc * 256 + Z_of_byte b) bs'
  end.

Definition len {A} (l : list A) : Z := Z.of_nat (length l).

(** ** Exceptions and results *)

Inductive exn :=
| KeyError (key : string)
| IndexError
| TypeError
| AttributeError
| ValueError
| OverflowError
| StructError
| UnicodeEncodeError
| NotImplementedError
| OtherError (name : string)
| Unmodelled (what : string).

Inductive result (A : Type) :=
| Ok (a : A)
| Raise (e : exn).
Arguments Ok {A} a.
Arguments Raise {A} e.

Definition rbind {A B} (r : result A) (k : A → result B) : result B :=
  match r with
  | Ok a => k a
  | Raise e => Raise e
  end.

(** The value of a result, or [d] if it raised. *)
Definition ok_or {A} (d : A) (r : result A) : A :=
  match r with
  | Ok a => a
  | Raise _ => d
  end.

Definition is_ok {A} (r : result A) : bool :=
  match r with
  | Ok _ => true
  | Raise _ => false
  end.

Notation "'let?' x ':=' c 'in' k" := (rbind c (fun x => k))
  (at level 10, x pattern, c at level 100, k at level 200).

Fixpoint rmap_list {A B} (f : A → result B) (l : list A) : result (list B) :=
  match l with
  | [] => Ok []
  | a :: l' => let? b := f a in let? bs := rmap_list f l' in Ok (b :: bs)
  end.

(** ** Python values *)

Inductive dkind := KInt | KFloat.
Inductive byteorder := BigEndian | NativeOrder.

(** A numpy dtype: [">i4"], [">i8"], [">f8"], ["int64"]. *)
Record dtype := { dt_kind : dkind; dt_size : nat; dt_order : byteorder }.

Definition dt_i4_be : dtype := {| dt_kind := KInt; dt_size := 4; dt_order := BigEndian |}.
Definition dt_i8_be : dtype := {| dt_kind := KInt; dt_size := 8; dt_order := BigEndian |}.
Definition dt_f8_be : dtype := {| dt_kind := KFloat; dt_size := 8; dt_order := BigEndian |}.
Definition dt_int64 : dtype := {| dt_kind := KInt; dt_size := 8; dt_order := NativeOrder |}.

(** [VStr] holds the code points of a [str]; [VFloat] holds the IEEE-754
    binary64 bit pattern of a [float]; [VArray] is a one-dimensional numpy
    array whose elements are integers (or bit patterns for a float dtype);
    [VRef] is a reference to an object (a branch on the heap, or an external
    object such as the util, a key or a key cursor). *)
Inductive pyval :=
| VNone
| VBool (b : bool)
| VInt (z : Z)
| VFloat (bits : Z)
| VStr (s : list Z)
| VBytes (b : bytes)
| VList (l : list pyval)
| VArray (dt : dtype) (elems : list Z)
| VRef (id : nat).

Definition ustr (s : string) : list Z :=
  map (fun a => Z.of_N (Ascii.N_of_ascii a)) (String.list_ascii_of_string s).

Definition bstr (s : string) : bytes := String.list_byte_of_string s.

Definition pystr (s : string) : pyval := VStr (ustr s).

(** [len(v)] *)
Definition py_len (v : pyval) : result Z :=
  match v with
  | VStr s => Ok (len s)
  | VBytes b => Ok (len b)
  | VList l => Ok (len l)
  | VArray _ e => Ok (len e)
  | _ => Raise TypeError
  end.

(** The items of [for value in v]. *)
Definition py_iter (v : pyval) : result (list pyval) :=
  match v with
  | VStr s => Ok (map (fun c => VStr [c]) s)
  | VBytes b => Ok (map (fun c => VInt (Z_of_byte c)) b)
  | VList l => Ok l
  | VArray dt e =>
      Ok (map (fun z => match dt_kind dt with KInt => VInt z | KFloat => VFloat z end) e)
  | _ => Raise TypeError
  end.

(** [v[i]] for a literal index [i >= 0]. *)
Definition py_getitem (v : pyval) (i : nat) : result pyval :=
  match v with
  | VStr s => match s !! i with Some c => Ok (VStr [c]) | None => Raise IndexError end
  | VBytes b => match b !! i with Some c => Ok (VInt (Z_of_byte c)) | None => Raise IndexError end
  | VList l => match l !! i with Some x => Ok x | None => Raise IndexError end
  | VArray dt e =>
      match e !! i with
      | Some z => Ok (match dt_kind dt with KInt => VInt z | KFloat => VFloat z end)
      | None => Raise IndexError
      end
  | _ => Raise TypeError
  end.

(** [a + b] as used by [+=] on the totals and on the pieces of a buffer.
    Sequences of one type are concatenated; a numpy array has no addition
    with a byte or character string on either side.  Sums that involve a
    float, and the other sums with an array, are outside the modelled
    universe. *)
Definition py_add (a b : pyval) : result pyval :=
  match a, b with
  | VInt x, VInt y => Ok (VInt (x + y))
  | VInt x, VBool y => Ok (VInt (x + Z.b2z y))
  | VBool x, VInt y => Ok (VInt (Z.b2z x + y))
  | VBool x, VBool y => Ok (VInt (Z.b2z x + Z.b2z y))
  | VStr x, VStr y => Ok (VStr (x ++ y))
  | VBytes x, VBytes y => Ok (VBytes (x ++ y))
  | VList x, VList y => Ok (VList (x ++ y))
  | VFloat _, (VInt _ | VBool _ | VFloat _) => Raise (Unmodelled "float addition")
  | (VInt _ | VBool _), VFloat _ => Raise (Unmodelled "float addition")
  | VArray _ _, (VStr _ | VBytes _) | (VStr _ | VBytes _), VArray _ _ => Raise TypeError
  | VArray _ _, _ | _, VArray _ _ => Raise (Unmodelled "array addition")
  | _, _ => Raise TypeError
  end.

(** [buff += v] for a byte string [buff]. *)
Definition bytes_iadd (buff : bytes) (v : pyval) : result bytes :=
  let? r := py_add (VBytes buff) v in
  match r with
  | VBytes b => Ok b
  | _ => Raise TypeError
  end.


(** [lst.append(x)] on the value stored in a field. *)
Definition py_append (lst x : pyval) : result pyval :=
  match lst with
  | VList l => Ok (VList (l ++ [x]))
  | _ => Raise AttributeError
  end.

(** [v == []] *)
Definition py_eq_empty_list (v : pyval) : bool :=
  match v with
  | VList [] => true
  | _ => false
  end.

(** [v == "int"] *)
Definition py_eq_str (v : pyval) (s : string) : bool :=
  match v with
  | VStr u => bool_decide (u = ustr s)
  | _ => false
  end.

(** [self.fields[key]] *)
Definition getf (flds : gmap string pyval) (key : string) : result pyval :=
  match flds !! key with
  | Some v => Ok v
  | None => Raise (KeyError key)
  end.

(** The arguments [self.fields[k1], self.fields[k2], ...] of a call, evaluated
    left to right. *)
Definition getfs (flds : gmap string pyval) (keys : list string) : result (list pyval) :=
  rmap_list (getf flds) keys.

(** ** UTF-8 and [fixstring] *)

Definition utf8_char (c : Z) : result bytes :=
  if (c <? 0) || (0x10FFFF <? c) then Raise ValueError
  else if c <? 0x80 then Ok [byte_of_Z c]
  else if c <? 0x800 then
    Ok [byte_of_Z (Z.lor 0xC0 (Z.shiftr c 6)); byte_of_Z (Z.lor 0x80 (Z.land c 0x3F))]
  else if (0xD800 <=? c) && (c <=? 0xDFFF) then Raise UnicodeEncodeError
  else if c <? 0x10000 then
    Ok [byte_of_Z (Z.lor 0xE0 (Z.shiftr c 12));
        byte_of_Z (Z.lor 0x80 (Z.land (Z.shiftr c 6) 0x3F));
        byte_of_Z (Z.lor 0x80 (Z.land c 0x3F))]
  else
    Ok [byte_of_Z (Z.lor 0xF0 (Z.shiftr c 18));
        byte_of_Z (Z.lor 0x80 (Z.land (Z.shiftr c 12) 0x3F));
        byte_of_Z (Z.lor 0x80 (Z.land (Z.shiftr c 6) 0x3F));
        byte_of_Z (Z.lor 0x80 (Z.land c 0x3F))].

(** [s.encode("utf-8")] *)
Definition utf8_encode (s : list Z) : result bytes :=
  let? chunks := rmap_list utf8_char s in Ok (concat chunks).

(** [fixstring(string)]: bytes pass through, a [str] is encoded, anything else
    has no [encode] attribute. *)
Definition fixstring (string : pyval) : result bytes :=
  match string with
  | VBytes b => Ok b
  | VStr s => utf8_encode s
  | _ => Raise AttributeError
  end.

(** ** [struct] formats *)

(** The format characters that occur in the writer's [struct.Struct] formats;
    all of them are used big-endian (prefix [">"]), hence without padding. *)
Inductive fcode := c_B | c_H | c_h | c_I | c_i | c_q | c_f | c_d | c_bool.

Definition fcode_size (c : fcode) : nat :=
  match c with
  | c_B | c_bool => 1
  | c_H | c_h => 2
  | c_I | c_i | c_f => 4
  | c_q | c_d => 8
  end%nat.

(** [struct.Struct(fmt).size] *)
Definition struct_size (fmt : list fcode) : Z :=
  Z.of_nat (sum_list (map fcode_size fmt)).

Definition int_range (c : fcode) : option (Z * Z) :=
  match c with
  | c_B => Some (0, 255)
  | c_H => Some (0, 65535)
  | c_h => Some (-32768, 32767)
  | c_I => Some (0, 4294967295)
  | c_i => Some (-2147483648, 2147483647)
  | c_q => Some (-9223372036854775808, 9223372036854775807)
  | c_f | c_d | c_bool => None
  end.

(** Values accepted where [struct] wants an integer ([__index__]). *)
Definition as_index (v : pyval) : option Z :=
  match v with
  | VInt z => Some z
  | VBool b => Some (Z.b2z b)
  | _ => None
  end.

(** [bool(v)] *)
Definition py_truthy (v : pyval) : result bool :=
  match v with
  | VNone => Ok false
  | VBool b => Ok b
  | VInt z => Ok (negb (z =? 0))
  | VFloat bits => Ok (negb (Z.land bits 0x7FFFFFFFFFFFFFFF =? 0))
  | VStr s => Ok (negb (len s =? 0))
  | VBytes b => Ok (negb (len b =? 0))
  | VList l => Ok (negb (len l =? 0))
  | VArray _ [] => Ok false
  | VArray _ [z] => Ok (negb (z =? 0))
  | VArray _ _ => Raise ValueError
  | VRef _ => Ok true
  end.

(** ** The writer cursor *)

(** Modelled from the spec: the writer cursor of [uproot.write.sink.cursor],
    which is not among the sources.  A cursor is a write offset; [copy]
    yields an independent offset; every put operation returns the encoded
    bytes and advances the offset by their size. *)
Record Cursor := mkCursor { index : Z }.

Definition cursor_skip (n : Z) (c : Cursor) : Cursor := mkCursor (index c + n).

(** ** External collaborators and platform constants *)

(** The parts of uproot that the two source files call but do not define:
    the constant [uproot.const.kByteCountMask], the host byte order used for
    a native numpy dtype, the float conversions that [struct] performs for
    the [f] and [d] codes, the util object with [set_obj] and [put_objany],
    and [uproot.write.compress.write].  The collaborators may read and update
    their own state and move the cursor they are given; they do not touch the
    field bags of the tree or of its branches. *)
Class Collaborators := {
  kByteCountMask : Z;
  native_little_endian : bool;
  f32_of_f64 : Z → result Z;
  f64_of_int : Z → result Z;
  ExtState : Type;
  util_set_obj : pyval → ExtState → result unit * ExtState;
  util_put_objany :
    pyval → pyval → pyval → pyval → Cursor → ExtState → result bytes * (Cursor * ExtState);
  compress_write :
    pyval → Cursor → bytes → pyval → pyval → pyval → ExtState → result unit * ExtState
}.

Section Packing.
Context `{Collaborators}.

Definition pack_float (c : fcode) (v : pyval) : result bytes :=
  let? bits :=
    match v with
    | VFloat b => Ok b
    | VInt z => f64_of_int z
    | VBool b => f64_of_int (Z.b2z b)
    | _ => Raise StructError
    end in
  match c with
  | c_d => Ok (be_bytes 8 bits)
  | _ => let? single := f32_of_f64 bits in Ok (be_bytes 4 single)
  end.

Definition pack_field (c : fcode) (v : pyval) : result bytes :=
  match c with
  | c_bool => let? b := py_truthy v in Ok [byte_of_Z (Z.b2z b)]
  | c_f | c_d => pack_float c v
  | _ =>
      match as_index v, int_range c with
      | Some z, Some (lo, hi) =>
          if (lo <=? z) && (z <=? hi) then Ok (be_bytes (fcode_size c) z)
          else Raise StructError
      | _, _ => Raise StructError
      end
  end.

Fixpoint pack_fields (fmt : list fcode) (args : list pyval) : result bytes :=
  match fmt, args with
  | c :: fmt', v :: args' =>
      let? b := pack_field c v in
      let? bs := pack_fields fmt' args' in
      Ok (b ++ bs)
  | _, _ => Ok []
  end.

(** [struct.Struct(fmt).pack] on the argument list *)
Definition struct_pack (fmt : list fcode) (args : list pyval) : result bytes :=
  if bool_decide (length fmt = length args) then pack_fields fmt args
  else Raise StructError.

(** [cursor.put_fields] on a format and its arguments *)
Definition cursor_put_fields (fmt : list fcode) (args : list pyval) (c : Cursor)
  : result (bytes * Cursor) :=
  let? b := struct_pack fmt args in
  Ok (b, cursor_skip (struct_size fmt) c).

(** The format's string encoding: one length byte below 255, otherwise the
    escape byte 255 and a four-byte big-endian length. *)
Definition encode_string (data : bytes) : result bytes :=
  if len data <? 255 then Ok (byte_of_Z (len data) :: data)
  else if len data <? 4294967296 then Ok (xff :: be_bytes 4 (len data) ++ data)
  else Raise StructError.

(** [cursor.put_string(data)] *)
Definition cursor_put_string (data : pyval) (c : Cursor) : result (bytes * Cursor) :=
  match data with
  | VBytes b => let? e := encode_string b in Ok (e, cursor_skip (len e) c)
  | _ => Raise TypeError
  end.

Definition encode_elem (dt : dtype) (z : Z) : bytes :=
  match dt_order dt with
  | BigEndian => be_bytes (dt_size dt) z
  | NativeOrder =>
      if native_little_endian then le_bytes (dt_size dt) z else be_bytes (dt_size dt) z
  end.

(** [data.tobytes()] *)
Definition array_bytes (dt : dtype) (elems : list Z) : bytes :=
  concat (map (encode_elem dt) elems).

(** [cursor.put_array(data)]: the raw elements, without a length prefix. *)
Definition cursor_put_array (data : pyval) (c : Cursor) : result (bytes * Cursor) :=
  match data with
  | VArray dt e =>
      let b := array_bytes dt e in Ok (b, cursor_skip (len b) c)
  | _ => Raise AttributeError
  end.

(** Modelled from the spec: [cursor.put_data(data)] of the same cursor, an
    operation that the spec's list leaves out.  As for every write of that
    cursor the offset moves by the size of what is written, here [len(data)];
    the data are taken as already encoded and are handed back as they are,
    whatever their type. *)
Definition cursor_put_data (data : pyval) (c : Cursor) : result (pyval * Cursor) :=
  let? n := py_len data in Ok (data, cursor_skip n c).

(** ** numpy arrays *)

Definition wrap_signed (w : nat) (z : Z) : Z :=
  let m := 2 ^ (8 * Z.of_nat w) in (z + m / 2) mod m - m / 2.

Definition np_elem (dt : dtype) (v : pyval) : result Z :=
  match dt_kind dt, v with
  | KInt, (VInt _ | VBool _) =>
      let z := match v with VInt z => z | VBool b => Z.b2z b | _ => 0 end in
      if (-9223372036854775808 <=? z) && (z <=? 9223372036854775807)
      then Ok (wrap_signed (dt_size dt) z)
      else Raise OverflowError
  | KFloat, VFloat b => Ok b
  | KFloat, VInt z => f64_of_int z
  | KFloat, VBool b => f64_of_int (Z.b2z b)
  | _, _ => Raise (Unmodelled "numpy.array element")
  end.

(** [numpy.array(v, dtype=dt, copy=False)] for a flat list of numbers or an
    integer array (numpy 1.x, where [copy=False] copies when it has to). *)
Definition np_array (dt : dtype) (v : pyval) : result pyval :=
  match v with
  | VList l => let? e := rmap_list (np_elem dt) l in Ok (VArray dt e)
  | VArray dt' e =>
      match dt_kind dt', dt_kind dt with
      | KInt, KInt => Ok (VArray dt (map (wrap_signed (dt_size dt)) e))
      | KFloat, KFloat =>
          if bool_decide (dt_size dt' = dt_size dt) then Ok (VArray dt e)
          else Raise (Unmodelled "numpy.array float cast")
      | _, _ => Raise (Unmodelled "numpy.array cast")
      end
  | _ => Raise (Unmodelled "numpy.array of a non-sequence")
  end.

(** [values.size] *)
Definition np_size (v : pyval) : result Z :=
  match v with
  | VArray _ e => Ok (len e)
  | _ => Raise AttributeError
  end.

End Packing.

(** ** Objects, the world, and the method monad *)

Record TTreeObj := mkTTree {
  t_fClassName : bytes;
  t_fName : bytes;
  t_fTitle : bytes;
  t_branches : list pyval;
  t_fields : gmap string pyval;
  t_util : option pyval;       (* [None]: the attribute does not exist yet *)
  t_keycursor : option pyval
}.

Record BranchObj := mkBranch {
  b_type : pyval;
  b_name : bytes;
  b_title : bytes;
  b_defaultBasketSize : pyval;
  b_compression : pyval;
  b_util : pyval;
  b_keycursor : pyval;
  b_fields : gmap string pyval
}.

Definition t_with_fields (f : gmap string pyval) (t : TTreeObj) : TTreeObj :=
  mkTTree (t_fClassName t) (t_fName t) (t_fTitle t) (t_branches t) f
          (t_util t) (t_keycursor t).

Definition t_with_util (u : pyval) (t : TTreeObj) : TTreeObj :=
  mkTTree (t_fClassName t) (t_fName t) (t_fTitle t) (t_branches t) (t_fields t)
          (Some u) (t_keycursor t).

Definition t_with_keycursor (k : pyval) (t : TTreeObj) : TTreeObj :=
  mkTTree (t_fClassName t) (t_fName t) (t_fTitle t) (t_branches t) (t_fields t)
          (t_util t) (Some k).

Definition b_with_fields (f : gmap string pyval) (b : BranchObj) : BranchObj :=
  mkBranch (b_type b) (b_name b) (b_title b) (b_defaultBasketSize b)
           (b_compression b) (b_util b) (b_keycursor b) f.

Definition b_with_util (u : pyval) (b : BranchObj) : BranchObj :=
  mkBranch (b_type b) (b_name b) (b_title b) (b_defaultBasketSize b)
           (b_compression b) u (b_keycursor b) (b_fields b).

Definition b_with_keycursor (k : pyval) (b : BranchObj) : BranchObj :=
  mkBranch (b_type b) (b_name b) (b_title b) (b_defaultBasketSize b)
           (b_compression b) (b_util b) k (b_fields b).

Section Writer.
Context `{Collaborators}.

(** The world a method runs in: the cursor object it was handed, the tree,
    the heap of branch objects (a branch is known to the tree by its
    reference), and the collaborators' state. *)
Record World := mkWorld {
  w_cursor : Cursor;
  w_tree : TTreeObj;
  w_heap : gmap nat BranchObj;
  w_ext : ExtState
}.

Definition w_with_cursor (c : Cursor) (w : World) : World :=
  mkWorld c (w_tree w) (w_heap w) (w_ext w).
Definition w_with_tree (t : TTreeObj) (w : World) : World :=
  mkWorld (w_cursor w) t (w_heap w) (w_ext w).
Definition w_with_heap (h : gmap nat BranchObj) (w : World) : World :=
  mkWorld (w_cursor w) (w_tree w) h (w_ext w).
Definition w_with_ext (e : ExtState) (w : World) : World :=
  mkWorld (w_cursor w) (w_tree w) (w_heap w) e.

(** A method returns a value or raises; either way the world it leaves behind
    carries every mutation made up to that point. *)
Definition M (A : Type) : Type := World → result A * World.

Definition ret {A} (a : A) : M A := fun w => (Ok a, w).

Definition bind {A B} (m : M A) (k : A → M B) : M B :=
  fun w =>
    match m w with
    | (Ok a, w') => k a w'
    | (Raise e, w') => (Raise e, w')
    end.

Definition raise {A} (e : exn) : M A := fun w => (Raise e, w).

Definition lift {A} (r : result A) : M A := fun w => (r, w).

Notation "'let!' x ':=' c 'in' k" := (bind c (fun x => k))
  (at level 10, x pattern, c at level 100, k at level 200).
Notation "'do!' c 'in' k" := (bind c (fun _ => k))
  (at level 10, c at level 100, k at level 200).

(** [copy(cursor)] *)
Definition copy_of_cursor : M Cursor := fun w => (Ok (w_cursor w), w).

(** [cursor.skip(n)] *)
Definition skip (n : Z) : M unit :=
  fun w => (Ok tt, w_with_cursor (cursor_skip n (w_cursor w)) w).

Definition on_cursor {A} (f : Cursor → result (A * Cursor)) : M A :=
  fun w =>
    match f (w_cursor w) with
    | Ok (a, c) => (Ok a, w_with_cursor c w)
    | Raise e => (Raise e, w)
    end.

Definition put_fields (fmt : list fcode) (args : list pyval) : M bytes :=
  on_cursor (cursor_put_fields fmt args).
Definition put_string (data : pyval) : M bytes := on_cursor (cursor_put_string data).
Definition put_array (data : pyval) : M bytes := on_cursor (cursor_put_array data).
Definition put_data (data : pyval) : M pyval := on_cursor (cursor_put_data data).

(** ** Record framing *)

Definition _format_cntvers : list fcode := [c_I; c_H].

(** [numpy.int64(n)] *)
Definition np_int64 (n : Z) : result Z :=
  if (-9223372036854775808 <=? n) && (n <=? 9223372036854775807) then Ok n
  else Raise OverflowError.

(** The three lines that close every framing method:
<<
      length = len(buff) + self._format_cntvers.size
      cnt = numpy.int64(length - 4) | uproot.const.kByteCountMask
      return copy_cursor.put_fields(self._format_cntvers, cnt, vers) + buff
>> *)
Definition byte_count (buff : bytes) : result Z :=
  let length := len buff + struct_size _format_cntvers in
  let? n := np_int64 (length - 4) in
  Ok (Z.lor n kByteCountMask).

Definition finish_frame (copy_cursor : Cursor) (vers : Z) (buff : bytes) : result bytes :=
  let? cnt := byte_count buff in
  let? hc := cursor_put_fields _format_cntvers [VInt cnt; VInt vers] copy_cursor in
  Ok (fst hc ++ buff).

(** ** class TTree *)

Definition TTree_fields_init : gmap string pyval :=
  list_to_map
    [("_fLineColor", VInt 602);
     ("_fLineStyle", VInt 1);
     ("_fLineWidth", VInt 1);
     ("_fFillColor", VInt 0);
     ("_fFillStyle", VInt 1001);
     ("_fMarkerColor", VInt 1);
     ("_fMarkerStyle", VInt 1);
     ("_fMarkerSize", VFloat 0x3FF0000000000000);
     ("_fEntries", VInt 0);
     ("_fTotBytes", VInt 0);
     ("_fZipBytes", VInt 0);
     ("_fSavedBytes", VInt 0);
     ("_fFlushedBytes", VInt 0);
     ("_fWeight", VFloat 0x3FF0000000000000);
     ("_fTimerInterval", VInt 0);
     ("_fScanField", VInt 25);
     ("_fUpdate", VInt 0);
     ("_fDefaultEntryOffsetLen", VInt 1000);
     ("_fNClusterRange", VInt 0);
     ("_fMaxEntries", VInt 1000000000000);
     ("_fMaxEntryLoop", VInt 1000000000000);
     ("_fMaxVirtualSize", VInt 0);
     ("_fAutoSave", VInt (-300000000));
     ("_fAutoFlush", VInt (-30000000));
     ("_fEstimate", VInt 1000000);
     ("_fClusterRangeEnd", VList []);
     ("_fClusterSize", VList []);
     ("_fBranches", VList []);
     ("_fFriends", VNone);
     ("_fTreeIndex", VNone);
     ("_fIndex", VList []);
     ("_fIndexValues", VList []);
     ("_fAliases", VNone);
     ("_fLeaves", VList []);
     ("_fUserInfo", VNone);
     ("_fBranchRef", VNone)].

(** [TTree.__init__(self, name, title, *branches, **options)] *)
Definition TTree_init (name title : pyval) (branches : list pyval) : result TTreeObj :=
  let? fName := fixstring name in
  let? fTitle := fixstring title in
  Ok (mkTTree (bstr "TTree") fName fTitle branches TTree_fields_init None None).

Definition self_tree : M TTreeObj := fun w => (Ok (w_tree w), w).

(** [self.fields[key]] on the tree *)
Definition tree_field (key : string) : M pyval :=
  fun w => (getf (t_fields (w_tree w)) key, w).

Definition tree_field_args (keys : list string) : M (list pyval) :=
  fun w => (getfs (t_fields (w_tree w)) keys, w).

(** [self.fields[key] = v] on the tree *)
Definition set_tree_field (key : string) (v : pyval) : M unit :=
  fun w => (Ok tt, w_with_tree (t_with_fields (<[key := v]> (t_fields (w_tree w))) (w_tree w)) w).

Definition call_put_objany (util value classname keycursor : pyval) : M bytes :=
  fun w =>
    let '(r, (c, e)) := util_put_objany util value classname keycursor (w_cursor w) (w_ext w) in
    (r, w_with_ext e (w_with_cursor c w)).

(** [self.util.put_objany(cursor, (value, classname), self.keycursor)] on the
    tree; [value] is the expression that produces the first component. *)
Definition TTree_util_put_objany (value : M pyval) (classname : pyval) : M bytes :=
  let! self := self_tree in
  match t_util self with
  | None | Some VNone => raise AttributeError
  | Some util =>
      let! v := value in
      match t_keycursor self with
      | None => raise AttributeError
      | Some keycursor => call_put_objany util v classname keycursor
      end
  end.

Definition _format_tobject1 : list fcode := [c_H; c_I; c_I].

Definition TTree_put_tobject : M bytes :=
  put_fields _format_tobject1 [VInt 1; VInt 0; VInt 0x03000000].

Definition TTree_put_tnamed (name title : pyval) : M bytes :=
  let! copy_cursor := copy_of_cursor in
  do! skip (struct_size _format_cntvers) in
  let vers := 1 in
  let! b1 := TTree_put_tobject in
  let! b2 := put_string name in
  let! b3 := put_string title in
  let buff := b1 ++ b2 ++ b3 in
  lift (finish_frame copy_cursor vers buff).

Definition _format_tattline : list fcode := [c_h; c_h; c_h].

Definition TTree_put_tattline : M bytes :=
  let! copy_cursor := copy_of_cursor in
  do! skip (struct_size _format_cntvers) in
  let vers := 2 in
  let! args := tree_field_args ["_fLineColor"; "_fLineStyle"; "_fLineWidth"] in
  let! buff := put_fields _format_tattline args in
  lift (finish_frame copy_cursor vers buff).

Definition _format_tattfill : list fcode := [c_h; c_h].

Definition TTree_put_tattfill : M bytes :=
  let! copy_cursor := copy_of_cursor in
  do! skip (struct_size _format_cntvers) in
  let vers := 2 in
  let! args := tree_field_args ["_fFillColor"; "_fFillStyle"] in
  let! buff := put_fields _format_tattfill args in
  lift (finish_frame copy_cursor vers buff).

Definition _format_tattmarker : list fcode := [c_h; c_h; c_f].

Definition TTree_put_tattmarker : M bytes :=
  let! copy_cursor := copy_of_cursor in
  do! skip (struct_size _format_cntvers) in
  let vers := 2 in
  let! args := tree_field_args ["_fMarkerColor"; "_fMarkerStyle"; "_fMarkerSize"] in
  let! buff := put_fields _format_tattmarker args in
  lift (finish_frame copy_cursor vers buff).

Definition _format_rootiofeatures : list fcode := [c_B].

Definition put_rootiofeatures : M bytes :=
  let! copy_cursor := copy_of_cursor in
  do! skip (struct_size _format_cntvers) in
  let vers := 0 in
  let fIOBits := 0 in
  do! skip 4 in
  let! b := put_fields _format_rootiofeatures [VInt fIOBits] in
  let buff := [x1a; xa1; x2f; x10] ++ b in
  lift (finish_frame copy_cursor vers buff).

Definition TTree_put_rootiofeatures : M bytes := put_rootiofeatures.

Definition _format_skiptobj1 : list fcode := [c_h].
Definition _format_skiptobj2 : list fcode := [c_I; c_I].

Definition _skiptobj (fBits : pyval) : M bytes :=
  let version := 1 in
  let! b1 := put_fields _format_skiptobj1 [VInt version] in
  let fUniqueID := 0 in
  let! b2 := put_fields _format_skiptobj2 [VInt fUniqueID; fBits] in
  ret (b1 ++ b2).

Definition _format_tobjarray1 : list fcode := [c_i; c_i].

(** [for value in values: buff += put_objany(...)] *)
Fixpoint for_each_value (put : pyval → M bytes) (values : list pyval) (buff : bytes)
  : M bytes :=
  match values with
  | [] => ret buff
  | value :: rest =>
      let! b := put value in
      for_each_value put rest (buff ++ b)
  end.

Definition TTree_put_tobjarray (values : pyval) (classname : pyval) (fBits : pyval) : M bytes :=
  let! copy_cursor := copy_of_cursor in
  do! skip (struct_size _format_cntvers) in
  let! b0 := _skiptobj fBits in
  let vers := 3 in
  let! size := lift (py_len values) in
  let low := 0 in
  let! b1 := put_string (VBytes []) in
  let! b2 := put_fields _format_tobjarray1 [VInt size; VInt low] in
  let! items := lift (py_iter values) in
  let! buff :=
    for_each_value (fun value => TTree_util_put_objany (ret value) classname)
                   items (b0 ++ b1 ++ b2) in
  lift (finish_frame copy_cursor vers buff).

Definition fBits_default : pyval := VInt 50331648.

Definition _format_tarray : list fcode := [c_i].

Definition TTree_put_tarray (values : pyval) : M bytes :=
  let! size := lift (np_size values) in
  let! b1 := put_fields _format_tarray [VInt size] in
  let! b2 := put_array values in
  ret (b1 ++ b2).

Definition _format_ttree : list fcode :=
  [c_q; c_q; c_q; c_q; c_q; c_d; c_i; c_i; c_i; c_i; c_I; c_q; c_q; c_q; c_q; c_q; c_q].

(** [branch.fields] for one element of [self.branches]: only a branch object
    on the heap has a field bag. *)
Definition branch_fields_of (branch : pyval) : M (gmap string pyval) :=
  fun w =>
    match branch with
    | VRef id =>
        match w_heap w !! id with
        | Some b => (Ok (b_fields b), w)
        | None => (Raise AttributeError, w)
        end
    | _ => (Raise AttributeError, w)
    end.

(** [self.fields[key] += branch.fields[key]] *)
Definition add_branch_field (key : string) (branch : pyval) : M unit :=
  let! old := tree_field key in
  let! bf := branch_fields_of branch in
  let! x := lift (getf bf key) in
  let! new := lift (py_add old x) in
  set_tree_field key new.

(** [self.fields[key].append(item)] *)
Definition append_tree_field (key : string) (item : M pyval) : M unit :=
  let! old := tree_field key in
  match old with
  | VList l => let! x := item in set_tree_field key (VList (l ++ [x]))
  | _ => raise AttributeError
  end.

(** [branch.util = self.util; branch.keycursor = self.keycursor] *)
Definition set_branch_attr (upd : pyval → BranchObj → BranchObj) (attr : option pyval)
    (branch : pyval) : M unit :=
  fun w =>
    match attr, branch with
    | Some v, VRef id =>
        match w_heap w !! id with
        | Some b => (Ok tt, w_with_heap (<[id := upd v b]> (w_heap w)) w)
        | None => (Raise AttributeError, w)
        end
    | _, _ => (Raise AttributeError, w)
    end.

(** One turn of the loop over [self.branches] in [TTree.write]. *)
Definition TTree_write_branch (branch : pyval) : M unit :=
  do! add_branch_field "_fEntries" branch in
  do! add_branch_field "_fTotBytes" branch in
  do! add_branch_field "_fZipBytes" branch in
  do! append_tree_field "_fLeaves"
        (let! bf := branch_fields_of branch in lift (getf bf "_fLeaves")) in
  let! self := self_tree in
  do! set_branch_attr b_with_util (t_util self) branch in
  do! set_branch_attr b_with_keycursor (t_keycursor self) branch in
  append_tree_field "_fBranches" (ret branch).

Fixpoint for_each_branch (body : pyval → M unit) (branches : list pyval) : M unit :=
  match branches with
  | [] => ret tt
  | branch :: rest => do! body branch in for_each_branch body rest
  end.

(** [for branch in self.branches: ...] *)
Definition TTree_write_loop : M unit :=
  let! self := self_tree in
  for_each_branch TTree_write_branch (t_branches self).

(** [self.fields[key] = numpy.array(self.fields[key], dtype=dt, copy=False)] *)
Definition convert_tree_field (key : string) (dt : dtype) : M unit :=
  let! v := tree_field key in
  let! a := lift (np_array dt v) in
  set_tree_field key a.

(** The opening statements of [TTree.write], up to the loop: they attach the
    util and the key cursor, reserve the outer header and turn the four list
    fields into arrays.  The result is the pair [copy_cursor, write_cursor]. *)
Definition TTree_write_open (keycursor util : pyval) : M (Cursor * Cursor) :=
  do! (fun w => (Ok tt, w_with_tree (t_with_util util (w_tree w)) w)) in
  do! (match util with
       | VNone => raise AttributeError
       | _ => fun w => let '(r, e) := util_set_obj util (w_ext w) in (r, w_with_ext e w)
       end) in
  let! copy_cursor := copy_of_cursor in
  let! write_cursor := copy_of_cursor in
  do! (fun w => (Ok tt, w_with_tree (t_with_keycursor keycursor (w_tree w)) w)) in
  do! skip (struct_size _format_cntvers) in
  do! convert_tree_field "_fClusterRangeEnd" dt_int64 in
  do! convert_tree_field "_fClusterSize" dt_int64 in
  do! convert_tree_field "_fIndexValues" dt_f8_be in
  do! convert_tree_field "_fIndex" dt_i8_be in
  ret (copy_cursor, write_cursor).

(** The statements of [TTree.write] that build [buff]. *)
Definition TTree_write_buff (name : pyval) : M bytes :=
  let! self := self_tree in
  let! b1 := TTree_put_tnamed name (VBytes (t_fTitle self)) in
  let! b2 := TTree_put_tattline in
  let! b3 := TTree_put_tattfill in
  let! b4 := TTree_put_tattmarker in
  let! args := tree_field_args
    ["_fEntries"; "_fTotBytes"; "_fZipBytes"; "_fSavedBytes"; "_fFlushedBytes";
     "_fWeight"; "_fTimerInterval"; "_fScanField"; "_fUpdate";
     "_fDefaultEntryOffsetLen"; "_fNClusterRange"; "_fMaxEntries"; "_fMaxEntryLoop";
     "_fMaxVirtualSize"; "_fAutoSave"; "_fAutoFlush"; "_fEstimate"] in
  let! b5 := put_fields _format_ttree args in
  let! cre := tree_field "_fClusterRangeEnd" in
  let! b6 := put_array cre in
  let buff := b1 ++ b2 ++ b3 ++ b4 ++ b5 ++ b6 ++ [x00] in
  do! skip (len [x00]) in
  let! cs := tree_field "_fClusterSize" in
  let! b7 := put_array cs in
  let buff := buff ++ b7 ++ [x00] in
  do! skip (len [x00]) in
  let! b8 := TTree_put_rootiofeatures in
  let! branches := tree_field "_fBranches" in
  let! b9 := TTree_put_tobjarray branches (pystr "TBranch") fBits_default in
  let buff := buff ++ b8 ++ b9 in
  let! branches := tree_field "_fBranches" in
  let! b10 :=
    if py_eq_empty_list branches then
      let! leaves := tree_field "_fLeaves" in
      TTree_put_tobjarray leaves (pystr "TLeaf") fBits_default
    else
      let! leaves := tree_field "_fLeaves" in
      let! l0 := lift (py_getitem leaves 0) in
      let! values := lift (py_getitem l0 0) in
      let! leaves := tree_field "_fLeaves" in
      let! l0 := lift (py_getitem leaves 0) in
      let! classname := lift (py_getitem l0 1) in
      TTree_put_tobjarray values classname fBits_default in
  let buff := buff ++ b10 in
  let! b11 := TTree_util_put_objany (tree_field "_fAliases") (pystr "TList") in
  let! iv := tree_field "_fIndexValues" in
  let! b12 := TTree_put_tarray iv in
  let! ix := tree_field "_fIndex" in
  let! b13 := TTree_put_tarray ix in
  let! b14 := TTree_util_put_objany (tree_field "_fTreeIndex") (pystr "TVirtualIndex") in
  let! b15 := TTree_util_put_objany (tree_field "_fFriends") (pystr "TList") in
  let! b16 := TTree_util_put_objany (tree_field "_fUserInfo") (pystr "TList") in
  let! b17 := TTree_util_put_objany (tree_field "_fBranchRef") (pystr "TBranchRef") in
  ret (buff ++ b11 ++ b12 ++ b13 ++ b14 ++ b15 ++ b16 ++ b17).

(** [TTree.write] up to and including the assignment of [givenbytes]; the
    result is [write_cursor] and [givenbytes], the two values that the method
    then hands to the compression collaborator. *)
Definition TTree_write_givenbytes (name keycursor util : pyval) : M (Cursor * bytes) :=
  let! cursors := TTree_write_open keycursor util in
  let vers := 20 in
  do! TTree_write_loop in
  let! buff := TTree_write_buff name in
  let! givenbytes := lift (finish_frame (fst cursors) vers buff) in
  ret (snd cursors, givenbytes).

(** [TTree.write(self, context, cursor, name, compression, key, keycursor, util)] *)
Definition TTree_write (context name compression key keycursor util : pyval) : M unit :=
  let! given := TTree_write_givenbytes name keycursor util in
  fun w =>
    let '(r, e) :=
      compress_write context (fst given) (snd given) compression key keycursor (w_ext w) in
    (r, w_with_ext e w).

(** ** class branch *)

Definition zeros10 : pyval :=
  VList [VInt 0; VInt 0; VInt 0; VInt 0; VInt 0; VInt 0; VInt 0; VInt 0; VInt 0; VInt 0].

(** The dictionary literal of [branch.__init__]; the fifth key is spelled as
    in the source. *)
Definition branch_fields_literal (defaultBasketSize : pyval) : gmap string pyval :=
  list_to_map
    [("_fCompress", VInt 100);
     ("_fBasketSize", defaultBasketSize);
     ("_fEntryOffsetLen", VInt 0);
     ("_fWriteBasket", VInt 0);
     ("_fEntry        self.put_tleaf(cursor)Number", VInt 0);
     ("_fOffset", VInt 0);
     ("_fMaxBaskets", VInt 10);
     ("_fSplitLevel", VInt 0);
     ("_fEntries", VInt 0);
     ("_fFirstEntry", VInt 0);
     ("_fTotBytes", VInt 0);
     ("_fZipBytes", VInt 0);
     ("_fBasketBytes", zeros10);
     ("_fBasketEntry", zeros10);
     ("_fBasketSeek", zeros10);
     ("_fFileName", VBytes []);
     ("_fBranches", VList []);
     ("_fLeaves", VList []);
     ("_fFillColor", VInt 0);
     ("_fFillStyle", VInt 1001);
     ("_fEntryNumber", VInt 0)].

Definition convert_field (key : string) (dt : dtype) (flds : gmap string pyval)
  : result (gmap string pyval) :=
  let? v := getf flds key in
  let? a := np_array dt v in
  Ok (<[key := a]> flds).

(** The field bag that [branch.__init__] builds: the dictionary literal, the
    leaf of an integer branch, and the three basket arrays as numpy arrays. *)
Definition branch_fields_init (type defaultBasketSize : pyval) : result (gmap string pyval) :=
  let fields := branch_fields_literal defaultBasketSize in
  let fields :=
    if py_eq_str type "int" then <["_fLeaves" := VList [pystr "TLeafI"]]> fields
    else fields in
  let? fields := convert_field "_fBasketBytes" dt_i4_be fields in
  let? fields := convert_field "_fBasketEntry" dt_i8_be fields in
  convert_field "_fBasketSeek" dt_i8_be fields.

(** [branch.__init__(self, type, name, title, defaultBasketSize=32000, compression=None)] *)
Definition branch_init (type name title defaultBasketSize compression : pyval)
  : result BranchObj :=
  let? self_name := fixstring name in
  let? self_title := fixstring name in
  let? fields := branch_fields_init type defaultBasketSize in
  Ok (mkBranch type self_name self_title defaultBasketSize compression VNone VNone fields).

Definition defaultBasketSize_default : pyval := VInt 32000.
Definition compression_default : pyval := VNone.

(** [branch.extend], [branch.basket] and [branch.append] *)
Definition branch_extend (self : nat) (items : pyval) : M unit := raise NotImplementedError.

Definition branch_basket (self : nat) (items : pyval) : M unit := raise NotImplementedError.

Definition branch_append (self : nat) (item : pyval) : M unit := branch_extend self item.

Section BranchMethods.
Variable self : BranchObj.

Definition branch_field (key : string) : M pyval := lift (getf (b_fields self) key).

Definition branch_field_args (keys : list string) : M (list pyval) :=
  lift (getfs (b_fields self) keys).

(** [self.util.put_objany(cursor, (value, classname), self.keycursor)] *)
Definition branch_util_put_objany (value classname : pyval) : M bytes :=
  match b_util self with
  | VNone => raise AttributeError
  | util => call_put_objany util value classname (b_keycursor self)
  end.

Definition branch_put_tobject : M bytes :=
  put_fields _format_tobject1 [VInt 1; VInt 0; VInt 0x03400000].

Definition branch_put_tnamed (name title : pyval) : M bytes :=
  let! copy_cursor := copy_of_cursor in
  do! skip (struct_size _format_cntvers) in
  let vers := 1 in
  let! b1 := branch_put_tobject in
  let! b2 := put_string name in
  let! b3 := put_string title in
  let buff := b1 ++ b2 ++ b3 in
  lift (finish_frame copy_cursor vers buff).

Definition branch_put_tattfill : M bytes :=
  let! copy_cursor := copy_of_cursor in
  do! skip (struct_size _format_cntvers) in
  let vers := 2 in
  let! args := branch_field_args ["_fFillColor"; "_fFillStyle"] in
  let! buff := put_fields _format_tattfill args in
  lift (finish_frame copy_cursor vers buff).

Definition branch_put_rootiofeatures : M bytes := put_rootiofeatures.

Definition _format_tleaf1 : list fcode := [c_i; c_i; c_i; c_bool; c_bool].

Definition branch_put_tleaf : M bytes :=
  let! copy_cursor := copy_of_cursor in
  do! skip (struct_size _format_cntvers) in
  let vers := 2 in
  let fLen := 1 in
  let fLenType := 4 in
  let fOffset := 0 in
  let fIsRange := false in
  let fIsUnsigned := false in
  let fLeafCount := VNone in
  let! b1 := branch_put_tnamed (VBytes (b_name self)) (VBytes (b_title self)) in
  let! b2 := put_fields _format_tleaf1
               [VInt fLen; VInt fLenType; VInt fOffset; VBool fIsRange; VBool fIsUnsigned] in
  let! b3 := branch_util_put_objany fLeafCount (pystr "TLeaf") in
  let buff := b1 ++ b2 ++ b3 in
  lift (finish_frame copy_cursor vers buff).

Definition _format_tleafI1 : list fcode := [c_i; c_i].

Definition branch_put_tleafI : M bytes :=
  let! copy_cursor := copy_of_cursor in
  do! skip (struct_size _format_cntvers) in
  let vers := 1 in
  let fMinimum := 0 in
  let fMaximum := 0 in
  let! b1 := branch_put_tleaf in
  let! b2 := put_fields _format_tleafI1 [VInt fMinimum; VInt fMaximum] in
  let buff := b1 ++ b2 in
  lift (finish_frame copy_cursor vers buff).

(** [branch.put_tobjarray]: a value without [len] is wrapped in a list. *)
Definition branch_put_tobjarray (values : pyval) (classname : pyval) (fBits : pyval)
  : M bytes :=
  let! copy_cursor := copy_of_cursor in
  do! skip (struct_size _format_cntvers) in
  let! b0 := _skiptobj fBits in
  let vers := 3 in
  let! sv := lift (match py_len values with
                   | Ok size => let? items := py_iter values in Ok (size, items)
                   | Raise TypeError => Ok (1, [values])
                   | Raise e => Raise e
                   end) in
  let size := fst sv in
  let low := 0 in
  let! b1 := put_string (VBytes []) in
  let! b2 := put_fields _format_tobjarray1 [VInt size; VInt low] in
  let! buff :=
    for_each_value (fun value => branch_util_put_objany value classname)
                   (snd sv) (b0 ++ b1 ++ b2) in
  lift (finish_frame copy_cursor vers buff).

Definition _format_tbranch1 : list fcode := [c_i; c_i; c_i; c_i; c_q].
Definition _format_tbranch2 : list fcode := [c_i; c_I; c_i; c_q; c_q; c_q; c_q].

(** The 25 literal bytes that [branch.write] emits in place of the basket
    array. *)
Definition baskets_literal : bytes :=
  [x40; x00; x00; x15; x00; x03; x00; x01; x00; x00; x00; x00; x03;
   x00; x00; x00; x00; x00; x00; x00; x00; x00; x00; x00; x00].

(** The statements of [branch.write] that build [buff]. *)
Definition branch_write_buff : M bytes :=
  let! b1 := branch_put_tnamed (VBytes (b_name self)) (VBytes (b_title self ++ bstr "/I")) in
  let! b2 := branch_put_tattfill in
  let! args1 := branch_field_args
    ["fCompress"; "fBasketSize"; "fEntryOffsetLen"; "fWriteBasket"; "fEntryNumber"] in
  let! b3 := put_fields _format_tbranch1 args1 in
  let! b4 := branch_put_rootiofeatures in
  let! args2 := branch_field_args
    ["fOffset"; "fMaxBaskets"; "fSplitLevel"; "fEntries"; "fFirstEntry";
     "fTotBytes"; "fZipBytes"] in
  let! b5 := put_fields _format_tbranch2 args2 in
  let! branches := branch_field "_fBranches" in
  let! b6 := branch_put_tobjarray branches (pystr "TBranch") fBits_default in
  let! leaves := branch_field "_fLeaves" in
  let! values := lift (py_getitem leaves 0) in
  let! leaves := branch_field "_fLeaves" in
  let! classname := lift (py_getitem leaves 1) in
  let! b7 := branch_put_tobjarray values classname fBits_default in
  let buff := b1 ++ b2 ++ b3 ++ b4 ++ b5 ++ b6 ++ b7 ++ baskets_literal in
  do! skip (len baskets_literal) in
  let buff := buff ++ [x01] in
  do! skip (len [x01]) in
  let! bb := branch_field "fBasketBytes" in
  let! d8 := put_data bb in
  let! s8 := lift (py_add d8 (VBytes [x01])) in
  let! buff := lift (bytes_iadd buff s8) in
  do! skip (len [x01]) in
  let! be := branch_field "fBasketEntry" in
  let! d9 := put_data be in
  let! bs := branch_field "fBasketSeek" in
  let! d10 := put_data bs in
  let! s9 := lift (py_add d9 d10) in
  let! fn := branch_field "fFileName" in
  let! b11 := put_string fn in
  let! s10 := lift (py_add s9 (VBytes b11)) in
  let! s11 := lift (py_add s10 (VBytes [x00])) in
  let! buff := lift (bytes_iadd buff s11) in
  do! skip (len [x00]) in
  ret buff.

(** [branch.write(self, cursor)] *)
Definition branch_write : M bytes :=
  let! copy_cursor := copy_of_cursor in
  do! skip (struct_size _format_cntvers) in
  let vers := 13 in
  let! buff := branch_write_buff in
  lift (finish_frame copy_cursor vers buff).

End BranchMethods.

(** A method call [b.method(...)] on the branch object with reference [id]. *)
Definition on_branch {A} (id : nat) (method : BranchObj → M A) : M A :=
  fun w =>
    match w_heap w !! id with
    | Some self => method self w
    | None => (Raise AttributeError, w)
    end.

End Writer.

(** ** class Key ([write/TObjString/key.py]) *)

Record KeyObj := mkKey {
  k_string : pyval;
  k_fVersion : Z;
  k_fObjlen : Z;
  k_fDatime : Z;
  k_fKeylen : Z;
  k_fNbytes : Z;
  k_fCycle : Z;
  k_fSeekKey : pyval;
  k_fSeekPdir : Z;
  k_packer : string;
  k_fClassName : bytes;
  k_fName : pyval;
  k_fTitle : bytes
}.

(** [Key.__init__(self, string, stringloc)] *)
Definition Key_init (string stringloc : pyval) : result KeyObj :=
  let? n := py_len string in
  let fVersion := 4 in
  let fObjlen := 17 + n in
  let fDatime := 1573188772 in
  let fKeylen := 0 in
  let fNbytes := fObjlen + fKeylen in
  let fCycle := 1 in
  let fSeekPdir := 100 in
  Ok (mkKey string fVersion fObjlen fDatime fKeylen fNbytes fCycle stringloc fSeekPdir
            ">ihiIhhii" (bstr "TObjString") string (bstr "Collectable string class")).

Definition KeyValues : Type :=
  String.string * Z * Z * Z * Z * Z * Z * pyval * Z * bytes * pyval * bytes.

(** [Key.values(self)]: the returned tuple, and the object after the call. *)
Definition Key_values (self : KeyObj) : KeyValues * KeyObj :=
  ((k_packer self, k_fNbytes self, k_fVersion self, k_fObjlen self, k_fDatime self,
    k_fKeylen self, k_fCycle self, k_fSeekKey self, k_fSeekPdir self,
    k_fClassName self, k_fName self, k_fTitle self),
   self).

(** ** A reference environment for concrete runs *)

(** Narrowing of a binary64 pattern that is exactly representable in
    binary32 (zero, or a normal number whose low 29 fraction bits are clear). *)
Definition narrow_exact (bits : Z) : result Z :=
  let sign := Z.shiftr bits 63 in
  let e := Z.land (Z.shiftr bits 52) 0x7FF in
  let m := Z.land bits (2 ^ 52 - 1) in
  if (e =? 0) && (m =? 0) then Ok (Z.shiftl sign 31)
  else if (Z.land m (2 ^ 29 - 1) =? 0) && (897 <=? e) && (e <=? 1150)
  then Ok (Z.lor (Z.shiftl sign 31) (Z.lor (Z.shiftl (e - 896) 23) (Z.shiftr m 29)))
  else Raise (Unmodelled "float rounding").

Definition small_int_to_f64 (z : Z) : result Z :=
  if z =? 0 then Ok 0
  else if z =? 1 then Ok 0x3FF0000000000000
  else Raise (Unmodelled "int to float").

(** Modelled from the spec: the dispatcher's behaviour on an absent value
    (section 4.3, "emit the format's canonical no-object marker"), here four
    zero bytes; a present value has no registered writer in this environment
    and fails with UnsupportedType. *)
Definition ref_put_objany (util value classname keycursor : pyval) (c : Cursor)
    (log : list bytes) : result bytes * (Cursor * list bytes) :=
  match value with
  | VNone => (Ok [x00; x00; x00; x00], (cursor_skip 4 c, log))
  | _ => (Raise (OtherError "UnsupportedType"), (c, log))
  end.

(** The reference environment: ROOT's byte-count mask, a little-endian host,
    and a compression collaborator that records the payloads it is given. *)
Definition ref_env : Collaborators := {|
  kByteCountMask := 0x40000000;
  native_little_endian := true;
  f32_of_f64 := narrow_exact;
  f64_of_int := small_int_to_f64;
  ExtState := list bytes;
  util_set_obj := fun _ log => (Ok tt, log);
  util_put_objany := ref_put_objany;
  compress_write := fun _ _ givenbytes _ _ _ log => (Ok tt, log ++ [givenbytes])
|}.

(** ** Vocabulary of the statements *)

(** Reading a frame header back: the four-byte count, the two-byte version
    that follows it, and the body after the six header bytes. *)
Definition frame_count (out : bytes) : Z := be_value 0 (take 4 out).
Definition frame_version (out : bytes) : Z := be_value 0 (take 2 (drop 4 out)).
Definition frame_body (out : bytes) : bytes := drop 6 out.

(** The integer stored under [key] in a field bag. *)
Definition int_field (flds : gmap string pyval) (key : string) : option Z :=
  match flds !! key with
  | Some (VInt z) => Some z
  | _ => None
  end.

(** The field bag behind one element of [self.branches]. *)
Definition branch_bag (heap : gmap nat BranchObj) (branch : pyval)
  : option (gmap string pyval) :=
  match branch with
  | VRef id => b_fields <$> (heap !! id)
  | _ => None
  end.

(** The integers stored under [key] in the branches of a tree, in order. *)
Fixpoint branch_ints (key : string) (heap : gmap nat BranchObj) (branches : list pyval)
  : option (list Z) :=
  match branches with
  | [] => Some []
  | VRef id :: rest =>
      match heap !! id with
      | Some b =>
          match int_field (b_fields b) key, branch_ints key heap rest with
          | Some x, Some xs => Some (x :: xs)
          | _, _ => None
          end
      | None => None
      end
  | _ :: _ => None
  end.

Definition sum_Z (xs : list Z) : Z := foldr Z.add 0 xs.

Definition totals_keys : list string := ["_fEntries"; "_fTotBytes"; "_fZipBytes"].

(** The three basket bookkeeping arrays of a field bag. *)
Definition basket_arrays (flds : gmap string pyval) : option (list Z * list Z * list Z) :=
  match flds !! "_fBasketBytes", flds !! "_fBasketEntry", flds !! "_fBasketSeek" with
  | Some (VArray _ a), Some (VArray _ b), Some (VArray _ c) => Some (a, b, c)
  | _, _, _ => None
  end.

(** The invariant of the basket bookkeeping: three arrays of ten elements
    each, and zero in every slot from the number of baskets written on. *)
Definition basket_arrays_ok (flds : gmap string pyval) : bool :=
  match basket_arrays flds, int_field flds "_fWriteBasket" with
  | Some (a, b, c), Some n =>
      bool_decide (length a = 10%nat) && bool_decide (length b = 10%nat)
      && bool_decide (length c = 10%nat)
      && forallb (Z.eqb 0) (drop (Z.to_nat n) a)
      && forallb (Z.eqb 0) (drop (Z.to_nat n) b)
      && forallb (Z.eqb 0) (drop (Z.to_nat n) c)
  | _, _ => false
  end.

Section Statements.
Context `{Collaborators}.

(** The framing methods of the two classes, with their arguments. *)
Inductive record_kind :=
| K_TTree_tnamed (name title : pyval)
| K_TTree_tattline
| K_TTree_tattfill
| K_TTree_tattmarker
| K_TTree_rootiofeatures
| K_TTree_tobjarray (values classname fBits : pyval)
| K_TTree_record (name keycursor util : pyval)
| K_branch_tnamed (self : BranchObj) (name title : pyval)
| K_branch_tattfill (self : BranchObj)
| K_branch_rootiofeatures (self : BranchObj)
| K_branch_tleaf (self : BranchObj)
| K_branch_tleafI (self : BranchObj)
| K_branch_tobjarray (self : BranchObj) (values classname fBits : pyval)
| K_branch_record (self : BranchObj).

(** The bytes a framing method returns ([givenbytes] for [TTree.write]). *)
Definition emit (k : record_kind) : M bytes :=
  match k with
  | K_TTree_tnamed name title => TTree_put_tnamed name title
  | K_TTree_tattline => TTree_put_tattline
  | K_TTree_tattfill => TTree_put_tattfill
  | K_TTree_tattmarker => TTree_put_tattmarker
  | K_TTree_rootiofeatures => TTree_put_rootiofeatures
  | K_TTree_tobjarray values classname fBits => TTree_put_tobjarray values classname fBits
  | K_TTree_record name keycursor util =>
      bind (TTree_write_givenbytes name keycursor util) (fun given => ret (snd given))
  | K_branch_tnamed self name title => branch_put_tnamed name title
  | K_branch_tattfill self => branch_put_tattfill self
  | K_branch_rootiofeatures self => branch_put_rootiofeatures
  | K_branch_tleaf self => branch_put_tleaf self
  | K_branch_tleafI self => branch_put_tleafI self
  | K_branch_tobjarray self values classname fBits =>
      branch_put_tobjarray self values classname fBits
  | K_branch_record self => branch_write self
  end.

(** The [vers] constant in the source of each framing method. *)
Definition version_of (k : record_kind) : Z :=
  match k with
  | K_TTree_tnamed _ _ | K_branch_tnamed _ _ _ | K_branch_tleafI _ => 1
  | K_TTree_tattline | K_TTree_tattfill | K_TTree_tattmarker
  | K_branch_tattfill _ | K_branch_tleaf _ => 2
  | K_TTree_rootiofeatures | K_branch_rootiofeatures _ => 0
  | K_TTree_tobjarray _ _ _ | K_branch_tobjarray _ _ _ _ => 3
  | K_TTree_record _ _ _ => 20
  | K_branch_record _ => 13
  end.

(** The operations that can act on a branch: its own methods, called on the
    branch with reference [self], and the write of the tree that holds it. *)
Inductive operation :=
| Op_append (self : nat) (item : pyval)
| Op_extend (self : nat) (items : pyval)
| Op_basket (self : nat) (items : pyval)
| Op_put_tobject (self : nat)
| Op_put_tnamed (self : nat) (name title : pyval)
| Op_put_tattfill (self : nat)
| Op_put_rootiofeatures (self : nat)
| Op_put_tleaf (self : nat)
| Op_put_tleafI (self : nat)
| Op_put_tobjarray (self : nat) (values classname fBits : pyval)
| Op_skiptobj (self : nat) (fBits : pyval)
| Op_write (self : nat)
| Op_TTree_write (context name compression key keycursor util : pyval).

Definition discard {A} (m : M A) : M unit := bind m (fun _ => ret tt).

Definition run_op (o : operation) : M unit :=
  match o with
  | Op_append self item => branch_append self item
  | Op_extend self items => branch_extend self items
  | Op_basket self items => branch_basket self items
  | Op_put_tobject self => discard (on_branch self (fun _ => branch_put_tobject))
  | Op_put_tnamed self name title =>
      discard (on_branch self (fun _ => branch_put_tnamed name title))
  | Op_put_tattfill self => discard (on_branch self branch_put_tattfill)
  | Op_put_rootiofeatures self => discard (on_branch self (fun _ => branch_put_rootiofeatures))
  | Op_put_tleaf self => discard (on_branch self branch_put_tleaf)
  | Op_put_tleafI self => discard (on_branch self branch_put_tleafI)
  | Op_put_tobjarray self values classname fBits =>
      discard (on_branch self (fun b => branch_put_tobjarray b values classname fBits))
  | Op_skiptobj self fBits => discard (on_branch self (fun _ => _skiptobj fBits))
  | Op_write self => discard (on_branch self branch_write)
  | Op_TTree_write context name compression key keycursor util =>
      TTree_write context name compression key keycursor util
  end.

(** The world after a sequence of operations; an operation that raises leaves
    its partial effects behind and the caller goes on. *)
Fixpoint run_ops (os : list operation) (w : World) : World :=
  match os with
  | [] => w
  | o :: rest => run_ops rest (snd (run_op o w))
  end.

(** The field bag of the branch with reference [id]. *)
Definition fields_at (w : World) (id : nat) : option (gmap string pyval) :=
  b_fields <$> (w_heap w !! id).

(** What the specification says of [append]: the call returns, and the
    basket counter of the branch has gone up by one. *)
Definition append_accumulates (w : World) (id : nat) (item : pyval) : Prop :=
  ∃ w' flds flds' n,
    branch_append id item w = (Ok tt, w')
    ∧ fields_at w id = Some flds ∧ fields_at w' id = Some flds'
    ∧ int_field flds "_fWriteBasket" = Some n
    ∧ int_field flds' "_fWriteBasket" = Some (n + 1).

(** What the specification says of the totals: after [TTree.write] the field
    is the sum over the branches as they stood when the call began. *)
Definition totals_recomputed (w : World) (context name compression key keycursor util : pyval)
    (field : string) : Prop :=
  ∃ xs,
    branch_ints field (w_heap w) (t_branches (w_tree w)) = Some xs
    ∧ int_field
        (t_fields (w_tree (snd (TTree_write context name compression key keycursor util w))))
        field = Some (sum_Z xs).


(** [pres m]: running [m] changes neither the tree nor the heap of branches,
    whether it returns or raises. *)
Definition pres {A} (m : M A) : Prop :=
  ∀ w, w_tree (snd (m w)) = w_tree w ∧ w_heap (snd (m w)) = w_heap w.

Definition heap_fields (h : gmap nat BranchObj) : gmap nat (gmap string pyval) :=
  b_fields <$> h.

(** [bags_kept m]: running [m] changes no field bag of any branch. *)
Definition bags_kept {A} (m : M A) : Prop :=
  ∀ w, heap_fields (w_heap (snd (m w))) = heap_fields (w_heap w).

Definition compress_step (context compression key keycursor : pyval)
    (given : Cursor * bytes) : M unit :=
  fun w =>
    let '(r, e) :=
      compress_write context (fst given) (snd given) compression key keycursor (w_ext w) in
    (r, w_with_ext e w).

(** What remains of [TTree.write] once the loop over the branches is done. *)
Definition write_tail (context name compression key keycursor : pyval)
    (cursors : Cursor * Cursor) : M unit :=
  bind (bind (TTree_write_buff name)
          (fun buff => bind (lift (finish_frame (fst cursors) 20 buff))
             (fun givenbytes => ret (snd cursors, givenbytes))))
       (compress_step context compression key keycursor).

(** The four conversions at the head of [TTree.write], on a field bag. *)
Definition open_fields (flds : gmap string pyval) : result (gmap string pyval) :=
  let? f1 := convert_field "_fClusterRangeEnd" dt_int64 flds in
  let? f2 := convert_field "_fClusterSize" dt_int64 f1 in
  let? f3 := convert_field "_fIndexValues" dt_f8_be f2 in
  convert_field "_fIndex" dt_i8_be f3.

End Statements.

(** ** Concrete inputs *)

Definition ex_util : pyval := VRef 100.
Definition ex_keycursor : pyval := VRef 101.
Definition ex_context : pyval := VRef 102.
Definition ex_key : pyval := VRef 103.
Definition ex_name : pyval := VBytes (bstr "t").

Definition no_branch : BranchObj := mkBranch VNone [] [] VNone VNone VNone VNone ∅.
Definition no_tree : TTreeObj := mkTTree [] [] [] [] ∅ None None.

(** [branch("int", "x", "a title")] *)
Definition ex_branch_x : BranchObj :=
  ok_or no_branch
    (@branch_init ref_env (pystr "int") (pystr "x") (pystr "a title")
       defaultBasketSize_default compression_default).

(** [TTree("t", "", *branches)] *)
Definition ex_tree (branches : list pyval) : TTreeObj :=
  ok_or no_tree (TTree_init (pystr "t") (pystr "") branches).

Definition ex_world (t : TTreeObj) (h : gmap nat BranchObj) : @World ref_env :=
  @mkWorld ref_env (mkCursor 0) t h [].

(** The branch [x] after [b.fields[key] = v]. *)
Definition ex_branch_with (key : string) (v : pyval) : BranchObj :=
  b_with_fields (<[key := v]> (b_fields ex_branch_x)) ex_branch_x.

(** The keys that [branch.write] reads without the leading underscore. *)
Definition bare_keys : list string :=
  ["fCompress"; "fBasketSize"; "fEntryOffsetLen"; "fWriteBasket"; "fEntryNumber";
   "fOffset"; "fMaxBaskets"; "fSplitLevel"; "fEntries"; "fFirstEntry"; "fTotBytes";
   "fZipBytes"; "fBasketBytes"; "fBasketEntry"; "fBasketSeek"; "fFileName"].

(** A field bag in which every value stored under ["_" + key] is also stored
    under [key], for the keys of [bare_keys]. *)
Definition with_bare_keys (flds : gmap string pyval) : gmap string pyval :=
  foldr (fun key f =>
           match flds !! String.append "_" key with
           | Some v => <[key := v]> f
           | None => f
           end) flds bare_keys.

(** The branch [x] edited by hand so that [branch.write] finds its keys, two
    entries in the leaf list (an empty list of leaves and a class name) and
    the three basket arrays as their bytes (ten zeros of 4, 8 and 8 bytes). *)
Definition ex_fields_edited : gmap string pyval :=
  <["fBasketBytes" := VBytes (repeat x00 40)]>
    (<["fBasketEntry" := VBytes (repeat x00 80)]>
       (<["fBasketSeek" := VBytes (repeat x00 80)]>
          (<["_fLeaves" := VList [VList []; pystr "TLeafI"]]>
             (with_bare_keys (b_fields ex_branch_x))))).

Definition ex_branch_edited : BranchObj := b_with_fields ex_fields_edited ex_branch_x.

(** The tree ["t"] whose [_fEntries] was set to 5 by hand, without branches. *)
Definition ex_tree_preset : TTreeObj :=
  t_with_fields (<["_fEntries" := VInt 5]> (t_fields (ex_tree []))) (ex_tree []).

(** The arguments of the example calls of [TTree.write]. *)
Definition ex_write : @M ref_env unit :=
  @TTree_write ref_env ex_context ex_name VNone ex_key ex_keycursor ex_util.

(** The tree ["t"] with the branch [x] holding three entries. *)
Definition ex_world_three : @World ref_env :=
  ex_world (ex_tree [VRef 0%nat]) {[0%nat := ex_branch_with "_fEntries" (VInt 3)]}.

(** The same world after a first call of [TTree.write]. *)
Definition ex_world_written : @World ref_env := snd (ex_write ex_world_three).

Definition ex_tree_record : record_kind := K_TTree_record ex_name ex_keycursor ex_util.

Definition ex_write_ops : list operation :=
  [ Op_append 0%nat (VInt 7);
    Op_write 0%nat;
    Op_TTree_write ex_context ex_name VNone ex_key ex_keycursor ex_util;
    Op_put_tleafI 0%nat ].

(** ** Vocabulary of the further properties *)

Section MoreStatements.
Context `{Collaborators}.

(** [adv size m]: when [m] returns [a], it has moved the live cursor forward
    by [size a]. *)
Definition adv {A} (size : A → Z) (m : M A) : Prop :=
  ∀ w a w', m w = (Ok a, w') → index (w_cursor w') = index (w_cursor w) + size a.

(** The dispatcher moves the cursor by the number of bytes it returns. *)
Definition dispatcher_in_step : Prop :=
  ∀ util value classname keycursor c e r c' e',
    util_put_objany util value classname keycursor c e = (Ok r, (c', e')) →
    index c' = index c + len r.

(** The framing methods that never call the dispatcher. *)
Definition plain_kind (k : record_kind) : bool :=
  match k with
  | K_TTree_tnamed _ _ | K_TTree_tattline | K_TTree_tattfill | K_TTree_tattmarker
  | K_TTree_rootiofeatures | K_branch_tnamed _ _ _ | K_branch_tattfill _
  | K_branch_rootiofeatures _ => true
  | _ => false
  end.

(** The values stored under [key] in the branches of a tree, in order. *)
Fixpoint branch_values (key : string) (heap : gmap nat BranchObj) (branches : list pyval)
  : option (list pyval) :=
  match branches with
  | [] => Some []
  | branch :: rest =>
      match branch_bag heap branch with
      | Some bag =>
          match bag !! key, branch_values key heap rest with
          | Some v, Some vs => Some (v :: vs)
          | _, _ => None
          end
      | None => None
      end
  end.

(** A branch after [branch.util = util; branch.keycursor = keycursor]. *)
Definition attach (util keycursor : pyval) (b : BranchObj) : BranchObj :=
  b_with_keycursor keycursor (b_with_util util b).

(** [fields_only m]: when [m] returns, it has changed at most the field bag
    of the tree. *)
Definition fields_only {A} (m : M A) : Prop :=
  ∀ w a w', m w = (Ok a, w') →
    ∃ F, w' = w_with_tree (t_with_fields F (w_tree w)) w.

(** The field bag and the keys that an attribute block reads, in the order
    of the source. *)
Definition attr_fields (k : record_kind) (w : World)
  : option (gmap string pyval * list string) :=
  match k with
  | K_TTree_tattline =>
      Some (t_fields (w_tree w), ["_fLineColor"; "_fLineStyle"; "_fLineWidth"])
  | K_TTree_tattfill => Some (t_fields (w_tree w), ["_fFillColor"; "_fFillStyle"])
  | K_TTree_tattmarker =>
      Some (t_fields (w_tree w), ["_fMarkerColor"; "_fMarkerStyle"; "_fMarkerSize"])
  | K_branch_tattfill self => Some (b_fields self, ["_fFillColor"; "_fFillStyle"])
  | _ => None
  end.

(** The attribute blocks whose fields are all packed as 16-bit integers. *)
Definition short_fields (k : record_kind) : bool :=
  match k with
  | K_TTree_tattline | K_TTree_tattfill | K_branch_tattfill _ => true
  | _ => false
  end.

End MoreStatements.

(** ** Further concrete inputs *)

(** The tree ["t"] after [del tree.fields["_fFillStyle"]]. *)
Definition ex_tree_no_fill_style : TTreeObj :=
  t_with_fields (delete "_fFillStyle" (t_fields (ex_tree []))) (ex_tree []).

(** The world in which [TTree.write] starts its loop over the branches of
    the tree ["t"] with the branch [x]. *)
Definition ex_world_opened : @World ref_env :=
  snd (@TTree_write_open ref_env ex_keycursor ex_util ex_world_three).


(** * Facts *)

(** ** Big-endian encoding *)

Lemma Z_of_byte_of_Z (z : Z) : Z_of_byte (byte_of_Z z) = z mod 256.
Proof.
  unfold Z_of_byte, byte_of_Z.
  assert (Hb : 0 <= z mod 256 < 256) by (apply Z.mod_pos_bound; lia).
  destruct (Byte.of_N (Z.to_N (z mod 256))) as [b|] eqn:E.
  - apply Byte.to_of_N in E. rewrite E. apply Z2N.id. lia.
  - apply Byte.of_N_None_iff in E. lia.
Qed.

Lemma be_bytes_length (w : nat) (z : Z) : length (be_bytes w z) = w.
Proof. induction w as [|w IH]; simpl; [reflexivity | now rewrite IH]. Qed.

Lemma be_value_be_bytes (w : nat) (z acc : Z) :
  be_value acc (be_bytes w z) = acc * 2 ^ (8 * Z.of_nat w) + z mod 2 ^ (8 * Z.of_nat w).
Proof.
  revert acc. induction w as [|w IH]; intros acc.
  - simpl. rewrite Z.mod_1_r. lia.
  - cbn [be_bytes be_value]. rewrite IH, Z_of_byte_of_Z.
    rewrite Z.shiftr_div_pow2 by lia.
    replace (8 * Z.of_nat (S w)) with (8 * Z.of_nat w + 8) by lia.
    rewrite Z.pow_add_r by lia.
    change (2 ^ 8) with 256.
    set (p := 2 ^ (8 * Z.of_nat w)).
    assert (Hp : 0 < p) by (apply Z.pow_pos_nonneg; lia).
    rewrite (Z.rem_mul_r z p 256) by lia.
    lia.
Qed.

Lemma be_value_exact (w : nat) (z : Z) :
  0 <= z < 2 ^ (8 * Z.of_nat w) → be_value 0 (be_bytes w z) = z.
Proof.
  intros Hz. rewrite be_value_be_bytes, Z.mod_small by lia. lia.
Qed.

(** ** Results and the method monad *)

Lemma rbind_ok {A B} (r : result A) (k : A → result B) (b : B) :
  rbind r k = Ok b → ∃ a, r = Ok a ∧ k a = Ok b.
Proof. destruct r as [a|e]; simpl; [eauto | discriminate]. Qed.

Lemma py_add_bytes_r (a : pyval) (y : bytes) (r : pyval) :
  py_add a (VBytes y) = Ok r → ∃ x, a = VBytes x ∧ r = VBytes (x ++ y).
Proof. destruct a; cbn; intros E; try discriminate E. injection E as <-. eauto. Qed.

Lemma py_add_bytes (a b : pyval) (r : bytes) :
  py_add a b = Ok (VBytes r) → ∃ x y, a = VBytes x ∧ b = VBytes y ∧ r = x ++ y.
Proof. destruct a, b; cbn; intros E; try discriminate E. injection E as <-. eauto. Qed.

Lemma bytes_iadd_ok (buff : bytes) (v : pyval) (b : bytes) :
  bytes_iadd buff v = Ok b → ∃ y, v = VBytes y ∧ b = buff ++ y.
Proof.
  unfold bytes_iadd. intros E. apply rbind_ok in E as (r & Hr & E).
  destruct v; cbn in Hr; try discriminate Hr. injection Hr as <-.
  injection E as <-. eauto.
Qed.

Lemma rmap_list_ok_lookup {A B} (f : A → result B) (l : list A) (bs : list B) :
  rmap_list f l = Ok bs → ∀ i a, l !! i = Some a → ∃ b, f a = Ok b.
Proof.
  revert bs. induction l as [|x l IH]; intros bs Hl i a Hi.
  - destruct i; discriminate.
  - simpl in Hl. apply rbind_ok in Hl as (b & Hb & Hl).
    apply rbind_ok in Hl as (bs' & Hbs & _).
    destruct i as [|i]; simpl in Hi.
    + injection Hi as <-. eauto.
    + eapply IH; eauto.
Qed.

Lemma getf_ok (flds : gmap string pyval) (key : string) (v : pyval) :
  getf flds key = Ok v → flds !! key = Some v.
Proof. unfold getf. destruct (flds !! key); intros E; now inversion E. Qed.

Lemma getfs_ok_present (flds : gmap string pyval) (keys : list string) (vs : list pyval) :
  getfs flds keys = Ok vs → ∀ key, key ∈ keys → is_Some (flds !! key).
Proof.
  intros Hg key Hin. apply list_elem_of_lookup in Hin as [i Hi].
  destruct (rmap_list_ok_lookup _ _ _ Hg i key Hi) as [v Hv].
  apply getf_ok in Hv. eauto.
Qed.

Section Facts.
Context `{Collaborators}.

Lemma bind_ok {A B} (m : M A) (k : A → M B) (w w' : World) (b : B) :
  bind m k w = (Ok b, w') → ∃ a w1, m w = (Ok a, w1) ∧ k a w1 = (Ok b, w').
Proof.
  unfold bind. destruct (m w) as [[a|e] w1]; [eauto | discriminate].
Qed.

Lemma lift_ok {A} (r : result A) (w w' : World) (a : A) :
  lift r w = (Ok a, w') → r = Ok a ∧ w' = w.
Proof. unfold lift. intros E. now inversion E. Qed.

Lemma ret_ok {A} (a b : A) (w w' : World) :
  ret a w = (Ok b, w') → b = a ∧ w' = w.
Proof. unfold ret. intros E. now inversion E. Qed.

Lemma not_ok_raises {A} (m : M A) (w : World) :
  (∀ a w', m w ≠ (Ok a, w')) → ∃ e, fst (m w) = Raise e.
Proof.
  intros Hn. destruct (m w) as [[a|e] w'] eqn:E; simpl; [|eauto].
  exfalso. now apply (Hn a w').
Qed.

(** ** Framing *)

Lemma finish_frame_ok (copy_cursor : Cursor) (vers : Z) (buff out : bytes) :
  finish_frame copy_cursor vers buff = Ok out →
  let cnt := Z.lor (len buff + 2) kByteCountMask in
  0 <= cnt <= 4294967295 ∧ 0 <= vers <= 65535
  ∧ out = be_bytes 4 cnt ++ be_bytes 2 vers ++ buff.
Proof.
  unfold finish_frame, byte_count. intros Hf.
  apply rbind_ok in Hf as (cnt & Hc & Hf).
  apply rbind_ok in Hc as (n & Hn & Hc).
  injection Hc as <-.
  unfold np_int64 in Hn.
  destruct (_ && _) in Hn; [|discriminate]. injection Hn as <-.
  change (struct_size _format_cntvers) with 6 in *.
  replace (len buff + 6 - 4) with (len buff + 2) in * by lia.
  apply rbind_ok in Hf as ([hdr c] & Hp & Hf).
  injection Hf as <-.
  unfold cursor_put_fields in Hp.
  apply rbind_ok in Hp as (b & Hp & Hb). injection Hb as <- _.
  unfold struct_pack in Hp. simpl in Hp.
  destruct (_ && _) eqn:R1 in Hp; [|discriminate].
  destruct (_ && _) eqn:R2 in Hp; [|discriminate].
  simpl in Hp. injection Hp as <-.
  apply andb_prop in R1 as [? ?]. apply andb_prop in R2 as [? ?].
  simpl. repeat split; try lia. 
Qed.

Lemma frame_decode (cnt vers : Z) (buff : bytes) :
  0 <= cnt <= 4294967295 → 0 <= vers <= 65535 →
  let out := be_bytes 4 cnt ++ be_bytes 2 vers ++ buff in
  frame_count out = cnt ∧ frame_version out = vers ∧ frame_body out = buff.
Proof.
  intros Hc Hv out. subst out.
  unfold frame_count, frame_version, frame_body.
  repeat split.
  - change (take 4 (be_bytes 4 cnt ++ be_bytes 2 vers ++ buff)) with (be_bytes 4 cnt).
    apply be_value_exact. simpl. lia.
  - change (take 2 (drop 4 (be_bytes 4 cnt ++ be_bytes 2 vers ++ buff)))
      with (be_bytes 2 vers).
    apply be_value_exact. simpl. lia.
Qed.


(** Every framing method ends in [finish_frame] with its own version. *)
Ltac peel H :=
  repeat (cbv beta zeta in H; apply bind_ok in H as (? & ? & _ & H));
  cbv beta zeta in H.

Lemma emit_finish (k : record_kind) (w w' : World) (out : bytes) :
  emit k w = (Ok out, w') →
  ∃ copy_cursor buff, finish_frame copy_cursor (version_of k) buff = Ok out.
Proof.
  intros He.
  destruct k; simpl in He;
    try (unfold TTree_put_tnamed, TTree_put_tattline, TTree_put_tattfill,
           TTree_put_tattmarker, TTree_put_rootiofeatures, TTree_put_tobjarray,
           branch_put_tnamed, branch_put_tattfill, branch_put_rootiofeatures,
           put_rootiofeatures, branch_put_tleaf, branch_put_tleafI,
           branch_put_tobjarray, branch_write in He;
         peel He; apply lift_ok in He as [He _]; eauto; fail).
  apply bind_ok in He as ([wc gb] & w1 & Hg & He).
  apply ret_ok in He as [-> ->]. simpl.
  unfold TTree_write_givenbytes in Hg.
  apply bind_ok in Hg as (cs & w2 & _ & Hg).
  apply bind_ok in Hg as (? & w3 & _ & Hg).
  apply bind_ok in Hg as (buff & w4 & _ & Hg).
  apply bind_ok in Hg as (g & w5 & Hf & Hg).
  apply ret_ok in Hg as [Hg _]. injection Hg as _ ->.
  apply lift_ok in Hf as [Hf _]. eauto.
Qed.

Lemma emit_shape (k : record_kind) (w w' : World) (out : bytes) :
  emit k w = (Ok out, w') →
  ∃ buff, let cnt := Z.lor (len buff + 2) kByteCountMask in
    0 <= cnt <= 4294967295 ∧ 0 <= version_of k <= 65535
    ∧ out = be_bytes 4 cnt ++ be_bytes 2 (version_of k) ++ buff.
Proof.
  intros He. apply emit_finish in He as (cc & buff & Hf).
  exists buff. now apply finish_frame_ok in Hf.
Qed.

(** ** Methods that leave the objects alone *)

Lemma pres_ret {A} (a : A) : pres (ret a).
Proof. now intros w. Qed.

Lemma pres_raise {A} (e : exn) : pres (@raise _ A e).
Proof. now intros w. Qed.

Lemma pres_lift {A} (r : result A) : pres (lift r).
Proof. now intros w. Qed.

Lemma pres_bind {A B} (m : M A) (k : A → M B) :
  pres m → (∀ a, pres (k a)) → pres (bind m k).
Proof.
  intros Hm Hk w. unfold bind.
  destruct (Hm w) as [Ht Hh].
  destruct (m w) as [[a|e] w1]; simpl in *; [|easy].
  destruct (Hk a w1) as [Ht' Hh']. split; congruence.
Qed.

Lemma pres_copy : pres copy_of_cursor.
Proof. now intros w. Qed.

Lemma pres_skip (n : Z) : pres (skip n).
Proof. now intros w. Qed.

Lemma pres_on_cursor {A} (f : Cursor → result (A * Cursor)) : pres (on_cursor f).
Proof.
  intros w. unfold on_cursor. now destruct (f (w_cursor w)) as [[a c]|e].
Qed.

Lemma pres_self_tree : pres self_tree.
Proof. now intros w. Qed.

Lemma pres_tree_field (key : string) : pres (tree_field key).
Proof. now intros w. Qed.

Lemma pres_tree_field_args (keys : list string) : pres (tree_field_args keys).
Proof. now intros w. Qed.

Lemma pres_call_put_objany (util value classname keycursor : pyval) :
  pres (call_put_objany util value classname keycursor).
Proof.
  intros w. unfold call_put_objany.
  now destruct (util_put_objany _ _ _ _ _ _) as [r [c e]].
Qed.

Lemma pres_for_each_value (put : pyval → M bytes) (values : list pyval) (buff : bytes) :
  (∀ v, pres (put v)) → pres (for_each_value put values buff).
Proof.
  intros Hp. revert buff.
  induction values as [|v vs IH]; intros buff; simpl.
  - apply pres_ret.
  - apply pres_bind; [apply Hp | intros b; apply IH].
Qed.

Create HintDb pres discriminated.

#[local] Hint Resolve pres_ret pres_raise pres_lift pres_copy pres_skip pres_on_cursor
  pres_self_tree pres_tree_field pres_tree_field_args pres_call_put_objany : pres.

Lemma pres_put_fields (fmt : list fcode) (args : list pyval) : pres (put_fields fmt args).
Proof. apply pres_on_cursor. Qed.

Lemma pres_put_string (data : pyval) : pres (put_string data).
Proof. apply pres_on_cursor. Qed.

Lemma pres_put_array (data : pyval) : pres (put_array data).
Proof. apply pres_on_cursor. Qed.

Lemma pres_put_data (data : pyval) : pres (put_data data).
Proof. apply pres_on_cursor. Qed.

#[local] Hint Resolve pres_put_fields pres_put_string pres_put_array pres_put_data : pres.

(** Walks down the binds and case distinctions of a method; the leaves are
    closed from the hint database. *)
Ltac solve_pres :=
  repeat
    (cbv beta zeta;
     lazymatch goal with
     | |- pres (bind _ _) => apply pres_bind; [ | intros ]
     | |- pres (for_each_value _ _ _) => apply pres_for_each_value; intros
     | |- pres (match ?x with _ => _ end) => destruct x
     | |- pres _ => solve [ auto 2 with pres nocore ]
     end).

Lemma pres_TTree_util_put_objany (value : M pyval) (classname : pyval) :
  pres value → pres (TTree_util_put_objany value classname).
Proof. intros Hv. unfold TTree_util_put_objany. solve_pres. Qed.

#[local] Hint Resolve pres_TTree_util_put_objany : pres.

Lemma pres_TTree_put_tobject : pres TTree_put_tobject.
Proof. apply pres_put_fields. Qed.

#[local] Hint Resolve pres_TTree_put_tobject : pres.

Lemma pres_TTree_put_tnamed (name title : pyval) : pres (TTree_put_tnamed name title).
Proof. unfold TTree_put_tnamed. solve_pres. Qed.

Lemma pres_TTree_put_tattline : pres TTree_put_tattline.
Proof. unfold TTree_put_tattline. solve_pres. Qed.

Lemma pres_TTree_put_tattfill : pres TTree_put_tattfill.
Proof. unfold TTree_put_tattfill. solve_pres. Qed.

Lemma pres_TTree_put_tattmarker : pres TTree_put_tattmarker.
Proof. unfold TTree_put_tattmarker. solve_pres. Qed.

Lemma pres_put_rootiofeatures : pres put_rootiofeatures.
Proof. unfold put_rootiofeatures. solve_pres. Qed.

Lemma pres_TTree_put_rootiofeatures : pres TTree_put_rootiofeatures.
Proof. apply pres_put_rootiofeatures. Qed.

Lemma pres_skiptobj (fBits : pyval) : pres (_skiptobj fBits).
Proof. unfold _skiptobj. solve_pres. Qed.

#[local] Hint Resolve pres_TTree_put_tnamed pres_TTree_put_tattline pres_TTree_put_tattfill
  pres_TTree_put_tattmarker pres_put_rootiofeatures pres_TTree_put_rootiofeatures
  pres_skiptobj : pres.

Lemma pres_TTree_put_tobjarray (values classname fBits : pyval) :
  pres (TTree_put_tobjarray values classname fBits).
Proof. unfold TTree_put_tobjarray. solve_pres. Qed.

Lemma pres_TTree_put_tarray (values : pyval) : pres (TTree_put_tarray values).
Proof. unfold TTree_put_tarray. solve_pres. Qed.

#[local] Hint Resolve pres_TTree_put_tobjarray pres_TTree_put_tarray : pres.

Lemma pres_TTree_write_buff (name : pyval) : pres (TTree_write_buff name).
Proof. unfold TTree_write_buff. solve_pres. Qed.

#[local] Hint Resolve pres_TTree_write_buff : pres.

Lemma pres_branch_field (self : BranchObj) (key : string) : pres (branch_field self key).
Proof. apply pres_lift. Qed.

Lemma pres_branch_field_args (self : BranchObj) (keys : list string) :
  pres (branch_field_args self keys).
Proof. apply pres_lift. Qed.

Lemma pres_branch_util_put_objany (self : BranchObj) (value classname : pyval) :
  pres (branch_util_put_objany self value classname).
Proof. unfold branch_util_put_objany. solve_pres. Qed.

Lemma pres_branch_put_tobject : pres branch_put_tobject.
Proof. apply pres_put_fields. Qed.

#[local] Hint Resolve pres_branch_field pres_branch_field_args pres_branch_util_put_objany
  pres_branch_put_tobject : pres.

Lemma pres_branch_put_tnamed (name title : pyval) : pres (branch_put_tnamed name title).
Proof. unfold branch_put_tnamed. solve_pres. Qed.

Lemma pres_branch_put_tattfill (self : BranchObj) : pres (branch_put_tattfill self).
Proof. unfold branch_put_tattfill. solve_pres. Qed.

Lemma pres_branch_put_rootiofeatures : pres branch_put_rootiofeatures.
Proof. apply pres_put_rootiofeatures. Qed.

#[local] Hint Resolve pres_branch_put_tnamed pres_branch_put_tattfill
  pres_branch_put_rootiofeatures : pres.

Lemma pres_branch_put_tleaf (self : BranchObj) : pres (branch_put_tleaf self).
Proof. unfold branch_put_tleaf. solve_pres. Qed.

#[local] Hint Resolve pres_branch_put_tleaf : pres.

Lemma pres_branch_put_tleafI (self : BranchObj) : pres (branch_put_tleafI self).
Proof. unfold branch_put_tleafI. solve_pres. Qed.

Lemma pres_branch_put_tobjarray (self : BranchObj) (values classname fBits : pyval) :
  pres (branch_put_tobjarray self values classname fBits).
Proof. unfold branch_put_tobjarray. solve_pres. Qed.

#[local] Hint Resolve pres_branch_put_tleafI pres_branch_put_tobjarray : pres.

Lemma pres_branch_write_buff (self : BranchObj) : pres (branch_write_buff self).
Proof. unfold branch_write_buff. solve_pres. Qed.

#[local] Hint Resolve pres_branch_write_buff : pres.

Lemma pres_branch_write (self : BranchObj) : pres (branch_write self).
Proof. unfold branch_write. solve_pres. Qed.

Lemma pres_on_branch {A} (id : nat) (method : BranchObj → M A) :
  (∀ b, pres (method b)) → pres (on_branch id method).
Proof.
  intros Hm w. unfold on_branch.
  destruct (w_heap w !! id) as [b|]; [apply Hm | easy].
Qed.

Lemma pres_discard {A} (m : M A) : pres m → pres (discard m).
Proof. intros Hm. unfold discard. solve_pres. Qed.

#[local] Hint Resolve pres_branch_write : pres.

(** ** The byte count and the version of a frame *)

Lemma land_lor_same (a m : Z) : Z.land (Z.lor a m) m = m.
Proof.
  apply Z.bits_inj'. intros n Hn.
  rewrite Z.land_spec, Z.lor_spec.
  destruct (Z.testbit a n), (Z.testbit m n); reflexivity.
Qed.

(** C1. Whenever a framing method of [TTree] or [branch] returns bytes, the
    four-byte count at their head is the length of the body plus the two
    version bytes, or-ed with [kByteCountMask]: it covers everything after
    the count field itself, the mask bits are set in it, and the two bytes
    after it are the version of that record kind. *)
Theorem frame_count_covers_body (k : record_kind) (w w' : World) (out : bytes) :
  emit k w = (Ok out, w') →
  frame_count out = Z.lor (len (frame_body out) + 6 - 4) kByteCountMask
  ∧ frame_count out = Z.lor (len out - 4) kByteCountMask
  ∧ Z.land (frame_count out) kByteCountMask = kByteCountMask
  ∧ take 2 (drop 4 out) = be_bytes 2 (version_of k)
  ∧ len out = 6 + len (frame_body out).
Proof.
  intros He. apply emit_shape in He as (buff & Hc & Hv & ->).
  destruct (frame_decode _ _ buff Hc Hv) as (Hcnt & Hver & Hbody).
  rewrite Hcnt, Hbody.
  assert (Hlen : len (be_bytes 4 (Z.lor (len buff + 2) kByteCountMask)
                       ++ be_bytes 2 (version_of k) ++ buff) = 6 + len buff).
  { unfold len. rewrite !length_app, !be_bytes_length. lia. }
  rewrite Hlen.
  replace (len buff + 6 - 4) with (len buff + 2) by lia.
  replace (6 + len buff - 4) with (len buff + 2) by lia.
  repeat split; try reflexivity.
  apply land_lor_same.
Qed.

(** C5. The version read back from a frame is the constant of its record
    kind, whatever the data: 20 for the tree record, 13 for the branch
    record, 2 for the line, fill and marker attribute blocks. *)
Theorem frame_version_is_constant (k : record_kind) (w w' : World) (out : bytes) :
  emit k w = (Ok out, w') →
  frame_version out = version_of k
  ∧ match k with
    | K_TTree_record _ _ _ => frame_version out = 20
    | K_branch_record _ => frame_version out = 13
    | K_TTree_tattline | K_TTree_tattfill | K_TTree_tattmarker
    | K_branch_tattfill _ => frame_version out = 2
    | _ => True
    end.
Proof.
  intros He. apply emit_shape in He as (buff & Hc & Hv & ->).
  destruct (frame_decode _ _ buff Hc Hv) as (_ & Hver & _).
  split; [exact Hver|].
  destruct k; try exact I; exact Hver.
Qed.


(** ** Effects of [TTree.write] on the field bags *)

Lemma bags_of_pres {A} (m : M A) : pres m → bags_kept m.
Proof. intros Hp w. destruct (Hp w) as [_ Hh]. now rewrite Hh. Qed.

Lemma bags_bind {A B} (m : M A) (k : A → M B) :
  bags_kept m → (∀ a, bags_kept (k a)) → bags_kept (bind m k).
Proof.
  intros Hm Hk w. unfold bind. specialize (Hm w).
  destruct (m w) as [[a|e] w1]; simpl in *; [|easy].
  rewrite (Hk a w1). exact Hm.
Qed.

Lemma bags_set_tree_field (key : string) (v : pyval) : bags_kept (set_tree_field key v).
Proof. now intros w. Qed.

Lemma heap_fields_insert (h : gmap nat BranchObj) (id : nat) (b b' : BranchObj) :
  h !! id = Some b → b_fields b' = b_fields b →
  heap_fields (<[id := b']> h) = heap_fields h.
Proof.
  intros Hb Hf. unfold heap_fields. apply map_eq. intros j.
  rewrite !lookup_fmap. destruct (decide (id = j)) as [<-|Hne].
  - rewrite lookup_insert_eq, Hb. simpl. now rewrite Hf.
  - now rewrite lookup_insert_ne.
Qed.

Lemma bags_set_branch_attr (upd : pyval → BranchObj → BranchObj) (attr : option pyval)
    (branch : pyval) :
  (∀ v b, b_fields (upd v b) = b_fields b) → bags_kept (set_branch_attr upd attr branch).
Proof.
  intros Hu w. unfold set_branch_attr.
  destruct attr as [v|]; [|easy]. destruct branch; try easy.
  destruct (w_heap w !! id) as [b|] eqn:Hb; [|easy].
  simpl. now apply heap_fields_insert with b.
Qed.

Lemma bags_branch_fields_of (branch : pyval) : bags_kept (branch_fields_of branch).
Proof.
  intros w. unfold branch_fields_of. destruct branch; try easy.
  now destruct (w_heap w !! id).
Qed.

Create HintDb bags discriminated.

#[local] Hint Resolve bags_set_tree_field bags_branch_fields_of : bags.

Ltac solve_bags :=
  repeat
    (cbv beta zeta;
     lazymatch goal with
     | |- bags_kept (bind _ _) => apply bags_bind; [ | intros ]
     | |- bags_kept (set_branch_attr _ _ _) => apply bags_set_branch_attr; reflexivity
     | |- bags_kept (match ?x with _ => _ end) => destruct x
     | |- bags_kept _ =>
         first [ solve [ auto 2 with bags nocore ]
               | apply bags_of_pres; solve [ auto 2 with pres nocore ] ]
     end).

Lemma bags_add_branch_field (key : string) (branch : pyval) :
  bags_kept (add_branch_field key branch).
Proof. unfold add_branch_field. solve_bags. Qed.

Lemma bags_append_tree_field (key : string) (item : M pyval) :
  bags_kept item → bags_kept (append_tree_field key item).
Proof. intros Hi. unfold append_tree_field. solve_bags. Qed.

#[local] Hint Resolve bags_add_branch_field bags_append_tree_field : bags.

Lemma bags_TTree_write_branch (branch : pyval) : bags_kept (TTree_write_branch branch).
Proof.
  unfold TTree_write_branch.
  do 3 (apply bags_bind; [apply bags_add_branch_field | intros _]).
  apply bags_bind; [apply bags_append_tree_field; solve_bags | intros _].
  apply bags_bind; [apply bags_of_pres, pres_self_tree | intros self].
  do 2 (apply bags_bind; [apply bags_set_branch_attr; reflexivity | intros _]).
  apply bags_append_tree_field, bags_of_pres, pres_ret.
Qed.

Lemma bags_for_each_branch (body : pyval → M unit) (branches : list pyval) :
  (∀ b, bags_kept (body b)) → bags_kept (for_each_branch body branches).
Proof.
  intros Hb. induction branches as [|b bs IH]; simpl.
  - now intros w.
  - apply bags_bind; [apply Hb | intros _; apply IH].
Qed.

Lemma bags_TTree_write_loop : bags_kept TTree_write_loop.
Proof.
  unfold TTree_write_loop. apply bags_bind; [now intros w|].
  intros t. apply bags_for_each_branch, bags_TTree_write_branch.
Qed.

Lemma bags_convert_tree_field (key : string) (dt : dtype) :
  bags_kept (convert_tree_field key dt).
Proof. unfold convert_tree_field. solve_bags. Qed.

Lemma bags_TTree_write_open (keycursor util : pyval) :
  bags_kept (TTree_write_open keycursor util).
Proof.
  unfold TTree_write_open.
  apply bags_bind; [now intros w | intros _].
  apply bags_bind; [| intros _].
  { destruct util; try (now intros w); intros w; now destruct (util_set_obj _ _). }
  do 2 (apply bags_bind; [apply bags_of_pres, pres_copy | intros ?]).
  apply bags_bind; [now intros w | intros _].
  apply bags_bind; [apply bags_of_pres, pres_skip | intros _].
  do 4 (apply bags_bind; [apply bags_convert_tree_field | intros _]).
  apply bags_of_pres, pres_ret.
Qed.

Lemma pres_compress_step (context compression key keycursor : pyval)
    (given : Cursor * bytes) :
  pres (compress_step context compression key keycursor given).
Proof.
  intros w. unfold compress_step. now destruct (compress_write _ _ _ _ _ _ _).
Qed.

#[local] Hint Resolve pres_compress_step : pres.

Lemma pres_write_tail (context name compression key keycursor : pyval)
    (cursors : Cursor * Cursor) :
  pres (write_tail context name compression key keycursor cursors).
Proof. unfold write_tail. solve_pres. Qed.

Lemma TTree_write_stages (context name compression key keycursor util : pyval)
    (w w1 w2 : World) (cursors : Cursor * Cursor) :
  TTree_write_open keycursor util w = (Ok cursors, w1) →
  TTree_write_loop w1 = (Ok tt, w2) →
  TTree_write context name compression key keycursor util w
  = write_tail context name compression key keycursor cursors w2.
Proof.
  intros Ho Hl.
  unfold TTree_write, TTree_write_givenbytes, write_tail, compress_step.
  unfold bind at 1 2. rewrite Ho. cbv beta iota zeta.
  unfold bind at 1 2. rewrite Hl. cbv beta iota zeta.
  reflexivity.
Qed.

Lemma bags_TTree_write (context name compression key keycursor util : pyval) :
  bags_kept (TTree_write context name compression key keycursor util).
Proof.
  unfold TTree_write, TTree_write_givenbytes.
  apply bags_bind; [| intros given].
  - apply bags_bind; [apply bags_TTree_write_open | intros cs].
    apply bags_bind; [apply bags_TTree_write_loop | intros _].
    apply bags_of_pres. solve_pres.
  - apply bags_of_pres. intros w. now destruct (compress_write _ _ _ _ _ _ _).
Qed.

(** ** The totals of the tree *)

Lemma tree_field_ok (key : string) (w w' : World) (v : pyval) :
  tree_field key w = (Ok v, w') → t_fields (w_tree w) !! key = Some v ∧ w' = w.
Proof.
  unfold tree_field. intros E. injection E as Hg <-. split; [now apply getf_ok | reflexivity].
Qed.

Lemma branch_fields_of_ok (branch : pyval) (w w' : World) (bf : gmap string pyval) :
  branch_fields_of branch w = (Ok bf, w') → branch_bag (w_heap w) branch = Some bf ∧ w' = w.
Proof.
  unfold branch_fields_of, branch_bag. destruct branch; try discriminate.
  destruct (w_heap w !! id) as [b|]; [|discriminate].
  intros E. now inversion E.
Qed.

Lemma set_tree_field_ok (key : string) (v : pyval) (w w' : World) (u : unit) :
  set_tree_field key v w = (Ok u, w') →
  t_fields (w_tree w') = <[key := v]> (t_fields (w_tree w))
  ∧ t_branches (w_tree w') = t_branches (w_tree w) ∧ w_heap w' = w_heap w.
Proof. unfold set_tree_field. intros E. now inversion E. Qed.

Lemma add_branch_field_ok (key : string) (branch : pyval) (w w' : World) (u : unit) :
  add_branch_field key branch w = (Ok u, w') →
  ∃ old bf x new,
    t_fields (w_tree w) !! key = Some old
    ∧ branch_bag (w_heap w) branch = Some bf ∧ bf !! key = Some x
    ∧ py_add old x = Ok new
    ∧ t_fields (w_tree w') = <[key := new]> (t_fields (w_tree w))
    ∧ t_branches (w_tree w') = t_branches (w_tree w) ∧ w_heap w' = w_heap w.
Proof.
  unfold add_branch_field. intros E.
  apply bind_ok in E as (old & w1 & E1 & E). apply tree_field_ok in E1 as [Hold ->].
  apply bind_ok in E as (bf & w1 & E1 & E). apply branch_fields_of_ok in E1 as [Hbf ->].
  apply bind_ok in E as (x & w1 & E1 & E). apply lift_ok in E1 as [Hx ->].
  apply bind_ok in E as (new & w1 & E1 & E). apply lift_ok in E1 as [Hnew ->].
  apply set_tree_field_ok in E as (Hf & Hb & Hh).
  apply getf_ok in Hx. exists old, bf, x, new. easy.
Qed.

Lemma append_tree_field_ok (key : string) (item : M pyval) (w w' : World) (u : unit) :
  pres item → append_tree_field key item w = (Ok u, w') →
  ∃ v, t_fields (w_tree w') = <[key := v]> (t_fields (w_tree w))
       ∧ t_branches (w_tree w') = t_branches (w_tree w) ∧ w_heap w' = w_heap w.
Proof.
  unfold append_tree_field. intros Hp E.
  apply bind_ok in E as (old & w1 & E1 & E). apply tree_field_ok in E1 as [Hold ->].
  destruct old; try discriminate.
  apply bind_ok in E as (x & w1 & E1 & E).
  destruct (Hp w) as [Ht Hh]. rewrite E1 in Ht, Hh. simpl in Ht, Hh.
  apply set_tree_field_ok in E as (Hf & Hb & Hh').
  rewrite Ht in Hf, Hb. rewrite Hh in Hh'. eauto.
Qed.

Lemma set_branch_attr_ok (upd : pyval → BranchObj → BranchObj) (attr : option pyval)
    (branch : pyval) (w w' : World) (r : result unit) :
  set_branch_attr upd attr branch w = (r, w') → w_tree w' = w_tree w.
Proof.
  unfold set_branch_attr. destruct attr; [|now inversion 1].
  destruct branch; try now inversion 1.
  destruct (w_heap w !! id); now inversion 1.
Qed.

Lemma int_field_insert (flds : gmap string pyval) (k key : string) (v : pyval) :
  int_field (<[k := v]> flds) key
  = if decide (k = key) then match v with VInt z => Some z | _ => None end
    else int_field flds key.
Proof.
  unfold int_field. destruct (decide (k = key)) as [->|Hne].
  - now rewrite lookup_insert_eq.
  - now rewrite lookup_insert_ne.
Qed.

Lemma int_field_insert_ne (flds : gmap string pyval) (k key : string) (v : pyval) :
  k ≠ key → int_field (<[k := v]> flds) key = int_field flds key.
Proof. intros Hne. rewrite int_field_insert. now destruct (decide (k = key)). Qed.

Lemma int_field_Some (flds : gmap string pyval) (key : string) (z : Z) :
  int_field flds key = Some z → flds !! key = Some (VInt z).
Proof.
  unfold int_field. destruct (flds !! key) as [[]|]; try discriminate.
  now intros [= ->].
Qed.

(** What one addition [self.fields[k] += branch.fields[k]] does to the
    integer stored under [key]. *)
Lemma add_branch_field_int (k key : string) (branch : pyval) (w w' : World) (u : unit)
    (old x : Z) (bf : gmap string pyval) :
  add_branch_field k branch w = (Ok u, w') →
  int_field (t_fields (w_tree w)) key = Some old →
  branch_bag (w_heap w) branch = Some bf → int_field bf key = Some x →
  int_field (t_fields (w_tree w')) key = Some (if decide (k = key) then old + x else old)
  ∧ t_branches (w_tree w') = t_branches (w_tree w) ∧ w_heap w' = w_heap w.
Proof.
  intros E Hold Hbf Hx.
  apply add_branch_field_ok in E as (o & bf' & x' & new & Ho & Hbf' & Hx' & Hadd & Hf & Hb & Hh).
  rewrite Hf, int_field_insert. repeat split; [|easy..].
  destruct (decide (k = key)) as [->|Hne]; [|easy].
  apply int_field_Some in Hold, Hx.
  rewrite Hbf in Hbf'. injection Hbf' as <-.
  rewrite Hold in Ho. injection Ho as <-.
  rewrite Hx in Hx'. injection Hx' as <-.
  simpl in Hadd. now injection Hadd as <-.
Qed.

Lemma totals_keys_cases (key : string) :
  key ∈ totals_keys → key = "_fEntries" ∨ key = "_fTotBytes" ∨ key = "_fZipBytes".
Proof. unfold totals_keys. rewrite !elem_of_cons, elem_of_nil. tauto. Qed.

Lemma TTree_write_branch_total (key : string) (branch : pyval) (w w' : World)
    (old x : Z) (bf : gmap string pyval) :
  key ∈ totals_keys →
  TTree_write_branch branch w = (Ok tt, w') →
  int_field (t_fields (w_tree w)) key = Some old →
  branch_bag (w_heap w) branch = Some bf → int_field bf key = Some x →
  int_field (t_fields (w_tree w')) key = Some (old + x)
  ∧ t_branches (w_tree w') = t_branches (w_tree w).
Proof.
  intros Hkey E Hold Hbf Hx. unfold TTree_write_branch in E.
  apply bind_ok in E as (u1 & w1 & E1 & E).
  apply bind_ok in E as (u2 & w2 & E2 & E).
  apply bind_ok in E as (u3 & w3 & E3 & E).
  apply bind_ok in E as (u4 & w4 & E4 & E).
  apply bind_ok in E as (self & w5 & E5 & E).
  inversion E5; subst self w5; clear E5.
  apply bind_ok in E as (u6 & w6 & E6 & E).
  apply bind_ok in E as (u7 & w7 & E7 & E).
  eapply add_branch_field_int in E1 as (H1 & B1 & Hh1); eauto.
  rewrite <- Hh1 in Hbf.
  eapply add_branch_field_int in E2 as (H2 & B2 & Hh2); eauto.
  rewrite <- Hh2 in Hbf.
  eapply add_branch_field_int in E3 as (H3 & B3 & Hh3); eauto.
  apply append_tree_field_ok in E4 as (v4 & F4 & B4 & _);
    [| apply pres_bind; [|intros; apply pres_lift];
       intros w0; unfold branch_fields_of; destruct branch; try easy;
       now destruct (w_heap w0 !! id) ].
  apply set_branch_attr_ok in E6, E7.
  apply append_tree_field_ok in E as (v8 & F8 & B8 & _); [|apply pres_ret].
  rewrite F8, B8, E7, E6, F4, B4, B3, B2, B1.
  split; [|reflexivity].
  apply totals_keys_cases in Hkey as [->| [->| ->]];
    rewrite !int_field_insert_ne by discriminate;
    rewrite H3; repeat (destruct (decide _) as [?|?]; try discriminate; try congruence).
Qed.

Lemma branch_ints_fields (key : string) (h h' : gmap nat BranchObj) (bs : list pyval) :
  heap_fields h = heap_fields h' → branch_ints key h bs = branch_ints key h' bs.
Proof.
  intros Hh. induction bs as [|b bs IH]; [reflexivity|].
  destruct b; try reflexivity. simpl. rewrite IH.
  assert (Hid : b_fields <$> h !! id = b_fields <$> h' !! id).
  { unfold heap_fields in Hh. now rewrite <- !lookup_fmap, Hh. }
  destruct (h !! id) as [b1|], (h' !! id) as [b2|]; simpl in Hid; try discriminate;
    [|reflexivity].
  injection Hid as ->. reflexivity.
Qed.

Lemma for_each_branch_total (key : string) (bs : list pyval) :
  key ∈ totals_keys →
  ∀ (w w' : World) (old : Z) (xs : list Z),
    for_each_branch TTree_write_branch bs w = (Ok tt, w') →
    int_field (t_fields (w_tree w)) key = Some old →
    branch_ints key (w_heap w) bs = Some xs →
    int_field (t_fields (w_tree w')) key = Some (old + sum_Z xs).
Proof.
  intros Hkey. induction bs as [|b bs IH]; intros w w' old xs E Hold Hxs.
  - simpl in *. inversion E; subst. injection Hxs as <-. simpl.
    now rewrite Z.add_0_r.
  - simpl in E. apply bind_ok in E as ([] & w1 & E1 & E).
    simpl in Hxs. destruct b; try discriminate.
    destruct (w_heap w !! id) as [bo|] eqn:Hid; [|discriminate].
    destruct (int_field (b_fields bo) key) as [x|] eqn:Hx; [|discriminate].
    destruct (branch_ints key (w_heap w) bs) as [xs'|] eqn:Hrest; [|discriminate].
    injection Hxs as <-.
    pose proof (bags_TTree_write_branch (VRef id) w) as Hbags.
    rewrite E1 in Hbags. simpl in Hbags.
    eapply TTree_write_branch_total in E1 as [H1 _]; eauto;
      [| unfold branch_bag; now rewrite Hid ].
    rewrite (branch_ints_fields key _ (w_heap w1)) in Hrest by now symmetry.
    rewrite (IH _ _ _ _ E H1 Hrest). simpl. f_equal. lia.
Qed.

(** The opening statements replace four list fields by arrays and set the
    util and the key cursor; nothing else changes. *)
Lemma convert_tree_field_ok (key : string) (dt : dtype) (w w' : World) (u : unit) :
  convert_tree_field key dt w = (Ok u, w') →
  ∃ f', convert_field key dt (t_fields (w_tree w)) = Ok f'
        ∧ w' = w_with_tree (t_with_fields f' (w_tree w)) w.
Proof.
  unfold convert_tree_field, convert_field. intros E.
  apply bind_ok in E as (v & w1 & E1 & E). apply tree_field_ok in E1 as [Hv ->].
  apply bind_ok in E as (a & w1 & E1 & E). apply lift_ok in E1 as [Ha ->].
  unfold set_tree_field in E. injection E as <-.
  unfold getf. rewrite Hv. simpl. rewrite Ha. simpl. eauto.
Qed.

Lemma TTree_write_open_ok (keycursor util : pyval) (w w1 : World) (cs : Cursor * Cursor) :
  TTree_write_open keycursor util w = (Ok cs, w1) →
  ∃ f4, open_fields (t_fields (w_tree w)) = Ok f4
    ∧ w_tree w1 = mkTTree (t_fClassName (w_tree w)) (t_fName (w_tree w))
                    (t_fTitle (w_tree w)) (t_branches (w_tree w)) f4
                    (Some util) (Some keycursor)
    ∧ w_heap w1 = w_heap w.
Proof.
  unfold TTree_write_open. intros E.
  apply bind_ok in E as (u0 & w0 & E0 & E). inversion E0; subst u0 w0; clear E0.
  apply bind_ok in E as (u0 & w0 & E0 & E).
  assert (Hw0 : w_tree w0 = t_with_util util (w_tree w) ∧ w_heap w0 = w_heap w).
  { destruct util; try (inversion E0; subst; easy);
      destruct (util_set_obj _ _) as [r e] in E0; inversion E0; subst; easy. }
  destruct Hw0 as [Ht0 Hh0]. clear E0.
  apply bind_ok in E as (c1 & w0' & E0 & E). inversion E0; subst c1 w0'; clear E0.
  apply bind_ok in E as (c2 & w0' & E0 & E). inversion E0; subst c2 w0'; clear E0.
  apply bind_ok in E as (u1 & w2 & E0 & E). inversion E0; subst u1 w2; clear E0.
  apply bind_ok in E as (u1 & w2 & E0 & E). inversion E0; subst u1 w2; clear E0.
  apply bind_ok in E as (u1 & w2 & E1 & E).
  apply convert_tree_field_ok in E1 as (f1 & C1 & ->).
  apply bind_ok in E as (u2 & w3 & E2 & E).
  apply convert_tree_field_ok in E2 as (f2 & C2 & ->).
  apply bind_ok in E as (u3 & w4 & E3 & E).
  apply convert_tree_field_ok in E3 as (f3 & C3 & ->).
  apply bind_ok in E as (u4 & w5 & E4 & E).
  apply convert_tree_field_ok in E4 as (f4 & C4 & ->).
  apply ret_ok in E as [_ ->].
  exists f4. unfold open_fields. simpl in *. rewrite Ht0 in *. simpl in *.
  rewrite C1. simpl. rewrite C2. simpl. rewrite C3. simpl. rewrite C4.
  rewrite Hh0. easy.
Qed.

Lemma convert_field_int (key k : string) (dt : dtype) (f f' : gmap string pyval) :
  convert_field k dt f = Ok f' → k ≠ key → int_field f' key = int_field f key.
Proof.
  unfold convert_field. intros E Hne.
  apply rbind_ok in E as (v & _ & E). apply rbind_ok in E as (a & _ & E).
  injection E as <-. now apply int_field_insert_ne.
Qed.

Lemma open_fields_int (key : string) (f f' : gmap string pyval) :
  key ∈ totals_keys → open_fields f = Ok f' → int_field f' key = int_field f key.
Proof.
  intros Hkey E. unfold open_fields in E.
  apply rbind_ok in E as (f1 & E1 & E). apply rbind_ok in E as (f2 & E2 & E).
  apply rbind_ok in E as (f3 & E3 & E).
  apply totals_keys_cases in Hkey as [->| [->| ->]];
    rewrite (convert_field_int _ _ _ _ _ E), (convert_field_int _ _ _ _ _ E3),
      (convert_field_int _ _ _ _ _ E2), (convert_field_int _ _ _ _ _ E1);
    (reflexivity || discriminate).
Qed.

(** C4 (amended). Once the opening statements and the loop over the branches
    of [TTree.write] have run, each of the tree's [_fEntries], [_fTotBytes]
    and [_fZipBytes] is, when the call ends (normally or not), the value it
    had when the call began plus the sum of that field over the branches as
    they stood then; for a tree whose totals are still the constructor's
    zeros this is the exact sum. *)
Theorem tree_totals_accumulate
    (context name compression key keycursor util : pyval) (field : string)
    (w w1 w2 : World) (cursors : Cursor * Cursor) (old : Z) (xs : list Z) :
  field ∈ totals_keys →
  TTree_write_open keycursor util w = (Ok cursors, w1) →
  TTree_write_loop w1 = (Ok tt, w2) →
  int_field (t_fields (w_tree w)) field = Some old →
  branch_ints field (w_heap w) (t_branches (w_tree w)) = Some xs →
  int_field
    (t_fields (w_tree (snd (TTree_write context name compression key keycursor util w))))
    field = Some (old + sum_Z xs).
Proof.
  intros Hkey Ho Hl Hold Hxs.
  rewrite (TTree_write_stages context name compression key keycursor util w w1 w2 cursors Ho Hl).
  destruct (pres_write_tail context name compression key keycursor cursors w2) as [-> _].
  apply TTree_write_open_ok in Ho as (f4 & Hf4 & Ht1 & Hh1).
  unfold TTree_write_loop in Hl.
  apply bind_ok in Hl as (self & w1' & E & Hl). inversion E; subst self w1'; clear E.
  eapply for_each_branch_total; eauto.
  - rewrite Ht1. simpl. now rewrite (open_fields_int field _ _ Hkey Hf4).
  - rewrite Ht1, Hh1. exact Hxs.
Qed.

(** ** The branch operations *)

(** C7 (amended). [append] delegates to [extend], which raises
    [NotImplementedError]: every append fails, at every basket count, and
    leaves the branch, its counters and its arrays as they were. *)
Theorem append_not_implemented (w : World) (self : nat) (item : pyval) :
  branch_append self item w = (Raise NotImplementedError, w).
Proof. reflexivity. Qed.

Lemma pres_run_branch_op {A} (self : nat) (method : BranchObj → M A) :
  (∀ b, pres (method b)) → bags_kept (discard (on_branch self method)).
Proof. intros Hm. now apply bags_of_pres, pres_discard, pres_on_branch. Qed.

Lemma bags_run_op (o : operation) : bags_kept (run_op o).
Proof.
  destruct o; cbn [run_op].
  - apply bags_of_pres, pres_raise.
  - apply bags_of_pres, pres_raise.
  - apply bags_of_pres, pres_raise.
  - apply pres_run_branch_op. intros b. apply pres_branch_put_tobject.
  - apply pres_run_branch_op. intros b. apply pres_branch_put_tnamed.
  - apply pres_run_branch_op, pres_branch_put_tattfill.
  - apply pres_run_branch_op. intros b. apply pres_branch_put_rootiofeatures.
  - apply pres_run_branch_op, pres_branch_put_tleaf.
  - apply pres_run_branch_op, pres_branch_put_tleafI.
  - apply pres_run_branch_op. intros b. apply pres_branch_put_tobjarray.
  - apply pres_run_branch_op. intros b. apply pres_skiptobj.
  - apply pres_run_branch_op, pres_branch_write.
  - apply bags_TTree_write.
Qed.

Lemma bags_run_ops (os : list operation) (w : World) :
  heap_fields (w_heap (run_ops os w)) = heap_fields (w_heap w).
Proof.
  revert w. induction os as [|o os IH]; intros w; simpl; [reflexivity|].
  rewrite IH. apply bags_run_op.
Qed.

Lemma fields_at_heap_fields (w : World) (id : nat) :
  fields_at w id = heap_fields (w_heap w) !! id.
Proof. unfold fields_at, heap_fields. now rewrite lookup_fmap. Qed.


Lemma basket_arrays_ok_spec (flds : gmap string pyval) :
  basket_arrays_ok flds = true →
  ∃ a b c n,
    basket_arrays flds = Some (a, b, c) ∧ int_field flds "_fWriteBasket" = Some n
    ∧ length a = 10%nat ∧ length b = 10%nat ∧ length c = 10%nat
    ∧ ∀ i x, (Z.to_nat n ≤ i)%nat →
        a !! i = Some x ∨ b !! i = Some x ∨ c !! i = Some x → x = 0.
Proof.
  unfold basket_arrays_ok. intros Hok.
  destruct (basket_arrays flds) as [[[a b] c]|]; [|discriminate].
  destruct (int_field flds "_fWriteBasket") as [n|]; [|discriminate].
  repeat (apply andb_prop in Hok as [Hok ?]).
  repeat match goal with
         | Hb : bool_decide _ = true |- _ => apply bool_decide_eq_true in Hb
         end.
  exists a, b, c, n. repeat split; try assumption.
  assert (Hdrop : ∀ (l : list Z) i x,
             forallb (Z.eqb 0) (drop (Z.to_nat n) l) = true →
             (Z.to_nat n ≤ i)%nat → l !! i = Some x → x = 0).
  { intros l i x Hall Hi Hx.
    rewrite forallb_forall in Hall.
    symmetry. apply Z.eqb_eq, Hall, list_elem_of_In, list_elem_of_lookup.
    exists (i - Z.to_nat n)%nat. rewrite lookup_drop.
    now replace (Z.to_nat n + (i - Z.to_nat n))%nat with i by lia. }
  intros i x Hi [Hx|[Hx|Hx]];
    [apply (Hdrop a i x) | apply (Hdrop b i x) | apply (Hdrop c i x)]; assumption.
Qed.

Lemma branch_init_inv (type name title defaultBasketSize compression : pyval)
    (self : BranchObj) :
  branch_init type name title defaultBasketSize compression = Ok self →
  ∃ n, fixstring name = Ok n
       ∧ branch_fields_init type defaultBasketSize = Ok (b_fields self)
       ∧ self = mkBranch type n n defaultBasketSize compression VNone VNone
                  (ok_or ∅ (branch_fields_init type defaultBasketSize)).
Proof.
  unfold branch_init. intros Hi.
  apply rbind_ok in Hi as (n & Hn & Hi). apply rbind_ok in Hi as (t & Ht & Hi).
  apply rbind_ok in Hi as (f & Hf & Hi). injection Hi as <-.
  rewrite Hn in Ht. injection Ht as <-.
  exists n. rewrite Hf. easy.
Qed.

Lemma branch_init_fields (type name title defaultBasketSize compression : pyval)
    (self : BranchObj) :
  branch_init type name title defaultBasketSize compression = Ok self →
  basket_arrays (b_fields self) = Some (replicate 10 0, replicate 10 0, replicate 10 0)
  ∧ basket_arrays_ok (b_fields self) = true
  ∧ b_fields self !! "fCompress" = None
  ∧ b_fields self !! "_fCompress" = Some (VInt 100)
  ∧ (∃ l, b_fields self !! "_fLeaves" = Some (VList l) ∧ (length l < 2)%nat).
Proof.
  intros Hi. apply branch_init_inv in Hi as (n & _ & _ & ->).
  cbn [b_fields]. unfold branch_fields_init.
  destruct (py_eq_str type "int").
  - split; [vm_compute; reflexivity|]. split; [vm_compute; reflexivity|].
    split; [vm_compute; reflexivity|]. split; [vm_compute; reflexivity|].
    exists [pystr "TLeafI"]. split; [vm_compute; reflexivity | cbn [length]; lia].
  - split; [vm_compute; reflexivity|]. split; [vm_compute; reflexivity|].
    split; [vm_compute; reflexivity|]. split; [vm_compute; reflexivity|].
    exists []. split; [vm_compute; reflexivity | cbn [length]; lia].
Qed.

(** C8. The three basket bookkeeping arrays of a branch are ten zeros each
    after construction; and whatever operations run (the branch's own
    methods, on any branch, or the write of the tree), a field bag that
    satisfies the invariant (three arrays of ten elements, zero from the
    number of baskets written on) is still the same bag afterwards. *)
Theorem basket_arrays_invariant
    (type name title defaultBasketSize compression : pyval) (self : BranchObj)
    (os : list operation) (w : World) (id : nat) (flds : gmap string pyval) :
  branch_init type name title defaultBasketSize compression = Ok self →
  fields_at w id = Some flds →
  basket_arrays_ok flds = true →
  (basket_arrays (b_fields self) = Some (replicate 10 0, replicate 10 0, replicate 10 0)
   ∧ basket_arrays_ok (b_fields self) = true)
  ∧ fields_at (run_ops os w) id = Some flds
  ∧ ∃ a b c n,
      basket_arrays flds = Some (a, b, c) ∧ int_field flds "_fWriteBasket" = Some n
      ∧ length a = 10%nat ∧ length b = 10%nat ∧ length c = 10%nat
      ∧ ∀ i x, (Z.to_nat n ≤ i)%nat →
          a !! i = Some x ∨ b !! i = Some x ∨ c !! i = Some x → x = 0.
Proof.
  intros Hi Hat Hok.
  destruct (branch_init_fields _ _ _ _ _ _ Hi) as (Ha & Hb & _).
  split; [easy|]. split.
  - now rewrite fields_at_heap_fields, bags_run_ops, <- fields_at_heap_fields.
  - now apply basket_arrays_ok_spec.
Qed.

(** ** [branch.write] *)

Lemma skip_run (n : Z) (w : World) :
  skip n w = (Ok tt, w_with_cursor (cursor_skip n (w_cursor w)) w).
Proof. reflexivity. Qed.

Lemma branch_write_missing_key (self : BranchObj) (w : World) :
  b_fields self !! "fCompress" = None → ∃ e, fst (branch_write self w) = Raise e.
Proof.
  intros Hnone. apply not_ok_raises. intros out w' E.
  unfold branch_write in E.
  apply bind_ok in E as (cc & w1 & _ & E).
  apply bind_ok in E as (u & w2 & _ & E).
  apply bind_ok in E as (buff & w3 & Eb & _).
  unfold branch_write_buff in Eb.
  apply bind_ok in Eb as (b1 & w4 & _ & Eb).
  apply bind_ok in Eb as (b2 & w5 & _ & Eb).
  apply bind_ok in Eb as (args & w6 & Ea & _).
  apply lift_ok in Ea as [Ea _].
  destruct (getfs_ok_present _ _ _ Ea "fCompress") as [v Hv]; [set_solver|].
  congruence.
Qed.

(** C3 (the code at the failing input). A branch as [branch.__init__] leaves
    it stores its compression setting under ["_fCompress"] and has no key
    ["fCompress"]; [branch.write] therefore raises instead of serializing the
    layout fields, and the exception is [KeyError("fCompress")] as soon as
    the two headers before the layout fields are written. *)
Theorem branch_write_reads_missing_keys
    (type name title defaultBasketSize compression : pyval) (self : BranchObj) (w : World) :
  branch_init type name title defaultBasketSize compression = Ok self →
  b_fields self !! "_fCompress" = Some (VInt 100)
  ∧ b_fields self !! "fCompress" = None
  ∧ (∃ e, fst (branch_write self w) = Raise e)
  ∧ ∀ b1 w1 b2 w2,
      branch_put_tnamed (VBytes (b_name self)) (VBytes (b_title self ++ bstr "/I"))
        (w_with_cursor (cursor_skip 6 (w_cursor w)) w) = (Ok b1, w1) →
      branch_put_tattfill self w1 = (Ok b2, w2) →
      branch_write self w = (Raise (KeyError "fCompress"), w2).
Proof.
  intros Hi.
  destruct (branch_init_fields _ _ _ _ _ _ Hi) as (_ & _ & Hnone & Hsome & _).
  repeat split; try assumption.
  - now apply branch_write_missing_key.
  - intros b1 w1 b2 w2 E1 E2.
    unfold branch_write, branch_write_buff.
    unfold bind at 1. unfold copy_of_cursor.
    unfold bind at 1. rewrite skip_run.
    change (struct_size _format_cntvers) with 6.
    unfold bind at 1 2. rewrite E1.
    unfold bind at 1. rewrite E2.
    unfold bind at 1. unfold branch_field_args, lift, getfs. simpl.
    unfold getf at 1. now rewrite Hnone.
Qed.

(** C6 (the code at the failing input). A branch whose leaf list has fewer
    than two elements, in particular the single leaf of an integer branch,
    makes [branch.write] raise, whatever else its field bag holds: the source
    indexes the list at 0 and at 1. *)
Theorem branch_write_needs_two_leaves (self : BranchObj) (w : World) (l : list pyval) :
  b_fields self !! "_fLeaves" = Some (VList l) → (length l < 2)%nat →
  ∃ e, fst (branch_write self w) = Raise e.
Proof.
  intros Hl Hlen. apply not_ok_raises. intros out w' E.
  unfold branch_write in E.
  apply bind_ok in E as (cc & w1 & _ & E).
  apply bind_ok in E as (u & w2 & _ & E).
  apply bind_ok in E as (buff & w3 & Eb & _).
  unfold branch_write_buff in Eb.
  do 9 (apply bind_ok in Eb as (? & ? & _ & Eb)).
  apply bind_ok in Eb as (leaves & w4 & E1 & Eb).
  apply lift_ok in E1 as [E1 _]. apply getf_ok in E1.
  rewrite Hl in E1. injection E1 as <-.
  apply bind_ok in Eb as (values & w5 & E2 & Eb).
  apply bind_ok in Eb as (leaves & w6 & E3 & Eb).
  apply lift_ok in E3 as [E3 _]. apply getf_ok in E3.
  rewrite Hl in E3. injection E3 as <-.
  apply bind_ok in Eb as (classname & w7 & E4 & _).
  apply lift_ok in E4 as [E4 _]. simpl in E4.
  destruct (l !! 1%nat) eqn:H1; [|discriminate].
  apply lookup_lt_Some in H1. lia.
Qed.


Lemma put_string_ok (b out : bytes) (w w' : World) :
  put_string (VBytes b) w = (Ok out, w') → encode_string b = Ok out.
Proof.
  unfold put_string, on_cursor, cursor_put_string.
  destruct (encode_string b) as [e|]; simpl; intros E; now inversion E.
Qed.




(** ** [TTree.write] on a tree with one integer branch *)

Lemma bind_ok_pres {A B} (m : M A) (k : A → M B) (w w' : World) (b : B) :
  pres m → bind m k w = (Ok b, w') →
  ∃ a w1, m w = (Ok a, w1) ∧ k a w1 = (Ok b, w') ∧ w_tree w1 = w_tree w.
Proof.
  intros Hp E. apply bind_ok in E as (a & w1 & E1 & E).
  exists a, w1. repeat split; try assumption.
  destruct (Hp w) as [Ht _]. now rewrite E1 in Ht.
Qed.

(** One step of a method that leaves the tree alone: [HT] records the tree
    of the current world. *)
Ltac step_tree E HT :=
  let a := fresh "a" in
  let w := fresh "w" in
  let Ht := fresh "Ht" in
  cbv beta zeta in E;
  apply bind_ok_pres in E as (a & w & _ & E & Ht);
  [ apply (λ p, eq_trans p HT) in Ht; clear HT; rename Ht into HT
  | solve [solve_pres] ].

Lemma bind_raises {A B} (m : M A) (k : A → M B) (w : World) :
  (∃ e, fst (m w) = Raise e) → ∃ e, fst (bind m k w) = Raise e.
Proof.
  intros [e He]. unfold bind. destruct (m w) as [[a|e'] w1]; simpl in *;
    [discriminate | eauto].
Qed.

(** If the loop of [TTree.write] leaves a non-empty branch list and a leaf
    listing whose first entry has a single element, building the buffer
    raises: the source indexes that entry at 1. *)
Lemma TTree_write_buff_single_leaf (name branch leaf : pyval) (w : World) :
  t_fields (w_tree w) !! "_fBranches" = Some (VList [branch]) →
  t_fields (w_tree w) !! "_fLeaves" = Some (VList [VList [leaf]]) →
  ∃ e, fst (TTree_write_buff name w) = Raise e.
Proof.
  intros HB HL. apply not_ok_raises. intros buff w' E.
  unfold TTree_write_buff in E.
  remember (w_tree w) as T eqn:HT. symmetry in HT.
  do 16 (step_tree E HT).
  cbv beta zeta in E.
  apply bind_ok_pres in E as (branches & v1 & E1 & E & Ht); [|apply pres_tree_field].
  apply tree_field_ok in E1 as [E1 _]. rewrite HT, HB in E1. injection E1 as <-.
  apply (λ p, eq_trans p HT) in Ht. clear HT.
  cbv beta zeta in E. cbn [py_eq_empty_list] in E.
  apply bind_ok in E as (b10 & v2 & E10 & _).
  apply bind_ok_pres in E10 as (leaves & v3 & E1 & E10 & Ht3); [|apply pres_tree_field].
  apply tree_field_ok in E1 as [E1 _]. rewrite Ht, HL in E1. injection E1 as <-.
  apply (λ p, eq_trans p Ht) in Ht3.
  apply bind_ok in E10 as (l0 & v4 & E1 & E10).
  apply lift_ok in E1 as [E1 ->]. cbn in E1. injection E1 as <-.
  apply bind_ok in E10 as (values & v4 & E1 & E10). apply lift_ok in E1 as [_ ->].
  apply bind_ok_pres in E10 as (leaves & v4 & E1 & E10 & Ht4); [|apply pres_tree_field].
  apply tree_field_ok in E1 as [E1 _]. rewrite Ht3, HL in E1. injection E1 as <-.
  apply bind_ok in E10 as (l0 & v5 & E1 & E10).
  apply lift_ok in E1 as [E1 ->]. cbn in E1. injection E1 as <-.
  apply bind_ok in E10 as (classname & v5 & E1 & _).
  apply lift_ok in E1 as [E1 _]. cbn in E1. discriminate.
Qed.

(** C2 (the code at the failing input). For the tree named ["t"] with one
    fresh integer branch ["x"], in every environment and for every argument,
    [TTree.write] raises before [givenbytes] exists, so nothing is handed to
    the compression collaborator. *)
Theorem tree_with_int_branch_raises
    (context name compression key keycursor util ttitle btitle bsize bcompression : pyval)
    (c : Cursor) (e : ExtState) (t : TTreeObj) (b : BranchObj) :
  TTree_init (pystr "t") ttitle [VRef 0%nat] = Ok t →
  branch_init (pystr "int") (pystr "x") btitle bsize bcompression = Ok b →
  (∃ exc, fst (TTree_write_givenbytes name keycursor util (mkWorld c t {[0%nat := b]} e))
          = Raise exc)
  ∧ (∃ exc, fst (TTree_write context name compression key keycursor util
                   (mkWorld c t {[0%nat := b]} e)) = Raise exc).
Proof.
  intros Ht Hb.
  assert (Hg : ∃ exc, fst (TTree_write_givenbytes name keycursor util
                             (mkWorld c t {[0%nat := b]} e)) = Raise exc).
  { unfold TTree_init in Ht.
    apply rbind_ok in Ht as (fName & Hname & Ht). vm_compute in Hname.
    injection Hname as <-.
    apply rbind_ok in Ht as (fTitle & _ & Ht). injection Ht as <-.
    apply branch_init_inv in Hb as (n & _ & _ & ->).
    unfold TTree_write_givenbytes.
    match goal with
    | |- ∃ exc, fst (bind ?m ?k ?W) = Raise exc =>
        destruct (m W) as [[cs|exc] w1] eqn:Eo;
          [| unfold bind; rewrite Eo; cbn [fst]; eauto ]
    end.
    unfold bind at 1. rewrite Eo.
    apply TTree_write_open_ok in Eo as (f4 & Hf4 & Ht1 & Hh1).
    cbn [w_tree w_heap t_fields t_fClassName t_fName t_fTitle t_branches] in Hf4, Ht1, Hh1.
    assert (Hf : f4 = ok_or ∅ (open_fields TTree_fields_init)) by now rewrite Hf4.
    clear Hf4. subst f4.
    destruct w1 as [c1 t1 h1 e1]. cbn [w_tree w_heap] in Ht1, Hh1. subst t1 h1.
    match goal with
    | |- ∃ exc, fst (bind TTree_write_loop ?k ?W) = Raise exc =>
        assert (HB : t_fields (w_tree (snd (TTree_write_loop W))) !! "_fBranches"
                     = Some (VList [VRef 0%nat])) by (vm_compute; reflexivity);
        assert (HL : t_fields (w_tree (snd (TTree_write_loop W))) !! "_fLeaves"
                     = Some (VList [VList [pystr "TLeafI"]])) by (vm_compute; reflexivity);
        destruct (TTree_write_loop W) as [[[]|exc] w2] eqn:El;
          [| unfold bind; rewrite El; cbn [fst]; eauto ]
    end.
    cbn [snd] in HB, HL.
    unfold bind at 1. rewrite El.
    apply bind_raises.
    now apply TTree_write_buff_single_leaf with (VRef 0%nat) (pystr "TLeafI"). }
  split; [exact Hg|].
  unfold TTree_write. now apply bind_raises.
Qed.

End Facts.

(** ** The key of a TObjString *)

(** C9. For a key built from [(string, stringloc)], [values()] returns the
    packer format and the fields fixed at construction, in the order of the
    source, with [fSeekKey] the given location and [fName] the given string;
    the call leaves the key as it was, so a second call returns the same
    tuple. *)
Theorem Key_values_projection (string stringloc : pyval) (self : KeyObj) :
  Key_init string stringloc = Ok self →
  snd (Key_values self) = self
  ∧ fst (Key_values (snd (Key_values self))) = fst (Key_values self)
  ∧ fst (Key_values self)
    = (k_packer self, k_fNbytes self, k_fVersion self, k_fObjlen self, k_fDatime self,
       k_fKeylen self, k_fCycle self, k_fSeekKey self, k_fSeekPdir self,
       k_fClassName self, k_fName self, k_fTitle self)
  ∧ k_fSeekKey self = stringloc ∧ k_fName self = string
  ∧ k_packer self = ">ihiIhhii"%string
  ∧ k_fVersion self = 4 ∧ k_fDatime self = 1573188772 ∧ k_fKeylen self = 0
  ∧ k_fCycle self = 1 ∧ k_fSeekPdir self = 100
  ∧ k_fClassName self = bstr "TObjString"
  ∧ k_fTitle self = bstr "Collectable string class"
  ∧ py_len string = Ok (k_fObjlen self - 17) ∧ k_fNbytes self = k_fObjlen self.
Proof.
  unfold Key_init. intros Hi. apply rbind_ok in Hi as (n & Hn & Hi).
  injection Hi as <-. cbn [Key_values fst snd k_packer k_fNbytes k_fVersion k_fObjlen
    k_fDatime k_fKeylen k_fCycle k_fSeekKey k_fSeekPdir k_fClassName k_fName k_fTitle].
  rewrite Hn.
  repeat split; try reflexivity.
  - f_equal. lia.
  - lia.
Qed.

Lemma Key_values_projection_witness :
  Key_init (VBytes (bstr "hello")) (VInt 42)
  = Ok (ok_or (mkKey VNone 0 0 0 0 0 0 VNone 0 "" [] VNone [])
          (Key_init (VBytes (bstr "hello")) (VInt 42)))
  ∧ k_fSeekKey (ok_or (mkKey VNone 0 0 0 0 0 0 VNone 0 "" [] VNone [])
                  (Key_init (VBytes (bstr "hello")) (VInt 42))) = VInt 42.
Proof.
  split; [reflexivity|].
  apply (Key_values_projection (VBytes (bstr "hello")) (VInt 42)). reflexivity.
Defined.


(** ** Concrete runs in the reference environment *)

Lemma ok_or_eq {A} (d : A) (r : result A) : is_ok r = true → r = Ok (ok_or d r).
Proof. destruct r; [reflexivity | discriminate]. Qed.

Lemma run_ok `{Collaborators} {A} (d : A) (m : M A) (w : World) :
  is_ok (fst (m w)) = true → m w = (Ok (ok_or d (fst (m w))), snd (m w)).
Proof. destruct (m w) as [[a|e] w']; [reflexivity | discriminate]. Qed.

Lemma run_ok_unit `{Collaborators} (m : M unit) (w : World) :
  is_ok (fst (m w)) = true → m w = (Ok tt, snd (m w)).
Proof. destruct (m w) as [[[]|e] w']; [reflexivity | discriminate]. Qed.

Lemma ex_branch_x_init :
  @branch_init ref_env (pystr "int") (pystr "x") (pystr "a title")
    defaultBasketSize_default compression_default = Ok ex_branch_x.
Proof. apply ok_or_eq. vm_compute. reflexivity. Qed.

Lemma ex_tree_init (branches : list pyval) :
  TTree_init (pystr "t") (pystr "") branches = Ok (ex_tree branches).
Proof. reflexivity. Qed.

Lemma frame_count_covers_body_witness :
  (@emit ref_env ex_tree_record (ex_world (ex_tree []) ∅)
   = (Ok (ok_or [] (fst (@emit ref_env ex_tree_record (ex_world (ex_tree []) ∅)))),
      snd (@emit ref_env ex_tree_record (ex_world (ex_tree []) ∅)))
   ∧ frame_count (ok_or [] (fst (@emit ref_env ex_tree_record (ex_world (ex_tree []) ∅))))
     = Z.lor (len (ok_or [] (fst (@emit ref_env ex_tree_record (ex_world (ex_tree []) ∅)))) - 4)
         0x40000000)
  ∧ (@emit ref_env (K_branch_record ex_branch_edited) (ex_world no_tree ∅)
     = (Ok (ok_or [] (fst (@emit ref_env (K_branch_record ex_branch_edited)
                             (ex_world no_tree ∅)))),
        snd (@emit ref_env (K_branch_record ex_branch_edited) (ex_world no_tree ∅)))
     ∧ frame_count (ok_or [] (fst (@emit ref_env (K_branch_record ex_branch_edited)
                                     (ex_world no_tree ∅))))
       = Z.lor (len (ok_or [] (fst (@emit ref_env (K_branch_record ex_branch_edited)
                                      (ex_world no_tree ∅)))) - 4)
           0x40000000).
Proof.
  assert (He : @emit ref_env ex_tree_record (ex_world (ex_tree []) ∅)
               = (Ok (ok_or [] (fst (@emit ref_env ex_tree_record (ex_world (ex_tree []) ∅)))),
                  snd (@emit ref_env ex_tree_record (ex_world (ex_tree []) ∅))))
    by (apply run_ok; vm_compute; reflexivity).
  assert (Hb : @emit ref_env (K_branch_record ex_branch_edited) (ex_world no_tree ∅)
               = (Ok (ok_or [] (fst (@emit ref_env (K_branch_record ex_branch_edited)
                                       (ex_world no_tree ∅)))),
                  snd (@emit ref_env (K_branch_record ex_branch_edited)
                         (ex_world no_tree ∅))))
    by (apply run_ok; vm_compute; reflexivity).
  split; (split; [assumption|]).
  - exact (proj1 (proj2 (@frame_count_covers_body ref_env _ _ _ _ He))).
  - exact (proj1 (proj2 (@frame_count_covers_body ref_env _ _ _ _ Hb))).
Defined.

Lemma frame_version_is_constant_witness :
  @emit ref_env (K_branch_record ex_branch_edited) (ex_world no_tree ∅)
  = (Ok (ok_or [] (fst (@emit ref_env (K_branch_record ex_branch_edited)
                          (ex_world no_tree ∅)))),
     snd (@emit ref_env (K_branch_record ex_branch_edited) (ex_world no_tree ∅)))
  ∧ frame_version (ok_or [] (fst (@emit ref_env (K_branch_record ex_branch_edited)
                                    (ex_world no_tree ∅)))) = 13.
Proof.
  assert (He : @emit ref_env (K_branch_record ex_branch_edited) (ex_world no_tree ∅)
               = (Ok (ok_or [] (fst (@emit ref_env (K_branch_record ex_branch_edited)
                                       (ex_world no_tree ∅)))),
                  snd (@emit ref_env (K_branch_record ex_branch_edited)
                         (ex_world no_tree ∅))))
    by (apply run_ok; vm_compute; reflexivity).
  split; [exact He|].
  exact (proj2 (@frame_version_is_constant ref_env _ _ _ _ He)).
Defined.

Lemma tree_totals_accumulate_witness :
  "_fEntries" ∈ totals_keys
  ∧ @TTree_write_open ref_env ex_keycursor ex_util ex_world_three
    = (Ok (ok_or (mkCursor 0, mkCursor 0)
             (fst (@TTree_write_open ref_env ex_keycursor ex_util ex_world_three))),
       snd (@TTree_write_open ref_env ex_keycursor ex_util ex_world_three))
  ∧ @TTree_write_loop ref_env
      (snd (@TTree_write_open ref_env ex_keycursor ex_util ex_world_three))
    = (Ok tt,
       snd (@TTree_write_loop ref_env
              (snd (@TTree_write_open ref_env ex_keycursor ex_util ex_world_three))))
  ∧ int_field (t_fields (w_tree ex_world_three)) "_fEntries" = Some 0
  ∧ branch_ints "_fEntries" (w_heap ex_world_three) (t_branches (w_tree ex_world_three))
    = Some [3]
  ∧ int_field (t_fields (w_tree (snd (ex_write ex_world_three)))) "_fEntries"
    = Some (0 + sum_Z [3]).
Proof.
  assert (Hk : "_fEntries" ∈ totals_keys) by (apply list_elem_of_here).
  assert (Ho : @TTree_write_open ref_env ex_keycursor ex_util ex_world_three
               = (Ok (ok_or (mkCursor 0, mkCursor 0)
                        (fst (@TTree_write_open ref_env ex_keycursor ex_util ex_world_three))),
                  snd (@TTree_write_open ref_env ex_keycursor ex_util ex_world_three)))
    by (apply run_ok; vm_compute; reflexivity).
  assert (Hl : @TTree_write_loop ref_env
                 (snd (@TTree_write_open ref_env ex_keycursor ex_util ex_world_three))
               = (Ok tt,
                  snd (@TTree_write_loop ref_env
                         (snd (@TTree_write_open ref_env ex_keycursor ex_util
                                 ex_world_three)))))
    by (apply run_ok_unit; vm_compute; reflexivity).
  assert (Hold : int_field (t_fields (w_tree ex_world_three)) "_fEntries" = Some 0)
    by (vm_compute; reflexivity).
  assert (Hxs : branch_ints "_fEntries" (w_heap ex_world_three)
                  (t_branches (w_tree ex_world_three)) = Some [3])
    by (vm_compute; reflexivity).
  repeat (split; [assumption|]).
  exact (@tree_totals_accumulate ref_env ex_context ex_name VNone ex_key ex_keycursor
           ex_util "_fEntries" ex_world_three _ _ _ 0 [3] Hk Ho Hl Hold Hxs).
Defined.

Lemma totals_recomputed_inv `{Collaborators} (w : World)
    (context name compression key keycursor util : pyval) (field : string)
    (xs : list Z) (v : Z) :
  totals_recomputed w context name compression key keycursor util field →
  branch_ints field (w_heap w) (t_branches (w_tree w)) = Some xs →
  int_field
    (t_fields (w_tree (snd (TTree_write context name compression key keycursor util w))))
    field = Some v →
  v = sum_Z xs.
Proof. intros (xs' & Hxs & Hint) E1 E2. congruence. Qed.

(** C4, as stated, fails: on the tree without branches whose [_fEntries] was
    set to 5, [TTree.write] completes and leaves 5, not the sum 0 over no
    branches; and on the tree whose branch holds three entries, a second
    call of [TTree.write] leaves 6, not 3. *)
Lemma tree_totals_not_recomputed :
  is_ok (fst (ex_write (ex_world ex_tree_preset ∅))) = true
  ∧ ¬ @totals_recomputed ref_env (ex_world ex_tree_preset ∅)
        ex_context ex_name VNone ex_key ex_keycursor ex_util "_fEntries"
  ∧ ¬ @totals_recomputed ref_env ex_world_written
        ex_context ex_name VNone ex_key ex_keycursor ex_util "_fEntries".
Proof.
  split; [vm_compute; reflexivity|]. split.
  - intros Hc.
    assert (E1 : branch_ints "_fEntries" (w_heap (ex_world ex_tree_preset ∅))
                   (t_branches (w_tree (ex_world ex_tree_preset ∅))) = Some [])
      by (vm_compute; reflexivity).
    assert (E2 : int_field
                   (t_fields
                      (w_tree (snd (@TTree_write ref_env ex_context ex_name VNone ex_key
                                      ex_keycursor ex_util (ex_world ex_tree_preset ∅)))))
                   "_fEntries" = Some 5)
      by (vm_compute; reflexivity).
    pose proof (totals_recomputed_inv _ _ _ _ _ _ _ _ _ _ Hc E1 E2) as Hv.
    discriminate Hv.
  - intros Hc.
    assert (E1 : branch_ints "_fEntries" (w_heap ex_world_written)
                   (t_branches (w_tree ex_world_written)) = Some [3])
      by (vm_compute; reflexivity).
    assert (E2 : int_field
                   (t_fields
                      (w_tree (snd (@TTree_write ref_env ex_context ex_name VNone ex_key
                                      ex_keycursor ex_util ex_world_written))))
                   "_fEntries" = Some 6)
      by (vm_compute; reflexivity).
    pose proof (totals_recomputed_inv _ _ _ _ _ _ _ _ _ _ Hc E1 E2) as Hv.
    discriminate Hv.
Qed.

(** C7, as stated, fails: on the fresh integer branch, [append] raises and
    the basket counter is not incremented. *)
Lemma append_does_not_accumulate :
  ¬ @append_accumulates ref_env (ex_world (ex_tree [VRef 0%nat]) {[0%nat := ex_branch_x]})
      0%nat (VInt 7).
Proof.
  intros (w' & flds & flds' & n & Happ & _).
  unfold branch_append, branch_extend, raise in Happ. discriminate Happ.
Qed.

Lemma basket_arrays_invariant_witness :
  @branch_init ref_env (pystr "int") (pystr "x") (pystr "a title")
    defaultBasketSize_default compression_default = Ok ex_branch_x
  ∧ fields_at (ex_world (ex_tree [VRef 0%nat]) {[0%nat := ex_branch_x]}) 0%nat
    = Some (b_fields ex_branch_x)
  ∧ basket_arrays_ok (b_fields ex_branch_x) = true
  ∧ fields_at (@run_ops ref_env ex_write_ops
                 (ex_world (ex_tree [VRef 0%nat]) {[0%nat := ex_branch_x]})) 0%nat
    = Some (b_fields ex_branch_x).
Proof.
  assert (Hf : fields_at (ex_world (ex_tree [VRef 0%nat]) {[0%nat := ex_branch_x]}) 0%nat
               = Some (b_fields ex_branch_x)).
  { unfold fields_at, ex_world. cbn [w_heap]. now rewrite lookup_singleton_eq. }
  assert (Hok : basket_arrays_ok (b_fields ex_branch_x) = true) by (vm_compute; reflexivity).
  split; [exact ex_branch_x_init|]. split; [exact Hf|]. split; [exact Hok|].
  exact (proj1 (proj2 (@basket_arrays_invariant ref_env _ _ _ _ _ _ ex_write_ops _ _ _
                         ex_branch_x_init Hf Hok))).
Defined.

Lemma branch_write_reads_missing_keys_witness :
  @branch_init ref_env (pystr "int") (pystr "x") (pystr "a title")
    defaultBasketSize_default compression_default = Ok ex_branch_x
  ∧ b_fields ex_branch_x !! "fCompress" = None
  ∧ ∃ e, fst (@branch_write ref_env ex_branch_x (ex_world no_tree ∅)) = Raise e.
Proof.
  split; [exact ex_branch_x_init|].
  pose proof (@branch_write_reads_missing_keys ref_env _ _ _ _ _ _ (ex_world no_tree ∅)
                ex_branch_x_init) as (_ & Hnone & Hraise & _).
  split; assumption.
Defined.

Lemma branch_write_needs_two_leaves_witness :
  b_fields ex_branch_x !! "_fLeaves" = Some (VList [pystr "TLeafI"])
  ∧ (length [pystr "TLeafI"] < 2)%nat
  ∧ ∃ e, fst (@branch_write ref_env ex_branch_x (ex_world no_tree ∅)) = Raise e.
Proof.
  assert (Hl : b_fields ex_branch_x !! "_fLeaves" = Some (VList [pystr "TLeafI"]))
    by (vm_compute; reflexivity).
  assert (Hn : (length [pystr "TLeafI"] < 2)%nat) by (cbn [length]; lia).
  split; [exact Hl|]. split; [exact Hn|].
  exact (@branch_write_needs_two_leaves ref_env ex_branch_x (ex_world no_tree ∅) _ Hl Hn).
Defined.


Lemma tree_with_int_branch_raises_witness :
  TTree_init (pystr "t") (pystr "") [VRef 0%nat] = Ok (ex_tree [VRef 0%nat])
  ∧ @branch_init ref_env (pystr "int") (pystr "x") (pystr "a title")
      defaultBasketSize_default compression_default = Ok ex_branch_x
  ∧ ∃ exc, fst (ex_write (ex_world (ex_tree [VRef 0%nat]) {[0%nat := ex_branch_x]}))
           = Raise exc.
Proof.
  split; [apply ex_tree_init|]. split; [exact ex_branch_x_init|].
  exact (proj2 (@tree_with_int_branch_raises ref_env ex_context ex_name VNone ex_key
                  ex_keycursor ex_util _ _ _ _ (mkCursor 0) [] _ _
                  (ex_tree_init [VRef 0%nat]) ex_branch_x_init)).
Defined.

(** * Further properties *)

(** ** The cursor stays in step with the bytes *)

Lemma len_app {A} (a b : list A) : len (a ++ b) = len a + len b.
Proof. unfold len. rewrite length_app. lia. Qed.

Lemma len_be_bytes (w : nat) (z : Z) : len (be_bytes w z) = Z.of_nat w.
Proof. unfold len. now rewrite be_bytes_length. Qed.

Lemma len_nonneg {A} (l : list A) : 0 <= len l.
Proof. unfold len. lia. Qed.

Section CursorInStep.
Context `{Collaborators}.

Lemma pack_field_length (c : fcode) (v : pyval) (b : bytes) :
  pack_field c v = Ok b → length b = fcode_size c.
Proof.
  unfold pack_field, pack_float. intros Hp.
  destruct c; cbn [int_range fcode_size] in *;
    try (destruct (as_index v) as [z|]; [|discriminate];
         match type of Hp with
         | (if ?t then _ else _) = _ => destruct t; [|discriminate]
         end;
         injection Hp as <-; first [apply be_bytes_length | reflexivity]).
  - apply rbind_ok in Hp as (bits & _ & Hp).
    apply rbind_ok in Hp as (single & _ & Hp). injection Hp as <-. first [apply be_bytes_length | reflexivity].
  - apply rbind_ok in Hp as (bits & _ & Hp). injection Hp as <-. first [apply be_bytes_length | reflexivity].
  - apply rbind_ok in Hp as (t & _ & Hp). now injection Hp as <-.
Qed.

Lemma pack_fields_length (fmt : list fcode) (args : list pyval) (b : bytes) :
  length fmt = length args → pack_fields fmt args = Ok b →
  length b = sum_list (map fcode_size fmt).
Proof.
  revert args b. induction fmt as [|c fmt IH]; intros [|v args] b Hlen Hp;
    try discriminate.
  - now injection Hp as <-.
  - cbn [pack_fields] in Hp. apply rbind_ok in Hp as (b1 & H1 & Hp).
    apply rbind_ok in Hp as (bs & Hbs & Hp). injection Hp as <-.
    injection Hlen as Hlen.
    rewrite length_app, (pack_field_length _ _ _ H1), (IH args bs Hlen Hbs).
    reflexivity.
Qed.

(** [struct.pack] returns exactly [size] bytes. *)
Lemma struct_pack_length (fmt : list fcode) (args : list pyval) (b : bytes) :
  struct_pack fmt args = Ok b → len b = struct_size fmt.
Proof.
  unfold struct_pack, len, struct_size. intros Hp.
  destruct (bool_decide (length fmt = length args)) eqn:Hd; [|discriminate].
  apply bool_decide_eq_true in Hd. now rewrite (pack_fields_length _ _ _ Hd Hp).
Qed.

Lemma on_cursor_ok {A} (f : Cursor → result (A * Cursor)) (w w' : World) (a : A) :
  on_cursor f w = (Ok a, w') → f (w_cursor w) = Ok (a, w_cursor w').
Proof.
  unfold on_cursor. destruct (f (w_cursor w)) as [[a' c]|]; intros E; now inversion E.
Qed.

Lemma adv_put_fields (fmt : list fcode) (args : list pyval) : adv len (put_fields fmt args).
Proof.
  intros w b w' E. apply on_cursor_ok in E. unfold cursor_put_fields in E.
  apply rbind_ok in E as (b' & Hp & E). injection E as -> <-.
  cbn [cursor_skip index]. now rewrite (struct_pack_length _ _ _ Hp).
Qed.

Lemma adv_put_string (data : pyval) : adv len (put_string data).
Proof.
  intros w b w' E. apply on_cursor_ok in E. unfold cursor_put_string in E.
  destruct data; try discriminate.
  apply rbind_ok in E as (e & _ & E). injection E as -> <-. reflexivity.
Qed.

Lemma adv_put_array (data : pyval) : adv len (put_array data).
Proof.
  intros w b w' E. apply on_cursor_ok in E. unfold cursor_put_array in E.
  destruct data; try discriminate. injection E as <- <-. reflexivity.
Qed.

(** [put_data] hands its argument back and moves the cursor by its length. *)
Lemma put_data_ok (data v : pyval) (w w' : World) :
  put_data data w = (Ok v, w') →
  v = data ∧ ∃ n, py_len data = Ok n ∧ index (w_cursor w') = index (w_cursor w) + n.
Proof.
  intros E. apply on_cursor_ok in E. unfold cursor_put_data in E.
  apply rbind_ok in E as (n & Hn & E). injection E as <- <-. eauto.
Qed.

Lemma adv_skip (n : Z) : adv (λ _, n) (skip n).
Proof. intros w a w' E. injection E as _ <-. reflexivity. Qed.

Lemma adv_copy : adv (λ _, 0) copy_of_cursor.
Proof. intros w a w' E. injection E as _ <-. lia. Qed.

Lemma adv_self_tree : adv (λ _, 0) self_tree.
Proof. intros w a w' E. injection E as _ <-. lia. Qed.

Lemma adv_tree_field (key : string) : adv (λ _, 0) (tree_field key).
Proof. intros w a w' E. injection E as _ <-. lia. Qed.

Lemma adv_tree_field_args (keys : list string) : adv (λ _, 0) (tree_field_args keys).
Proof. intros w a w' E. injection E as _ <-. lia. Qed.

Lemma adv_lift0 {A} (r : result A) : adv (λ _, 0) (lift r).
Proof. intros w a w' E. injection E as _ <-. lia. Qed.

Lemma adv_branch_field (self : BranchObj) (key : string) :
  adv (λ _, 0) (branch_field self key).
Proof. apply adv_lift0. Qed.

Lemma adv_branch_field_args (self : BranchObj) (keys : list string) :
  adv (λ _, 0) (branch_field_args self keys).
Proof. apply adv_lift0. Qed.

Lemma adv_ret {A} (size : A → Z) (a : A) : size a = 0 → adv size (ret a).
Proof. intros Hs w b w' E. injection E as <- <-. lia. Qed.

Lemma adv_raise {A} (size : A → Z) (e : exn) : adv size (raise e).
Proof. intros w b w' E. discriminate E. Qed.

Lemma adv_lift {A} (size : A → Z) (r : result A) :
  (∀ a, r = Ok a → size a = 0) → adv size (lift r).
Proof. intros Hs w b w' E. injection E as E <-. rewrite (Hs b E). lia. Qed.

Lemma adv_bind {A B} (s1 : A → Z) (s2 : B → Z) (m : M A) (k : A → M B) :
  adv s1 m → (∀ a, adv (λ b, s2 b - s1 a) (k a)) → adv s2 (bind m k).
Proof.
  intros Hm Hk w b w' E. apply bind_ok in E as (a & w1 & E1 & E).
  rewrite (Hk a w1 b w' E), (Hm w a w1 E1). lia.
Qed.

Lemma adv_finish (size : bytes → Z) (copy_cursor : Cursor) (vers : Z) (buff : bytes) :
  size (be_bytes 4 (Z.lor (len buff + 2) kByteCountMask) ++ be_bytes 2 vers ++ buff) = 0 →
  adv size (lift (finish_frame copy_cursor vers buff)).
Proof.
  intros Hs. apply adv_lift. intros out Ho.
  now apply finish_frame_ok in Ho as (_ & _ & ->).
Qed.

Create HintDb adv discriminated.

#[local] Hint Resolve adv_put_fields adv_put_string adv_put_array adv_skip
  adv_copy adv_self_tree adv_tree_field adv_tree_field_args adv_lift0 adv_branch_field
  adv_branch_field_args : adv.

Lemma struct_size_cntvers : struct_size _format_cntvers = 6.
Proof. reflexivity. Qed.

(** Closes the arithmetic left at the end of a method: lengths of
    concatenations and of the literal pieces. *)
Ltac len_arith :=
  cbv beta;
  rewrite ?len_app, ?len_be_bytes, ?struct_size_cntvers;
  unfold len; cbn [length]; lia.

Ltac solve_adv :=
  repeat
    (cbv beta zeta;
     lazymatch goal with
     | |- adv _ (bind _ _) => eapply adv_bind; [ solve [ auto 2 with adv nocore ] | intros ]
     | |- adv _ (ret _) => apply adv_ret; len_arith
     | |- adv _ (raise _) => apply adv_raise
     | |- adv _ (lift (finish_frame _ _ _)) => apply adv_finish; len_arith
     | |- adv _ (match ?x with _ => _ end) => destruct x
     end).

Lemma adv_TTree_put_tobject : adv len TTree_put_tobject.
Proof. apply adv_put_fields. Qed.

Lemma adv_branch_put_tobject : adv len branch_put_tobject.
Proof. apply adv_put_fields. Qed.

#[local] Hint Resolve adv_TTree_put_tobject adv_branch_put_tobject : adv.

Lemma adv_TTree_put_tnamed (name title : pyval) : adv len (TTree_put_tnamed name title).
Proof. unfold TTree_put_tnamed. solve_adv. Qed.

Lemma adv_TTree_put_tattline : adv len TTree_put_tattline.
Proof. unfold TTree_put_tattline. solve_adv. Qed.

Lemma adv_TTree_put_tattfill : adv len TTree_put_tattfill.
Proof. unfold TTree_put_tattfill. solve_adv. Qed.

Lemma adv_TTree_put_tattmarker : adv len TTree_put_tattmarker.
Proof. unfold TTree_put_tattmarker. solve_adv. Qed.

Lemma adv_put_rootiofeatures : adv len put_rootiofeatures.
Proof. unfold put_rootiofeatures. solve_adv. Qed.

Lemma adv_skiptobj (fBits : pyval) : adv len (_skiptobj fBits).
Proof. unfold _skiptobj. solve_adv. Qed.

Lemma adv_TTree_put_tarray (values : pyval) : adv len (TTree_put_tarray values).
Proof. unfold TTree_put_tarray. solve_adv. Qed.

Lemma adv_branch_put_tnamed (name title : pyval) : adv len (branch_put_tnamed name title).
Proof. unfold branch_put_tnamed. solve_adv. Qed.

Lemma adv_branch_put_tattfill (self : BranchObj) : adv len (branch_put_tattfill self).
Proof. unfold branch_put_tattfill. solve_adv. Qed.


(** X1. A framing method that never calls the dispatcher leaves the cursor
    exactly as many bytes further as it returns: the [skip] calls of the
    source match the bytes written around them. *)
Theorem plain_record_cursor_in_step (k : record_kind) (w w' : World) (out : bytes) :
  plain_kind k = true → emit k w = (Ok out, w') →
  index (w_cursor w') = index (w_cursor w) + len out.
Proof.
  intros Hk He. destruct k; try discriminate Hk; cbn [emit] in He.
  - exact (adv_TTree_put_tnamed _ _ _ _ _ He).
  - exact (adv_TTree_put_tattline _ _ _ He).
  - exact (adv_TTree_put_tattfill _ _ _ He).
  - exact (adv_TTree_put_tattmarker _ _ _ He).
  - exact (adv_put_rootiofeatures _ _ _ He).
  - exact (adv_branch_put_tnamed _ _ _ _ _ He).
  - exact (adv_branch_put_tattfill _ _ _ _ He).
  - exact (adv_put_rootiofeatures _ _ _ He).
Qed.

#[local] Hint Resolve adv_TTree_put_tnamed adv_TTree_put_tattline adv_TTree_put_tattfill
  adv_TTree_put_tattmarker adv_put_rootiofeatures adv_skiptobj adv_TTree_put_tarray
  adv_branch_put_tnamed adv_branch_put_tattfill : adv.

Lemma adv_keeps_cursor {A} (m : M A) :
  (∀ w, w_cursor (snd (m w)) = w_cursor w) → adv (λ _, 0) m.
Proof.
  intros Hm w a w' E. specialize (Hm w). rewrite E in Hm. cbn [snd] in Hm.
  rewrite Hm. lia.
Qed.

Lemma adv_set_tree_field (key : string) (v : pyval) : adv (λ _, 0) (set_tree_field key v).
Proof. now apply adv_keeps_cursor. Qed.

Lemma adv_branch_fields_of (branch : pyval) : adv (λ _, 0) (branch_fields_of branch).
Proof.
  apply adv_keeps_cursor. intros w. unfold branch_fields_of.
  destruct branch; try reflexivity. now destruct (w_heap w !! id).
Qed.

Lemma adv_set_branch_attr (upd : pyval → BranchObj → BranchObj) (attr : option pyval)
    (branch : pyval) :
  adv (λ _, 0) (set_branch_attr upd attr branch).
Proof.
  apply adv_keeps_cursor. intros w. unfold set_branch_attr.
  destruct attr; [|reflexivity]. destruct branch; try reflexivity.
  now destruct (w_heap w !! id).
Qed.

#[local] Hint Resolve adv_set_tree_field adv_branch_fields_of adv_set_branch_attr : adv.

Lemma adv_add_branch_field (key : string) (branch : pyval) :
  adv (λ _, 0) (add_branch_field key branch).
Proof.
  intros w a w' E. unfold add_branch_field in E.
  apply bind_ok in E as (old & w1 & E1 & E). apply adv_tree_field in E1.
  apply bind_ok in E as (bf & w2 & E2 & E). apply adv_branch_fields_of in E2.
  apply bind_ok in E as (x & w3 & E3 & E). apply adv_lift0 in E3.
  apply bind_ok in E as (new & w4 & E4 & E). apply adv_lift0 in E4.
  apply adv_set_tree_field in E. lia.
Qed.

Lemma adv_append_tree_field (key : string) (item : M pyval) :
  adv (λ _, 0) item → adv (λ _, 0) (append_tree_field key item).
Proof.
  intros Hi w a w' E. unfold append_tree_field in E.
  apply bind_ok in E as (old & w1 & E1 & E). apply adv_tree_field in E1.
  destruct old; try discriminate E.
  apply bind_ok in E as (x & w2 & E2 & E). apply Hi in E2.
  apply adv_set_tree_field in E. lia.
Qed.

Lemma adv_TTree_write_branch (branch : pyval) : adv (λ _, 0) (TTree_write_branch branch).
Proof.
  intros w a w' E. unfold TTree_write_branch in E.
  apply bind_ok in E as (u1 & w1 & E1 & E). apply adv_add_branch_field in E1.
  apply bind_ok in E as (u2 & w2 & E2 & E). apply adv_add_branch_field in E2.
  apply bind_ok in E as (u3 & w3 & E3 & E). apply adv_add_branch_field in E3.
  apply bind_ok in E as (u4 & w4 & E4 & E).
  apply adv_append_tree_field in E4;
    [| eapply adv_bind; [apply adv_branch_fields_of | intros bf; apply adv_lift0] ].
  apply bind_ok in E as (self & w5 & E5 & E). apply adv_self_tree in E5.
  apply bind_ok in E as (u6 & w6 & E6 & E). apply adv_set_branch_attr in E6.
  apply bind_ok in E as (u7 & w7 & E7 & E). apply adv_set_branch_attr in E7.
  apply adv_append_tree_field in E; [| apply adv_ret; reflexivity ].
  lia.
Qed.

Lemma adv_for_each_branch (branches : list pyval) :
  adv (λ _, 0) (for_each_branch TTree_write_branch branches).
Proof.
  induction branches as [|b bs IH]; cbn [for_each_branch].
  - apply adv_ret. reflexivity.
  - intros w a w' E. apply bind_ok in E as (u & w1 & E1 & E).
    apply adv_TTree_write_branch in E1. apply IH in E. lia.
Qed.

Lemma adv_TTree_write_loop : adv (λ _, 0) TTree_write_loop.
Proof.
  intros w a w' E. unfold TTree_write_loop in E.
  apply bind_ok in E as (self & w1 & E1 & E). apply adv_self_tree in E1.
  apply adv_for_each_branch in E. lia.
Qed.

Lemma adv_convert_tree_field (key : string) (dt : dtype) :
  adv (λ _, 0) (convert_tree_field key dt).
Proof.
  intros w a w' E. apply convert_tree_field_ok in E as (f' & _ & ->). cbn. lia.
Qed.

(** The opening statements of [TTree.write] reserve the six header bytes. *)
Lemma adv_TTree_write_open (keycursor util : pyval) :
  adv (λ _, 6) (TTree_write_open keycursor util).
Proof.
  intros w a w' E. unfold TTree_write_open in E.
  apply bind_ok in E as (u0 & w0 & E0 & E). injection E0 as _ <-.
  apply bind_ok in E as (u1 & w1 & E1 & E).
  assert (H1 : w_cursor w1 = w_cursor w).
  { destruct util; try (injection E1 as _ <-; reflexivity);
      destruct (util_set_obj _ _) as [r e] in E1; injection E1 as _ <-; reflexivity. }
  clear E1.
  apply bind_ok in E as (c1 & w2 & E2 & E). injection E2 as _ <-.
  apply bind_ok in E as (c2 & w2 & E2 & E). injection E2 as _ <-.
  apply bind_ok in E as (u3 & w3 & E3 & E). injection E3 as _ <-.
  apply bind_ok in E as (u4 & w4 & E4 & E). apply adv_skip in E4.
  apply bind_ok in E as (u5 & w5 & E5 & E). apply adv_convert_tree_field in E5.
  apply bind_ok in E as (u6 & w6 & E6 & E). apply adv_convert_tree_field in E6.
  apply bind_ok in E as (u7 & w7 & E7 & E). apply adv_convert_tree_field in E7.
  apply bind_ok in E as (u8 & w8 & E8 & E). apply adv_convert_tree_field in E8.
  apply ret_ok in E as [_ ->].
  rewrite struct_size_cntvers in E4. cbn [w_cursor w_with_tree] in E4.
  rewrite H1 in E4. lia.
Qed.

Section WithDispatcher.
Hypothesis dispatcher : dispatcher_in_step.

Lemma adv_call_put_objany (util value classname keycursor : pyval) :
  adv len (call_put_objany util value classname keycursor).
Proof.
  intros w r w' E. unfold call_put_objany in E.
  destruct (util_put_objany _ _ _ _ _ _) as [r' [c e]] eqn:Hu.
  injection E as -> <-. cbn [w_cursor w_with_ext w_with_cursor].
  exact (dispatcher _ _ _ _ _ _ _ _ _ Hu).
Qed.

Lemma adv_TTree_util_put_objany (value : M pyval) (classname : pyval) :
  adv (λ _, 0) value → adv len (TTree_util_put_objany value classname).
Proof.
  intros Hv. unfold TTree_util_put_objany.
  eapply adv_bind; [apply adv_self_tree | intros self; cbv beta].
  destruct (t_util self) as [[]|]; try apply adv_raise;
    (eapply adv_bind; [exact Hv | intros v; cbv beta];
     destruct (t_keycursor self); [|apply adv_raise];
     intros w r w' E; apply adv_call_put_objany in E; lia).
Qed.

Lemma adv_branch_util_put_objany (self : BranchObj) (value classname : pyval) :
  adv len (branch_util_put_objany self value classname).
Proof.
  unfold branch_util_put_objany.
  destruct (b_util self); try apply adv_raise; apply adv_call_put_objany.
Qed.

Lemma adv_for_each_value (put : pyval → M bytes) (values : list pyval) (buff : bytes) :
  (∀ v, adv len (put v)) → adv (λ out, len out - len buff) (for_each_value put values buff).
Proof.
  intros Hp. revert buff. induction values as [|v vs IH]; intros buff;
    cbn [for_each_value].
  - apply adv_ret. lia.
  - intros w out w' E. apply bind_ok in E as (b & w1 & E1 & E).
    apply Hp in E1. apply IH in E. rewrite len_app in E. lia.
Qed.

#[local] Hint Resolve adv_call_put_objany adv_branch_util_put_objany : adv.

Lemma adv_TTree_put_tobjarray (values classname fBits : pyval) :
  adv len (TTree_put_tobjarray values classname fBits).
Proof.
  intros w out w' E. unfold TTree_put_tobjarray in E.
  apply bind_ok in E as (cc & w1 & E1 & E). apply adv_copy in E1.
  apply bind_ok in E as (u & w2 & E2 & E). apply adv_skip in E2.
  apply bind_ok in E as (b0 & w3 & E3 & E). apply adv_skiptobj in E3.
  apply bind_ok in E as (size & w4 & E4 & E). apply adv_lift0 in E4.
  apply bind_ok in E as (b1 & w5 & E5 & E). apply adv_put_string in E5.
  apply bind_ok in E as (b2 & w6 & E6 & E). apply adv_put_fields in E6.
  apply bind_ok in E as (items & w7 & E7 & E). apply adv_lift0 in E7.
  apply bind_ok in E as (buff & w8 & E8 & E).
  apply adv_for_each_value in E8;
    [| intros v; apply adv_TTree_util_put_objany, adv_ret; reflexivity ].
  apply lift_ok in E as [E ->]. apply finish_frame_ok in E as (_ & _ & ->).
  rewrite struct_size_cntvers in E2. rewrite !len_app in *. rewrite !len_be_bytes. lia.
Qed.

Lemma adv_branch_put_tobjarray (self : BranchObj) (values classname fBits : pyval) :
  adv len (branch_put_tobjarray self values classname fBits).
Proof.
  intros w out w' E. unfold branch_put_tobjarray in E.
  apply bind_ok in E as (cc & w1 & E1 & E). apply adv_copy in E1.
  apply bind_ok in E as (u & w2 & E2 & E). apply adv_skip in E2.
  apply bind_ok in E as (b0 & w3 & E3 & E). apply adv_skiptobj in E3.
  apply bind_ok in E as (sv & w4 & E4 & E). apply adv_lift0 in E4.
  apply bind_ok in E as (b1 & w5 & E5 & E). apply adv_put_string in E5.
  apply bind_ok in E as (b2 & w6 & E6 & E). apply adv_put_fields in E6.
  apply bind_ok in E as (buff & w8 & E8 & E).
  apply adv_for_each_value in E8; [| intros v; apply adv_branch_util_put_objany ].
  apply lift_ok in E as [E ->]. apply finish_frame_ok in E as (_ & _ & ->).
  rewrite struct_size_cntvers in E2. rewrite !len_app in *. rewrite !len_be_bytes. lia.
Qed.

#[local] Hint Resolve adv_TTree_put_tobjarray adv_branch_put_tobjarray : adv.

Lemma adv_branch_put_tleaf (self : BranchObj) : adv len (branch_put_tleaf self).
Proof. unfold branch_put_tleaf. solve_adv. Qed.

#[local] Hint Resolve adv_branch_put_tleaf : adv.

Lemma adv_branch_put_tleafI (self : BranchObj) : adv len (branch_put_tleafI self).
Proof. unfold branch_put_tleafI. solve_adv. Qed.

Lemma adv_branch_put_rootiofeatures : adv len branch_put_rootiofeatures.
Proof. apply adv_put_rootiofeatures. Qed.

Lemma adv_TTree_put_rootiofeatures : adv len TTree_put_rootiofeatures.
Proof. apply adv_put_rootiofeatures. Qed.

#[local] Hint Resolve adv_branch_put_rootiofeatures adv_TTree_put_rootiofeatures : adv.

Lemma len_baskets_literal : len baskets_literal = 25.
Proof. reflexivity. Qed.

(** The last statements of [branch.write]: the pieces that [put_data]
    returns are byte strings whenever the sums with byte strings succeed, and
    the cursor has moved by their lengths. *)
Lemma adv_branch_write_buff (self : BranchObj) : adv len (branch_write_buff self).
Proof.
  unfold branch_write_buff.
  do 16
    (cbv beta zeta;
     lazymatch goal with
     | |- adv _ (bind _ _) => eapply adv_bind; [ solve [ auto 2 with adv nocore ] | intros ]
     end).
  cbv beta zeta. intros w out w' E.
  apply bind_ok in E as (bb & w1 & E1 & E). apply lift_ok in E1 as [_ ->].
  apply bind_ok in E as (d8 & w2 & E2 & E).
  apply put_data_ok in E2 as (-> & n8 & Hn8 & Hc2).
  apply bind_ok in E as (s8 & w3 & E3 & E). apply lift_ok in E3 as [E3 ->].
  apply py_add_bytes_r in E3 as (x8 & -> & ->). injection Hn8 as <-.
  apply bind_ok in E as (buff1 & w4 & E4 & E). apply lift_ok in E4 as [E4 ->].
  apply bytes_iadd_ok in E4 as (y8 & Hy8 & ->). injection Hy8 as <-.
  apply bind_ok in E as (u & w5 & E5 & E). injection E5 as _ <-.
  apply bind_ok in E as (be & w6 & E6 & E). apply lift_ok in E6 as [_ ->].
  apply bind_ok in E as (d9 & w7 & E7 & E).
  apply put_data_ok in E7 as (-> & n9 & Hn9 & Hc7).
  apply bind_ok in E as (bs & w8 & E8 & E). apply lift_ok in E8 as [_ ->].
  apply bind_ok in E as (d10 & w9 & E9 & E).
  apply put_data_ok in E9 as (-> & n10 & Hn10 & Hc9).
  apply bind_ok in E as (s9 & w10 & E10 & E). apply lift_ok in E10 as [E10 ->].
  apply bind_ok in E as (fn & w11 & E11 & E). apply lift_ok in E11 as [_ ->].
  apply bind_ok in E as (b11 & w12 & E12 & E).
  pose proof (adv_put_string _ _ _ _ E12) as Hc12.
  apply bind_ok in E as (s10 & w13 & E13 & E). apply lift_ok in E13 as [E13 ->].
  apply py_add_bytes_r in E13 as (x9 & -> & ->).
  apply py_add_bytes in E10 as (y9 & y10 & -> & -> & ->).
  injection Hn9 as <-. injection Hn10 as <-.
  apply bind_ok in E as (s11 & w14 & E14 & E). apply lift_ok in E14 as [E14 ->].
  apply py_add_bytes_r in E14 as (x11 & Hx11 & ->). injection Hx11 as <-.
  apply bind_ok in E as (buff2 & w15 & E15 & E). apply lift_ok in E15 as [E15 ->].
  apply bytes_iadd_ok in E15 as (y11 & Hy11 & ->). injection Hy11 as <-.
  apply bind_ok in E as (u' & w16 & E16 & E). injection E16 as _ <-.
  apply ret_ok in E as [-> ->].
  cbn [w_cursor w_with_cursor cursor_skip index] in *.
  rewrite Hc12, Hc9, Hc7. cbn [w_cursor w_with_cursor cursor_skip index].
  rewrite Hc2, !len_app, len_baskets_literal.
  unfold len. cbn [length]. lia.
Qed.

#[local] Hint Resolve adv_branch_write_buff : adv.

Lemma adv_branch_write (self : BranchObj) : adv len (branch_write self).
Proof. unfold branch_write. solve_adv. Qed.

Lemma adv_use {A} (size : A → Z) (m : M A) (w w' : World) (a : A) :
  adv size m → m w = (Ok a, w') → index (w_cursor w') = index (w_cursor w) + size a.
Proof. intros Hm E. exact (Hm w a w' E). Qed.

#[local] Hint Resolve adv_TTree_util_put_objany adv_branch_write : adv.

(** Peels every step off [E : m w = (Ok _, _)] and records, for each, how far
    it moved the cursor. *)
Ltac adv_all E :=
  cbv beta zeta in E;
  lazymatch type of E with
  | bind _ _ _ = _ =>
      let a := fresh "a" in
      let w := fresh "w" in
      let A := fresh "A" in
      apply bind_ok in E as (a & w & A & E);
      adv_first A; adv_all E
  | ret _ _ = _ => apply ret_ok in E as [-> ->]
  | (if ?c then _ else _) _ = _ => destruct c; adv_all E
  | _ => eapply adv_use in E; [ | solve [ auto 3 with adv nocore ] ]; cbv beta in E
  end
with adv_first A :=
  cbv beta zeta in A;
  lazymatch type of A with
  | (if ?c then _ else _) _ = _ => destruct c; adv_all A
  | _ => eapply adv_use in A; [ | solve [ auto 3 with adv nocore ] ]; cbv beta in A
  end.

Lemma adv_TTree_write_buff (name : pyval) : adv len (TTree_write_buff name).
Proof.
  intros w out w' E. unfold TTree_write_buff in E.
  adv_all E; rewrite !len_app; unfold len in *; cbn [length] in *; lia.
Qed.

Lemma adv_TTree_write_givenbytes (name keycursor util : pyval) :
  adv (λ given, len (snd given)) (TTree_write_givenbytes name keycursor util).
Proof.
  intros w given w' E. unfold TTree_write_givenbytes in E.
  apply bind_ok in E as (cs & w1 & E1 & E). apply adv_TTree_write_open in E1.
  apply bind_ok in E as (u & w2 & E2 & E). apply adv_TTree_write_loop in E2.
  apply bind_ok in E as (buff & w3 & E3 & E). apply adv_TTree_write_buff in E3.
  apply bind_ok in E as (g & w4 & E4 & E). apply lift_ok in E4 as [E4 ->].
  apply ret_ok in E as [-> ->]. cbn [snd].
  apply finish_frame_ok in E4 as (_ & _ & ->).
  rewrite !len_app, !len_be_bytes. lia.
Qed.

(** X2. If the dispatcher moves the cursor by the number of bytes it returns,
    so does every framing method, [branch.write] and [TTree.write] included:
    the literal bytes these methods splice in are matched by their [skip]
    calls. *)
Theorem record_cursor_in_step (k : record_kind) (w w' : World) (out : bytes) :
  emit k w = (Ok out, w') → index (w_cursor w') = index (w_cursor w) + len out.
Proof.
  intros He. destruct k; cbn [emit] in He.
  - exact (adv_TTree_put_tnamed _ _ _ _ _ He).
  - exact (adv_TTree_put_tattline _ _ _ He).
  - exact (adv_TTree_put_tattfill _ _ _ He).
  - exact (adv_TTree_put_tattmarker _ _ _ He).
  - exact (adv_put_rootiofeatures _ _ _ He).
  - exact (adv_TTree_put_tobjarray _ _ _ _ _ _ He).
  - apply bind_ok in He as (given & w1 & E1 & He).
    apply adv_TTree_write_givenbytes in E1. apply ret_ok in He as [-> ->]. exact E1.
  - exact (adv_branch_put_tnamed _ _ _ _ _ He).
  - exact (adv_branch_put_tattfill _ _ _ _ He).
  - exact (adv_put_rootiofeatures _ _ _ He).
  - exact (adv_branch_put_tleaf _ _ _ _ He).
  - exact (adv_branch_put_tleafI _ _ _ _ He).
  - exact (adv_branch_put_tobjarray _ _ _ _ _ _ _ He).
  - exact (adv_branch_write _ _ _ _ He).
Qed.

End WithDispatcher.

End CursorInStep.

(** ** What the loop of [TTree.write] records *)

Section LoopRecords.
Context `{Collaborators}.

Lemma append_tree_field_exact (key : string) (item : M pyval) (w w' : World) (u : unit) :
  pres item → append_tree_field key item w = (Ok u, w') →
  ∃ l x w1,
    t_fields (w_tree w) !! key = Some (VList l) ∧ item w = (Ok x, w1)
    ∧ t_fields (w_tree w') = <[key := VList (l ++ [x])]> (t_fields (w_tree w))
    ∧ t_branches (w_tree w') = t_branches (w_tree w) ∧ w_heap w' = w_heap w.
Proof.
  unfold append_tree_field. intros Hp E.
  apply bind_ok in E as (old & w1 & E1 & E). apply tree_field_ok in E1 as [Hold ->].
  destruct old; try discriminate.
  apply bind_ok in E as (x & w1 & E1 & E).
  destruct (Hp w) as [Ht Hh]. rewrite E1 in Ht, Hh. cbn [snd] in Ht, Hh.
  apply set_tree_field_ok in E as (Hf & Hb & Hh').
  rewrite Ht in Hf, Hb. rewrite Hh in Hh'. exists l, x, w1. easy.
Qed.

Lemma add_branch_field_other (k key : string) (branch : pyval) (w w' : World) (u : unit) :
  add_branch_field k branch w = (Ok u, w') → k ≠ key →
  t_fields (w_tree w') !! key = t_fields (w_tree w) !! key
  ∧ t_branches (w_tree w') = t_branches (w_tree w) ∧ w_heap w' = w_heap w.
Proof.
  intros E Hne.
  apply add_branch_field_ok in E as (o & bf & x & new & _ & _ & _ & _ & Hf & Hb & Hh).
  rewrite Hf, lookup_insert_ne by assumption. easy.
Qed.

Lemma pres_leaves_item (branch : pyval) :
  pres (bind (branch_fields_of branch) (λ bf, lift (getf bf "_fLeaves"))).
Proof.
  apply pres_bind; [|intros; apply pres_lift].
  intros w. unfold branch_fields_of. destruct branch; try easy.
  now destruct (w_heap w !! id).
Qed.

(** One turn of the loop appends the branch and its leaf list. *)
Lemma TTree_write_branch_records (branch : pyval) (w w' : World) (bs ls : list pyval) :
  TTree_write_branch branch w = (Ok tt, w') →
  t_fields (w_tree w) !! "_fBranches" = Some (VList bs) →
  t_fields (w_tree w) !! "_fLeaves" = Some (VList ls) →
  ∃ bag lv,
    branch_bag (w_heap w) branch = Some bag ∧ bag !! "_fLeaves" = Some lv
    ∧ t_fields (w_tree w') !! "_fBranches" = Some (VList (bs ++ [branch]))
    ∧ t_fields (w_tree w') !! "_fLeaves" = Some (VList (ls ++ [lv]))
    ∧ t_branches (w_tree w') = t_branches (w_tree w).
Proof.
  intros E HB HL. unfold TTree_write_branch in E.
  apply bind_ok in E as (u1 & w1 & E1 & E).
  apply bind_ok in E as (u2 & w2 & E2 & E).
  apply bind_ok in E as (u3 & w3 & E3 & E).
  apply bind_ok in E as (u4 & w4 & E4 & E).
  apply bind_ok in E as (self & w5 & E5 & E). injection E5 as _ <-.
  apply bind_ok in E as (u6 & w6 & E6 & E).
  apply bind_ok in E as (u7 & w7 & E7 & E).
  assert (K1 := add_branch_field_other "_fEntries" "_fBranches" _ _ _ _ E1 ltac:(discriminate)).
  apply (add_branch_field_other _ "_fLeaves") in E1 as (L1 & B1 & H1); [|discriminate].
  assert (K2 := add_branch_field_other "_fTotBytes" "_fBranches" _ _ _ _ E2 ltac:(discriminate)).
  apply (add_branch_field_other _ "_fLeaves") in E2 as (L2 & B2 & H2); [|discriminate].
  assert (K3 := add_branch_field_other "_fZipBytes" "_fBranches" _ _ _ _ E3 ltac:(discriminate)).
  apply (add_branch_field_other _ "_fLeaves") in E3 as (L3 & B3 & H3); [|discriminate].
  destruct K1 as (K1 & _), K2 as (K2 & _), K3 as (K3 & _).
  apply append_tree_field_exact in E4 as (l4 & x4 & v4 & Hl4 & Hi4 & F4 & B4 & H4);
    [| apply pres_leaves_item ].
  apply bind_ok in Hi4 as (bag & v5 & Hbag & Hlv).
  apply branch_fields_of_ok in Hbag as [Hbag ->]. apply lift_ok in Hlv as [Hlv _].
  apply getf_ok in Hlv.
  apply set_branch_attr_ok in E6, E7.
  apply append_tree_field_exact in E as (l8 & x8 & v8 & Hl8 & Hi8 & F8 & B8 & _);
    [| apply pres_ret ].
  apply ret_ok in Hi8 as [-> _].
  rewrite L3, L2, L1, HL in Hl4. injection Hl4 as <-.
  rewrite E7, E6, F4, lookup_insert_ne, K3, K2, K1, HB in Hl8 by discriminate.
  injection Hl8 as <-.
  exists bag, x4. rewrite H3, H2, H1 in Hbag.
  split; [exact Hbag|]. split; [exact Hlv|].
  rewrite F8, lookup_insert_eq, lookup_insert_ne, E7, E6, F4, lookup_insert_eq
    by discriminate.
  rewrite B8, E7, E6, B4, B3, B2, B1. easy.
Qed.

Lemma branch_bag_fields (h h' : gmap nat BranchObj) (branch : pyval) :
  heap_fields h = heap_fields h' → branch_bag h branch = branch_bag h' branch.
Proof.
  intros Hh. destruct branch; try reflexivity. cbn [branch_bag].
  unfold heap_fields in Hh. now rewrite <- !lookup_fmap, Hh.
Qed.

Lemma branch_values_fields (key : string) (h h' : gmap nat BranchObj) (bs : list pyval) :
  heap_fields h = heap_fields h' → branch_values key h bs = branch_values key h' bs.
Proof.
  intros Hh. induction bs as [|b bs IH]; [reflexivity|].
  cbn [branch_values]. now rewrite IH, (branch_bag_fields h h' b Hh).
Qed.

Lemma for_each_branch_records (branches : list pyval) :
  ∀ (w w' : World) (bs ls : list pyval),
    for_each_branch TTree_write_branch branches w = (Ok tt, w') →
    t_fields (w_tree w) !! "_fBranches" = Some (VList bs) →
    t_fields (w_tree w) !! "_fLeaves" = Some (VList ls) →
    ∃ lvs,
      branch_values "_fLeaves" (w_heap w) branches = Some lvs
      ∧ t_fields (w_tree w') !! "_fBranches" = Some (VList (bs ++ branches))
      ∧ t_fields (w_tree w') !! "_fLeaves" = Some (VList (ls ++ lvs))
      ∧ t_branches (w_tree w') = t_branches (w_tree w).
Proof.
  induction branches as [|b rest IH]; intros w w' bs ls E HB HL.
  - cbn in E. injection E as <-. exists []. now rewrite !app_nil_r.
  - cbn [for_each_branch] in E. apply bind_ok in E as ([] & w1 & E1 & E).
    pose proof (bags_TTree_write_branch b w) as Hbags.
    rewrite E1 in Hbags. cbn [snd] in Hbags.
    apply (TTree_write_branch_records _ _ _ bs ls) in E1
      as (bag & lv & Hbag & Hlv & HB1 & HL1 & Hbr1); [|assumption..].
    destruct (IH _ _ _ _ E HB1 HL1) as (lvs & Hlvs & HB2 & HL2 & Hbr2).
    exists (lv :: lvs). cbn [branch_values].
    rewrite Hbag, Hlv, (branch_values_fields _ _ (w_heap w1)), Hlvs by now symmetry.
    rewrite HB2, HL2, Hbr2, Hbr1, <- !app_assoc. easy.
Qed.

(** X3. When the loop of [TTree.write] completes, the tree's [_fBranches]
    has gained the branches of the tree, in order, and [_fLeaves] the leaf
    list of each of them, one entry per branch: what was there before stays
    in front, so a second write lists every branch twice. *)
Theorem TTree_write_loop_records (w w' : World) (bs ls : list pyval) :
  TTree_write_loop w = (Ok tt, w') →
  t_fields (w_tree w) !! "_fBranches" = Some (VList bs) →
  t_fields (w_tree w) !! "_fLeaves" = Some (VList ls) →
  ∃ lvs,
    branch_values "_fLeaves" (w_heap w) (t_branches (w_tree w)) = Some lvs
    ∧ t_fields (w_tree w') !! "_fBranches" = Some (VList (bs ++ t_branches (w_tree w)))
    ∧ t_fields (w_tree w') !! "_fLeaves" = Some (VList (ls ++ lvs))
    ∧ t_branches (w_tree w') = t_branches (w_tree w).
Proof.
  intros E HB HL. unfold TTree_write_loop in E.
  apply bind_ok in E as (self & w1 & E1 & E). injection E1 as <- <-.
  now apply for_each_branch_records.
Qed.

End LoopRecords.

(** ** [TTree.write] on constructed branches *)

Section WriteFails.
Context `{Collaborators}.

Create HintDb kept discriminated.

#[local] Hint Resolve pres_self_tree pres_TTree_put_tnamed pres_TTree_put_tattline
  pres_TTree_put_tattfill pres_TTree_put_tattmarker pres_tree_field_args pres_put_fields
  pres_tree_field pres_put_array pres_skip pres_TTree_put_rootiofeatures
  pres_TTree_put_tobjarray : kept.

Ltac step_kept E HT :=
  let a := fresh "a" in
  let w := fresh "w" in
  let Ht := fresh "Ht" in
  cbv beta zeta in E;
  apply bind_ok_pres in E as (a & w & _ & E & Ht);
  [ apply (λ p, eq_trans p HT) in Ht; clear HT; rename Ht into HT
  | solve [ auto 2 with kept nocore ] ].

(** With a non-empty branch list and a first leaf entry of fewer than two
    elements, building the buffer raises: the source takes elements 0 and 1
    of that entry. *)
Lemma TTree_write_buff_short_leaves (name b : pyval) (bs l rest : list pyval) (w : World) :
  t_fields (w_tree w) !! "_fBranches" = Some (VList (b :: bs)) →
  t_fields (w_tree w) !! "_fLeaves" = Some (VList (VList l :: rest)) →
  (length l < 2)%nat →
  ∃ e, fst (TTree_write_buff name w) = Raise e.
Proof.
  intros HB HL Hlen. apply not_ok_raises. intros buff w' E.
  unfold TTree_write_buff in E.
  remember (w_tree w) as T eqn:HT. symmetry in HT.
  do 16 (step_kept E HT).
  cbv beta zeta in E.
  apply bind_ok_pres in E as (branches & v1 & E1 & E & Ht); [|apply pres_tree_field].
  apply tree_field_ok in E1 as [E1 _]. rewrite HT, HB in E1. injection E1 as <-.
  apply (λ p, eq_trans p HT) in Ht. clear HT.
  cbv beta zeta in E. cbn [py_eq_empty_list] in E.
  apply bind_ok in E as (b10 & v2 & E10 & _).
  apply bind_ok_pres in E10 as (leaves & v3 & E1 & E10 & Ht3); [|apply pres_tree_field].
  apply tree_field_ok in E1 as [E1 _]. rewrite Ht, HL in E1. injection E1 as <-.
  apply (λ p, eq_trans p Ht) in Ht3.
  apply bind_ok in E10 as (l0 & v4 & E1 & E10).
  apply lift_ok in E1 as [E1 ->]. cbn in E1. injection E1 as <-.
  apply bind_ok in E10 as (values & v4 & E1 & E10). apply lift_ok in E1 as [_ ->].
  apply bind_ok_pres in E10 as (leaves & v4 & E1 & E10 & Ht4); [|apply pres_tree_field].
  apply tree_field_ok in E1 as [E1 _]. rewrite Ht3, HL in E1. injection E1 as <-.
  apply bind_ok in E10 as (l0 & v5 & E1 & E10).
  apply lift_ok in E1 as [E1 ->]. cbn in E1. injection E1 as <-.
  apply bind_ok in E10 as (classname & v5 & E1 & _).
  apply lift_ok in E1 as [E1 _]. cbn [py_getitem] in E1.
  destruct (l !! 1%nat) eqn:H1; [|discriminate].
  apply lookup_lt_Some in H1. lia.
Qed.

Lemma open_fields_other (key : string) (f f' : gmap string pyval) :
  key ∉ ["_fClusterRangeEnd"; "_fClusterSize"; "_fIndexValues"; "_fIndex"] →
  open_fields f = Ok f' → f' !! key = f !! key.
Proof.
  intros Hk E. unfold open_fields in E.
  apply rbind_ok in E as (f1 & E1 & E). apply rbind_ok in E as (f2 & E2 & E).
  apply rbind_ok in E as (f3 & E3 & E).
  assert (Hc : ∀ k dt g g', convert_field k dt g = Ok g' → k ≠ key → g' !! key = g !! key).
  { intros k dt g g' Ec Hne. unfold convert_field in Ec.
    apply rbind_ok in Ec as (v & _ & Ec). apply rbind_ok in Ec as (a & _ & Ec).
    injection Ec as <-. now apply lookup_insert_ne. }
  rewrite !not_elem_of_cons in Hk. destruct Hk as (K1 & K2 & K3 & K4 & _).
  rewrite (Hc _ _ _ _ E), (Hc _ _ _ _ E3), (Hc _ _ _ _ E2), (Hc _ _ _ _ E1);
    [reflexivity | congruence..].
Qed.

(** X4. [TTree.write] raises on every tree that comes from [TTree.__init__]
    with a first branch that comes from [branch.__init__], whatever the name,
    the type of the branch, the other branches and the collaborators: the
    leaf list of a constructed branch has at most one element. *)
Theorem TTree_write_raises_on_constructed_branch
    (context name compression key keycursor util tname ttitle : pyval)
    (btype bname btitle bsize bcompression : pyval)
    (id : nat) (rest : list pyval) (t : TTreeObj) (b : BranchObj) (w : World) :
  TTree_init tname ttitle (VRef id :: rest) = Ok t →
  branch_init btype bname btitle bsize bcompression = Ok b →
  w_tree w = t → w_heap w !! id = Some b →
  ∃ exc, fst (TTree_write context name compression key keycursor util w) = Raise exc.
Proof.
  intros Ht Hb Hw Hid.
  destruct (branch_init_fields _ _ _ _ _ _ Hb) as (_ & _ & _ & _ & l & Hl & Hlen).
  unfold TTree_init in Ht.
  apply rbind_ok in Ht as (fName & _ & Ht). apply rbind_ok in Ht as (fTitle & _ & Ht).
  injection Ht as <-.
  unfold TTree_write. apply bind_raises. unfold TTree_write_givenbytes.
  destruct (TTree_write_open keycursor util w) as [[cs|exc] w1] eqn:Eo;
    [| unfold bind; rewrite Eo; cbn [fst]; eauto ].
  unfold bind at 1. rewrite Eo.
  apply TTree_write_open_ok in Eo as (f4 & Hf4 & Ht1 & Hh1).
  rewrite Hw in Hf4, Ht1. cbn [t_fields t_fClassName t_fName t_fTitle t_branches] in Hf4, Ht1.
  assert (HB : f4 !! "_fBranches" = Some (VList [])).
  { rewrite (open_fields_other "_fBranches" TTree_fields_init f4);
      [ vm_compute; reflexivity | | exact Hf4 ].
    intros Hin. rewrite !elem_of_cons, elem_of_nil in Hin.
    destruct Hin as [?|[?|[?|[?|[]]]]]; discriminate. }
  assert (HL : f4 !! "_fLeaves" = Some (VList [])).
  { rewrite (open_fields_other "_fLeaves" TTree_fields_init f4);
      [ vm_compute; reflexivity | | exact Hf4 ].
    intros Hin. rewrite !elem_of_cons, elem_of_nil in Hin.
    destruct Hin as [?|[?|[?|[?|[]]]]]; discriminate. }
  destruct (TTree_write_loop w1) as [[[]|exc] w2] eqn:El;
    [| unfold bind; rewrite El; cbn [fst]; eauto ].
  unfold bind at 1. rewrite El.
  unfold TTree_write_loop in El.
  apply bind_ok in El as (self & w1' & Es & El). injection Es as <- <-.
  apply (for_each_branch_records _ _ _ [] []) in El
    as (lvs & Hlvs & HB2 & HL2 & _); [| rewrite Ht1; assumption..].
  rewrite Ht1 in Hlvs, HB2. cbn [t_branches branch_values branch_bag] in Hlvs, HB2.
  rewrite Hh1, Hid in Hlvs. cbn [fmap option_fmap option_map] in Hlvs.
  rewrite Hl in Hlvs.
  destruct (branch_values "_fLeaves" (w_heap w) rest) as [lvs'|]; [|discriminate].
  injection Hlvs as <-. cbn [app] in HB2, HL2.
  apply bind_raises. now apply TTree_write_buff_short_leaves with (VRef id) rest l lvs'.
Qed.

End WriteFails.

(** ** [TTree.write] attaches its util and key cursor to the branches *)

Section Attach.
Context `{Collaborators}.

Lemma fields_only_same {A} (m : M A) :
  (∀ w a w', m w = (Ok a, w') → w' = w) → fields_only m.
Proof.
  intros Hm w a w' E. rewrite (Hm w a w' E). exists (t_fields (w_tree w)).
  now destruct w as [c [] h e].
Qed.

Lemma fields_only_bind {A B} (m : M A) (k : A → M B) :
  fields_only m → (∀ a, fields_only (k a)) → fields_only (bind m k).
Proof.
  intros Hm Hk w b w' E. apply bind_ok in E as (a & w1 & E1 & E).
  destruct (Hm _ _ _ E1) as [F1 ->]. destruct (Hk _ _ _ _ E) as [F2 ->].
  now exists F2.
Qed.

Lemma fields_only_set_tree_field (key : string) (v : pyval) :
  fields_only (set_tree_field key v).
Proof. intros w a w' E. injection E as _ <-. eauto. Qed.

Lemma fields_only_tree_field (key : string) : fields_only (tree_field key).
Proof. apply fields_only_same. intros w a w' E. now injection E as _ <-. Qed.

Lemma fields_only_lift {A} (r : result A) : fields_only (lift r).
Proof. apply fields_only_same. intros w a w' E. now injection E as _ <-. Qed.

Lemma fields_only_ret {A} (a : A) : fields_only (ret a).
Proof. apply fields_only_same. intros w b w' E. now injection E as _ <-. Qed.

Lemma fields_only_branch_fields_of (branch : pyval) : fields_only (branch_fields_of branch).
Proof.
  apply fields_only_same. intros w a w' E. unfold branch_fields_of in E.
  destruct branch; try discriminate. destruct (w_heap w !! id); [|discriminate].
  now injection E as _ <-.
Qed.

Lemma fields_only_add_branch_field (key : string) (branch : pyval) :
  fields_only (add_branch_field key branch).
Proof.
  unfold add_branch_field.
  apply fields_only_bind; [apply fields_only_tree_field | intros old].
  apply fields_only_bind; [apply fields_only_branch_fields_of | intros bf].
  apply fields_only_bind; [apply fields_only_lift | intros x].
  apply fields_only_bind; [apply fields_only_lift | intros new].
  apply fields_only_set_tree_field.
Qed.

Lemma fields_only_append_tree_field (key : string) (item : M pyval) :
  fields_only item → fields_only (append_tree_field key item).
Proof.
  intros Hi. unfold append_tree_field.
  apply fields_only_bind; [apply fields_only_tree_field | intros old].
  destruct old; try (intros w a w' E; discriminate E).
  apply fields_only_bind; [exact Hi | intros x]. apply fields_only_set_tree_field.
Qed.

Lemma set_branch_attr_exact (upd : pyval → BranchObj → BranchObj) (attr : option pyval)
    (branch : pyval) (w w' : World) (u : unit) :
  set_branch_attr upd attr branch w = (Ok u, w') →
  ∃ v id b, attr = Some v ∧ branch = VRef id ∧ w_heap w !! id = Some b
            ∧ w' = w_with_heap (<[id := upd v b]> (w_heap w)) w.
Proof.
  unfold set_branch_attr. destruct attr as [v|]; [|discriminate].
  destruct branch; try discriminate.
  destruct (w_heap w !! id) as [b|] eqn:Hb; [|discriminate].
  intros E. injection E as <-. exists v, id, b. easy.
Qed.

(** One turn of the loop replaces the branch by the attached branch. *)
Lemma TTree_write_branch_attaches (branch util keycursor : pyval) (w w' : World) :
  TTree_write_branch branch w = (Ok tt, w') →
  t_util (w_tree w) = Some util → t_keycursor (w_tree w) = Some keycursor →
  ∃ id b, branch = VRef id ∧ w_heap w !! id = Some b
          ∧ w_heap w' = <[id := attach util keycursor b]> (w_heap w)
          ∧ t_util (w_tree w') = Some util ∧ t_keycursor (w_tree w') = Some keycursor.
Proof.
  intros E Hu Hk. unfold TTree_write_branch in E.
  apply bind_ok in E as (u1 & w1 & E1 & E).
  apply fields_only_add_branch_field in E1 as [F1 ->].
  apply bind_ok in E as (u2 & w2 & E2 & E).
  apply fields_only_add_branch_field in E2 as [F2 ->].
  apply bind_ok in E as (u3 & w3 & E3 & E).
  apply fields_only_add_branch_field in E3 as [F3 ->].
  apply bind_ok in E as (u4 & w4 & E4 & E).
  apply fields_only_append_tree_field in E4 as [F4 ->];
    [| apply fields_only_bind; [apply fields_only_branch_fields_of
                               | intros; apply fields_only_lift] ].
  apply bind_ok in E as (self & w5 & E5 & E). injection E5 as <- <-.
  cbn [w_tree w_with_tree t_util t_keycursor t_with_fields] in E.
  rewrite Hu, Hk in E.
  apply bind_ok in E as (u6 & w6 & E6 & E).
  apply set_branch_attr_exact in E6 as (v6 & id & b & Hv6 & -> & Hb & ->).
  injection Hv6 as <-.
  apply bind_ok in E as (u7 & w7 & E7 & E).
  apply set_branch_attr_exact in E7 as (v7 & id' & b' & Hv7 & Hid & Hb' & ->).
  injection Hv7 as <-. injection Hid as <-.
  cbn [w_heap w_with_heap w_with_tree] in Hb, Hb'.
  rewrite lookup_insert_eq in Hb'. injection Hb' as <-.
  apply fields_only_append_tree_field in E as [F8 ->]; [| apply fields_only_ret ].
  exists id, b. cbn. rewrite insert_insert_eq. easy.
Qed.

Lemma attach_idem (util keycursor : pyval) (b : BranchObj) :
  attach util keycursor (attach util keycursor b) = attach util keycursor b.
Proof. reflexivity. Qed.

Lemma ref_in_dec (id : nat) (l : list pyval) : VRef id ∈ l ∨ VRef id ∉ l.
Proof.
  induction l as [|x l IH]; [right; apply not_elem_of_nil|].
  destruct IH as [Hin|Hout]; [left; now apply list_elem_of_further|].
  destruct x; try (right; rewrite not_elem_of_cons; split; [discriminate | exact Hout]).
  destruct (decide (id = id0)) as [->|Hne].
  - left. apply list_elem_of_here.
  - right. rewrite not_elem_of_cons. split; [congruence | exact Hout].
Qed.

Lemma for_each_branch_attaches (util keycursor : pyval) (branches : list pyval) :
  ∀ (w w' : World),
    for_each_branch TTree_write_branch branches w = (Ok tt, w') →
    t_util (w_tree w) = Some util → t_keycursor (w_tree w) = Some keycursor →
    ∀ id,
      (VRef id ∈ branches → w_heap w' !! id = attach util keycursor <$> w_heap w !! id)
      ∧ (VRef id ∉ branches → w_heap w' !! id = w_heap w !! id).
Proof.
  induction branches as [|br rest IH]; intros w w' E Hu Hk id.
  - cbn in E. injection E as <-. split; [intros Hin; now apply elem_of_nil in Hin | easy].
  - cbn [for_each_branch] in E. apply bind_ok in E as ([] & w1 & E1 & E).
    apply (TTree_write_branch_attaches _ util keycursor) in E1
      as (i & b & -> & Hb & Hh1 & Hu1 & Hk1); [|assumption..].
    destruct (IH _ _ E Hu1 Hk1 id) as [Hin Hout]. rewrite Hh1 in Hin, Hout.
    destruct (decide (i = id)) as [->|Hne].
    + rewrite lookup_insert_eq in Hin, Hout. rewrite Hb. cbn [fmap option_fmap option_map].
      split; [| intros Hn; exfalso; apply Hn, list_elem_of_here ].
      intros _. destruct (ref_in_dec id rest) as [Hr|Hr];
        [ now rewrite (Hin Hr) | now rewrite (Hout Hr) ].
    + rewrite lookup_insert_ne in Hin, Hout by assumption. split.
      * intros Hi. apply elem_of_cons in Hi as [Hi|Hi]; [congruence | now apply Hin].
      * intros Hi. apply not_elem_of_cons in Hi as [_ Hi]. now apply Hout.
Qed.

(** X5. When the loop of [TTree.write] completes, every branch of the tree
    has the tree's util and key cursor as its own and is otherwise unchanged,
    and no other object on the heap has changed. *)
Theorem TTree_write_loop_attaches (util keycursor : pyval) (w w' : World) (id : nat) :
  TTree_write_loop w = (Ok tt, w') →
  t_util (w_tree w) = Some util → t_keycursor (w_tree w) = Some keycursor →
  (VRef id ∈ t_branches (w_tree w) →
   w_heap w' !! id = attach util keycursor <$> w_heap w !! id)
  ∧ (VRef id ∉ t_branches (w_tree w) → w_heap w' !! id = w_heap w !! id).
Proof.
  intros E Hu Hk. unfold TTree_write_loop in E.
  apply bind_ok in E as (self & w1 & E1 & E). injection E1 as <- <-.
  now apply (for_each_branch_attaches util keycursor (t_branches (w_tree w))).
Qed.

End Attach.

(** ** Leaves and object arrays of a branch *)

Section LeavesNeedUtil.
Context `{Collaborators}.

Lemma branch_util_put_objany_none (self : BranchObj) (value classname : pyval) (w : World) :
  b_util self = VNone →
  branch_util_put_objany self value classname w = (Raise AttributeError, w).
Proof. intros Hu. unfold branch_util_put_objany. now rewrite Hu. Qed.

Lemma for_each_value_first_fails (put : pyval → M bytes) (v : pyval) (vs : list pyval)
    (buff : bytes) (w : World) :
  (∃ e, fst (put v w) = Raise e) → ∃ e, fst (for_each_value put (v :: vs) buff w) = Raise e.
Proof. intros Hp. cbn [for_each_value]. now apply bind_raises. Qed.

(** X6. A branch whose util is [None], as [branch.__init__] leaves it, cannot
    write a leaf: [put_tleaf] and [put_tleafI] raise, and so does
    [put_tobjarray] on a value without length or on a non-empty list; the
    empty list is the only object array such a branch can write. *)
Theorem branch_leaf_needs_util
    (type name title defaultBasketSize compression : pyval) (self : BranchObj)
    (classname fBits : pyval) (w : World) :
  branch_init type name title defaultBasketSize compression = Ok self →
  b_util self = VNone
  ∧ (∃ e, fst (branch_put_tleaf self w) = Raise e)
  ∧ (∃ e, fst (branch_put_tleafI self w) = Raise e)
  ∧ (∀ values, py_len values = Raise TypeError →
       ∃ e, fst (branch_put_tobjarray self values classname fBits w) = Raise e)
  ∧ (∀ v vs, ∃ e, fst (branch_put_tobjarray self (VList (v :: vs)) classname fBits w)
                  = Raise e).
Proof.
  intros Hi. apply branch_init_inv in Hi as (n & _ & _ & ->). cbn [b_util].
  set (self := mkBranch _ _ _ _ _ _ _ _).
  assert (Hu : b_util self = VNone) by reflexivity.
  assert (Hleaf : ∀ w0, ∃ e, fst (branch_put_tleaf self w0) = Raise e).
  { intros w0. apply not_ok_raises. intros out w' E. unfold branch_put_tleaf in E.
    apply bind_ok in E as (cc & w1 & _ & E). apply bind_ok in E as (u & w2 & _ & E).
    apply bind_ok in E as (b1 & w3 & _ & E). apply bind_ok in E as (b2 & w4 & _ & E).
    apply bind_ok in E as (b3 & w5 & E3 & _).
    rewrite (branch_util_put_objany_none self _ _ _ Hu) in E3. discriminate E3. }
  assert (Harr : ∀ values items,
             (match py_len values with
              | Ok size => let? items := py_iter values in Ok (size, items)
              | Raise TypeError => Ok (1, [values])
              | Raise e => Raise e
              end) = Ok items → snd items ≠ [] →
             ∃ e, fst (branch_put_tobjarray self values classname fBits w) = Raise e).
  { intros values items Hsv Hne. apply not_ok_raises. intros out w' E.
    unfold branch_put_tobjarray in E.
    apply bind_ok in E as (cc & w1 & _ & E). apply bind_ok in E as (u & w2 & _ & E).
    apply bind_ok in E as (b0 & w3 & _ & E). apply bind_ok in E as (sv & w4 & E4 & E).
    apply lift_ok in E4 as [E4 ->]. rewrite Hsv in E4. injection E4 as <-.
    apply bind_ok in E as (b1 & w5 & _ & E). apply bind_ok in E as (b2 & w6 & _ & E).
    apply bind_ok in E as (buff & w7 & E7 & _).
    destruct (snd items) as [|v vs]; [congruence|].
    cbn [for_each_value] in E7. apply bind_ok in E7 as (b & w8 & E8 & _).
    rewrite (branch_util_put_objany_none self _ _ _ Hu) in E8. discriminate E8. }
  split; [reflexivity|]. split; [exact (Hleaf w)|]. split.
  - apply not_ok_raises. intros out w' E. unfold branch_put_tleafI in E.
    apply bind_ok in E as (cc & w1 & _ & E). apply bind_ok in E as (u & w2 & _ & E).
    apply bind_ok in E as (b1 & w3 & E1 & _).
    destruct (Hleaf w2) as [e He]. rewrite E1 in He. discriminate He.
  - split.
    + intros values Hlen. apply (Harr values (1, [values])); [now rewrite Hlen | discriminate].
    + intros v vs. apply (Harr (VList (v :: vs)) (len (v :: vs), v :: vs));
        [reflexivity | discriminate].
Qed.

End LeavesNeedUtil.

(** ** Byte layouts *)

Section Layouts.
Context `{Collaborators}.

Lemma pack_field_index (c : fcode) (v : pyval) (b : bytes) (lo hi : Z) :
  pack_field c v = Ok b → int_range c = Some (lo, hi) →
  ∃ z, as_index v = Some z ∧ lo <= z <= hi ∧ b = be_bytes (fcode_size c) z.
Proof.
  intros Hp Hr. unfold pack_field in Hp.
  destruct c; try discriminate Hr; rewrite Hr in Hp;
    (destruct (as_index v) as [z|]; [|discriminate];
     destruct (_ && _) eqn:Hb in Hp; [|discriminate];
     apply andb_prop in Hb as [? ?]; injection Hp as <-;
     exists z; repeat split; try lia; reflexivity).
Qed.

Lemma put_fields_ok (fmt : list fcode) (args : list pyval) (w w' : World) (b : bytes) :
  put_fields fmt args w = (Ok b, w') → struct_pack fmt args = Ok b.
Proof.
  intros E. apply on_cursor_ok in E. unfold cursor_put_fields in E.
  apply rbind_ok in E as (b' & Hp & E). now injection E as <- _.
Qed.

Lemma struct_pack_cons (c : fcode) (fmt : list fcode) (v : pyval) (args : list pyval)
    (b : bytes) :
  struct_pack (c :: fmt) (v :: args) = Ok b →
  ∃ b1 b2, pack_field c v = Ok b1 ∧ struct_pack fmt args = Ok b2 ∧ b = b1 ++ b2.
Proof.
  unfold struct_pack. cbn [length pack_fields].
  destruct (bool_decide (S (length fmt) = S (length args))) eqn:Hd; [|discriminate].
  apply bool_decide_eq_true in Hd. injection Hd as Hd.
  rewrite (bool_decide_eq_true_2 _ Hd). intros Hp.
  apply rbind_ok in Hp as (b1 & H1 & Hp). apply rbind_ok in Hp as (b2 & H2 & Hp).
  injection Hp as <-. eauto.
Qed.

Lemma struct_pack_nil (b : bytes) : struct_pack [] [] = Ok b → b = [].
Proof. unfold struct_pack. cbn. now intros [= <-]. Qed.





(** X8. The named-object header is: count and version 1, the TObject part
    (version 1, unique id 0, and the bits 0x03000000 for the tree or
    0x03400000 for a branch), then the name and the title, each with its
    length prefix; a string shorter than 255 bytes has a one-byte prefix. *)
Theorem put_tnamed_layout (is_branch : bool) (name title : bytes) (w w' : World)
    (out : bytes) :
  (if is_branch then branch_put_tnamed (VBytes name) (VBytes title)
   else TTree_put_tnamed (VBytes name) (VBytes title)) w = (Ok out, w') →
  ∃ en et,
    encode_string name = Ok en ∧ encode_string title = Ok et
    ∧ (len name < 255 → en = byte_of_Z (len name) :: name)
    ∧ (len title < 255 → et = byte_of_Z (len title) :: title)
    ∧ out = be_bytes 4 (Z.lor (len en + len et + 12) kByteCountMask) ++ be_bytes 2 1
            ++ be_bytes 2 1 ++ be_bytes 4 0
            ++ be_bytes 4 (if is_branch then 0x03400000 else 0x03000000)
            ++ en ++ et.
Proof.
  assert (Hshort : ∀ s e, encode_string s = Ok e → len s < 255 → e = byte_of_Z (len s) :: s).
  { intros s e He Hs. unfold encode_string in He.
    destruct (len s <? 255) eqn:Hlt; [now injection He as <- | lia]. }
  intros E.
  assert (Hobj : ∀ bits b v v', 0 <= bits <= 4294967295 →
             put_fields _format_tobject1 [VInt 1; VInt 0; VInt bits] v = (Ok b, v') →
             b = be_bytes 2 1 ++ be_bytes 4 0 ++ be_bytes 4 bits).
  { intros bits b v v' Hb E1. apply put_fields_ok in E1.
    apply struct_pack_cons in E1 as (x1 & x2 & P1 & P2 & ->).
    apply struct_pack_cons in P2 as (x3 & x4 & P3 & P4 & ->).
    apply struct_pack_cons in P4 as (x5 & x6 & P5 & P6 & ->).
    apply struct_pack_nil in P6 as ->.
    destruct (pack_field_index _ _ _ _ _ P1 eq_refl) as (z1 & Hz1 & _ & ->).
    destruct (pack_field_index _ _ _ _ _ P3 eq_refl) as (z3 & Hz3 & _ & ->).
    destruct (pack_field_index _ _ _ _ _ P5 eq_refl) as (z5 & Hz5 & _ & ->).
    injection Hz1 as <-. injection Hz3 as <-. injection Hz5 as <-.
    now rewrite app_nil_r. }
  destruct is_branch.
  - unfold branch_put_tnamed in E.
    apply bind_ok in E as (cc & w1 & _ & E). apply bind_ok in E as (u & w2 & _ & E).
    apply bind_ok in E as (b1 & w3 & E1 & E). apply Hobj in E1 as ->; [|lia].
    apply bind_ok in E as (en & w4 & E2 & E). apply put_string_ok in E2.
    apply bind_ok in E as (et & w5 & E3 & E). apply put_string_ok in E3.
    apply lift_ok in E as [E _]. apply finish_frame_ok in E as (_ & _ & ->).
    exists en, et. repeat (split; [eauto|]).
    rewrite <- !app_assoc. do 2 f_equal.
    rewrite !len_app, !len_be_bytes. f_equal. lia.
  - unfold TTree_put_tnamed in E.
    apply bind_ok in E as (cc & w1 & _ & E). apply bind_ok in E as (u & w2 & _ & E).
    apply bind_ok in E as (b1 & w3 & E1 & E). apply Hobj in E1 as ->; [|lia].
    apply bind_ok in E as (en & w4 & E2 & E). apply put_string_ok in E2.
    apply bind_ok in E as (et & w5 & E3 & E). apply put_string_ok in E3.
    apply lift_ok in E as [E _]. apply finish_frame_ok in E as (_ & _ & ->).
    exists en, et. repeat (split; [eauto|]).
    rewrite <- !app_assoc. do 2 f_equal.
    rewrite !len_app, !len_be_bytes. f_equal. lia.
Qed.

End Layouts.

(** ** Attribute blocks *)

Section AttributeBlocks.
Context `{Collaborators}.

Lemma getfs_missing (bag : gmap string pyval) (keys : list string) (key : string) :
  key ∈ keys → bag !! key = None →
  ∃ key', key' ∈ keys ∧ bag !! key' = None ∧ getfs bag keys = Raise (KeyError key').
Proof.
  unfold getfs. induction keys as [|k ks IH]; intros Hin Hnone.
  - now apply elem_of_nil in Hin.
  - cbn [rmap_list]. unfold getf at 1. destruct (bag !! k) as [v|] eqn:Hk.
    + apply elem_of_cons in Hin as [->|Hin]; [congruence|].
      destruct (IH Hin Hnone) as (key' & Hin' & Hn' & ->).
      exists key'. split; [now apply list_elem_of_further|]. easy.
    + exists k. split; [apply list_elem_of_here|]. easy.
Qed.

(** X9. An attribute block reserves its six header bytes before it reads
    its fields: when one of the fields is absent from the bag, the method
    raises [KeyError] for an absent key and leaves the cursor six bytes
    further, with nothing written for them. *)
Theorem attribute_block_missing_field (k : record_kind) (w : World)
    (bag : gmap string pyval) (keys : list string) (key : string) :
  attr_fields k w = Some (bag, keys) → key ∈ keys → bag !! key = None →
  ∃ key', key' ∈ keys ∧ bag !! key' = None
          ∧ emit k w = (Raise (KeyError key'), w_with_cursor (cursor_skip 6 (w_cursor w)) w).
Proof.
  intros Hk Hin Hnone.
  destruct (getfs_missing bag keys key Hin Hnone) as (key' & Hin' & Hn' & Hg).
  exists key'. split; [exact Hin'|]. split; [exact Hn'|].
  destruct k; try discriminate Hk; injection Hk as <- <-; cbn [emit].
  - unfold TTree_put_tattline, bind, copy_of_cursor, skip, tree_field_args.
    cbn [w_tree w_with_cursor]. now rewrite Hg.
  - unfold TTree_put_tattfill, bind, copy_of_cursor, skip, tree_field_args.
    cbn [w_tree w_with_cursor]. now rewrite Hg.
  - unfold TTree_put_tattmarker, bind, copy_of_cursor, skip, tree_field_args.
    cbn [w_tree w_with_cursor]. now rewrite Hg.
  - unfold branch_put_tattfill, bind, copy_of_cursor, skip, branch_field_args, lift.
    now rewrite Hg.
Qed.

Lemma pack_shorts (bag : gmap string pyval) (keys : list string) :
  ∀ (args : list pyval) (b : bytes),
    getfs bag keys = Ok args → pack_fields (map (λ _, c_h) keys) args = Ok b →
    ∃ zs,
      Forall2 (λ key z, ∃ v, bag !! key = Some v ∧ as_index v = Some z
                             ∧ -32768 <= z <= 32767) keys zs
      ∧ b = concat (map (be_bytes 2) zs).
Proof.
  unfold getfs. induction keys as [|k ks IH]; intros args b Hg Hp.
  - injection Hg as <-. injection Hp as <-. exists []. split; [constructor|reflexivity].
  - cbn [rmap_list] in Hg. apply rbind_ok in Hg as (v & Hv & Hg).
    apply rbind_ok in Hg as (vs & Hvs & Hg). injection Hg as <-.
    cbn [map pack_fields] in Hp. apply rbind_ok in Hp as (b1 & H1 & Hp).
    apply rbind_ok in Hp as (b2 & H2 & Hp). injection Hp as <-.
    destruct (IH _ _ Hvs H2) as (zs & Hzs & ->).
    destruct (pack_field_index _ _ _ _ _ H1 eq_refl) as (z & Hz & Hr & ->).
    exists (z :: zs). split; [|reflexivity].
    constructor; [|exact Hzs]. exists v. unfold getf in Hv.
    destruct (bag !! k); [|discriminate]. injection Hv as ->. easy.
Qed.

Lemma short_block_layout (bag : gmap string pyval) (keys : list string)
    (cc : Cursor) (args : list pyval) (buff out : bytes) (v v' : World) :
  getfs bag keys = Ok args →
  put_fields (map (λ _, c_h) keys) args v = (Ok buff, v') →
  finish_frame cc 2 buff = Ok out →
  ∃ zs,
    Forall2 (λ key z, ∃ x, bag !! key = Some x ∧ as_index x = Some z
                           ∧ -32768 <= z <= 32767) keys zs
    ∧ out = be_bytes 4 (Z.lor (len buff + 2) kByteCountMask) ++ be_bytes 2 2
            ++ concat (map (be_bytes 2) zs)
    ∧ len buff = 2 * len keys.
Proof.
  intros Hg Hp Hf. apply put_fields_ok in Hp.
  pose proof (struct_pack_length _ _ _ Hp) as Hlen.
  unfold struct_pack in Hp. destruct (bool_decide _) in Hp; [|discriminate].
  destruct (pack_shorts _ _ _ _ Hg Hp) as (zs & Hzs & Hb).
  apply finish_frame_ok in Hf as (_ & _ & ->).
  exists zs. split; [exact Hzs|]. split; [now rewrite Hb|].
  rewrite Hlen. unfold struct_size, len. clear.
  induction keys as [|k ks IH]; [reflexivity|]. cbn [map length].
  change (sum_list (fcode_size c_h :: ?l)) with (2 + sum_list l)%nat. lia.
Qed.

(** X10. The line and fill attribute blocks consist of the count, the
    version 2 and one big-endian 16-bit integer per field, in the order of
    the source; a block is only returned when every field is an integer in
    the signed 16-bit range. *)
Theorem short_attribute_block_layout (k : record_kind) (w w' : World)
    (bag : gmap string pyval) (keys : list string) (out : bytes) :
  short_fields k = true → attr_fields k w = Some (bag, keys) →
  emit k w = (Ok out, w') →
  ∃ zs,
    Forall2 (λ key z, ∃ v, bag !! key = Some v ∧ as_index v = Some z
                           ∧ -32768 <= z <= 32767) keys zs
    ∧ out = be_bytes 4 (Z.lor (2 * len keys + 2) kByteCountMask) ++ be_bytes 2 2
            ++ concat (map (be_bytes 2) zs).
Proof.
  intros Hs Hk E.
  destruct k; try discriminate Hs; injection Hk as <- <-; cbn [emit] in E.
  - unfold TTree_put_tattline in E.
    apply bind_ok in E as (cc & w1 & Ec & E). apply bind_ok in E as (u & w2 & E0 & E).
    apply bind_ok in E as (args & w3 & Ea & E). apply bind_ok in E as (buff & w4 & Ep & E).
    apply lift_ok in E as [E _]. injection Ec as _ <-. injection E0 as _ <-.
    injection Ea as Ea <-.
    cbn [w_tree w_with_cursor] in Ea.
    destruct (short_block_layout _ _ _ _ _ _ _ _ Ea Ep E) as (zs & Hzs & -> & Hl).
    exists zs. split; [exact Hzs|]. now rewrite Hl.
  - unfold TTree_put_tattfill in E.
    apply bind_ok in E as (cc & w1 & Ec & E). apply bind_ok in E as (u & w2 & E0 & E).
    apply bind_ok in E as (args & w3 & Ea & E). apply bind_ok in E as (buff & w4 & Ep & E).
    apply lift_ok in E as [E _]. injection Ec as _ <-. injection E0 as _ <-.
    injection Ea as Ea <-.
    cbn [w_tree w_with_cursor] in Ea.
    destruct (short_block_layout _ _ _ _ _ _ _ _ Ea Ep E) as (zs & Hzs & -> & Hl).
    exists zs. split; [exact Hzs|]. now rewrite Hl.
  - unfold branch_put_tattfill in E.
    apply bind_ok in E as (cc & w1 & _ & E). apply bind_ok in E as (u & w2 & _ & E).
    apply bind_ok in E as (args & w3 & Ea & E). apply bind_ok in E as (buff & w4 & Ep & E).
    apply lift_ok in E as [E _]. apply lift_ok in Ea as [Ea _].
    destruct (short_block_layout _ _ _ _ _ _ _ _ Ea Ep E) as (zs & Hzs & -> & Hl).
    exists zs. split; [exact Hzs|]. now rewrite Hl.
Qed.

End AttributeBlocks.

(** ** The further properties on concrete runs *)

Lemma ref_dispatcher_in_step : @dispatcher_in_step ref_env.
Proof.
  intros util value classname keycursor c e r c' e' E.
  cbn [util_put_objany ref_env] in E. unfold ref_put_objany in E.
  destruct value; try discriminate E. injection E as <- <- _. reflexivity.
Qed.

Lemma plain_record_cursor_in_step_witness :
  plain_kind K_TTree_tattline = true
  ∧ @emit ref_env K_TTree_tattline (ex_world (ex_tree []) ∅)
    = (Ok (ok_or [] (fst (@emit ref_env K_TTree_tattline (ex_world (ex_tree []) ∅)))),
       snd (@emit ref_env K_TTree_tattline (ex_world (ex_tree []) ∅)))
  ∧ index (w_cursor (snd (@emit ref_env K_TTree_tattline (ex_world (ex_tree []) ∅))))
    = index (w_cursor (ex_world (ex_tree []) ∅))
      + len (ok_or [] (fst (@emit ref_env K_TTree_tattline (ex_world (ex_tree []) ∅)))).
Proof.
  assert (He : @emit ref_env K_TTree_tattline (ex_world (ex_tree []) ∅)
               = (Ok (ok_or [] (fst (@emit ref_env K_TTree_tattline
                                       (ex_world (ex_tree []) ∅)))),
                  snd (@emit ref_env K_TTree_tattline (ex_world (ex_tree []) ∅))))
    by (apply run_ok; vm_compute; reflexivity).
  split; [reflexivity|]. split; [exact He|].
  exact (@plain_record_cursor_in_step ref_env K_TTree_tattline _ _ _ eq_refl He).
Defined.

Lemma record_cursor_in_step_witness :
  @dispatcher_in_step ref_env
  ∧ (@emit ref_env ex_tree_record (ex_world (ex_tree []) ∅)
     = (Ok (ok_or [] (fst (@emit ref_env ex_tree_record (ex_world (ex_tree []) ∅)))),
        snd (@emit ref_env ex_tree_record (ex_world (ex_tree []) ∅)))
     ∧ index (w_cursor (snd (@emit ref_env ex_tree_record (ex_world (ex_tree []) ∅))))
       = index (w_cursor (ex_world (ex_tree []) ∅))
         + len (ok_or [] (fst (@emit ref_env ex_tree_record (ex_world (ex_tree []) ∅)))))
  ∧ (@emit ref_env (K_branch_record ex_branch_edited) (ex_world no_tree ∅)
     = (Ok (ok_or [] (fst (@emit ref_env (K_branch_record ex_branch_edited)
                             (ex_world no_tree ∅)))),
        snd (@emit ref_env (K_branch_record ex_branch_edited) (ex_world no_tree ∅)))
     ∧ index (w_cursor (snd (@emit ref_env (K_branch_record ex_branch_edited)
                               (ex_world no_tree ∅))))
       = index (w_cursor (ex_world no_tree ∅))
         + len (ok_or [] (fst (@emit ref_env (K_branch_record ex_branch_edited)
                                 (ex_world no_tree ∅))))).
Proof.
  assert (He : @emit ref_env ex_tree_record (ex_world (ex_tree []) ∅)
               = (Ok (ok_or [] (fst (@emit ref_env ex_tree_record
                                       (ex_world (ex_tree []) ∅)))),
                  snd (@emit ref_env ex_tree_record (ex_world (ex_tree []) ∅))))
    by (apply run_ok; vm_compute; reflexivity).
  assert (Hb : @emit ref_env (K_branch_record ex_branch_edited) (ex_world no_tree ∅)
               = (Ok (ok_or [] (fst (@emit ref_env (K_branch_record ex_branch_edited)
                                       (ex_world no_tree ∅)))),
                  snd (@emit ref_env (K_branch_record ex_branch_edited)
                         (ex_world no_tree ∅))))
    by (apply run_ok; vm_compute; reflexivity).
  split; [exact ref_dispatcher_in_step|]. split; (split; [assumption|]).
  - exact (@record_cursor_in_step ref_env ref_dispatcher_in_step ex_tree_record _ _ _ He).
  - exact (@record_cursor_in_step ref_env ref_dispatcher_in_step
             (K_branch_record ex_branch_edited) _ _ _ Hb).
Defined.

Lemma ex_world_opened_loop :
  @TTree_write_loop ref_env ex_world_opened
  = (Ok tt, snd (@TTree_write_loop ref_env ex_world_opened)).
Proof. apply run_ok_unit. vm_compute. reflexivity. Qed.

Lemma TTree_write_loop_records_witness :
  @TTree_write_loop ref_env ex_world_opened
  = (Ok tt, snd (@TTree_write_loop ref_env ex_world_opened))
  ∧ t_fields (w_tree ex_world_opened) !! "_fBranches" = Some (VList [])
  ∧ t_fields (w_tree ex_world_opened) !! "_fLeaves" = Some (VList [])
  ∧ ∃ lvs,
      branch_values "_fLeaves" (w_heap ex_world_opened) (t_branches (w_tree ex_world_opened))
      = Some lvs
      ∧ t_fields (w_tree (snd (@TTree_write_loop ref_env ex_world_opened))) !! "_fBranches"
        = Some (VList ([] ++ t_branches (w_tree ex_world_opened)))
      ∧ t_fields (w_tree (snd (@TTree_write_loop ref_env ex_world_opened))) !! "_fLeaves"
        = Some (VList ([] ++ lvs))
      ∧ t_branches (w_tree (snd (@TTree_write_loop ref_env ex_world_opened)))
        = t_branches (w_tree ex_world_opened).
Proof.
  assert (HB : t_fields (w_tree ex_world_opened) !! "_fBranches" = Some (VList []))
    by (vm_compute; reflexivity).
  assert (HL : t_fields (w_tree ex_world_opened) !! "_fLeaves" = Some (VList []))
    by (vm_compute; reflexivity).
  split; [exact ex_world_opened_loop|]. split; [exact HB|]. split; [exact HL|].
  exact (@TTree_write_loop_records ref_env _ _ [] [] ex_world_opened_loop HB HL).
Defined.

Lemma TTree_write_raises_on_constructed_branch_witness :
  TTree_init (pystr "t") (pystr "") [VRef 0%nat] = Ok (ex_tree [VRef 0%nat])
  ∧ @branch_init ref_env (pystr "int") (pystr "x") (pystr "a title")
      defaultBasketSize_default compression_default = Ok ex_branch_x
  ∧ w_heap (ex_world (ex_tree [VRef 0%nat]) {[0%nat := ex_branch_x]}) !! 0%nat
    = Some ex_branch_x
  ∧ ∃ exc, fst (ex_write (ex_world (ex_tree [VRef 0%nat]) {[0%nat := ex_branch_x]}))
           = Raise exc.
Proof.
  assert (Hh : w_heap (ex_world (ex_tree [VRef 0%nat]) {[0%nat := ex_branch_x]}) !! 0%nat
               = Some ex_branch_x).
  { unfold ex_world. cbn [w_heap]. apply lookup_singleton_eq. }
  split; [apply ex_tree_init|]. split; [exact ex_branch_x_init|]. split; [exact Hh|].
  exact (@TTree_write_raises_on_constructed_branch ref_env ex_context ex_name VNone ex_key
           ex_keycursor ex_util _ _ _ _ _ _ _ 0%nat [] _ _
           (ex_world (ex_tree [VRef 0%nat]) {[0%nat := ex_branch_x]})
           (ex_tree_init [VRef 0%nat]) ex_branch_x_init eq_refl Hh).
Defined.

Lemma TTree_write_loop_attaches_witness :
  @TTree_write_loop ref_env ex_world_opened
  = (Ok tt, snd (@TTree_write_loop ref_env ex_world_opened))
  ∧ t_util (w_tree ex_world_opened) = Some ex_util
  ∧ t_keycursor (w_tree ex_world_opened) = Some ex_keycursor
  ∧ (VRef 0%nat ∈ t_branches (w_tree ex_world_opened) →
     w_heap (snd (@TTree_write_loop ref_env ex_world_opened)) !! 0%nat
     = attach ex_util ex_keycursor <$> w_heap ex_world_opened !! 0%nat)
  ∧ (VRef 0%nat ∉ t_branches (w_tree ex_world_opened) →
     w_heap (snd (@TTree_write_loop ref_env ex_world_opened)) !! 0%nat
     = w_heap ex_world_opened !! 0%nat).
Proof.
  assert (Hu : t_util (w_tree ex_world_opened) = Some ex_util)
    by (vm_compute; reflexivity).
  assert (Hk : t_keycursor (w_tree ex_world_opened) = Some ex_keycursor)
    by (vm_compute; reflexivity).
  split; [exact ex_world_opened_loop|]. split; [exact Hu|]. split; [exact Hk|].
  exact (@TTree_write_loop_attaches ref_env ex_util ex_keycursor _ _ 0%nat
           ex_world_opened_loop Hu Hk).
Defined.

Lemma branch_leaf_needs_util_witness :
  @branch_init ref_env (pystr "int") (pystr "x") (pystr "a title")
    defaultBasketSize_default compression_default = Ok ex_branch_x
  ∧ b_util ex_branch_x = VNone
  ∧ (∃ e, fst (@branch_put_tleaf ref_env ex_branch_x (ex_world no_tree ∅)) = Raise e)
  ∧ (∃ e, fst (@branch_put_tleafI ref_env ex_branch_x (ex_world no_tree ∅)) = Raise e).
Proof.
  split; [exact ex_branch_x_init|].
  pose proof (@branch_leaf_needs_util ref_env _ _ _ _ _ _ (pystr "TLeaf") (VInt 0)
                (ex_world no_tree ∅) ex_branch_x_init) as (Hu & Hl & Hi & _).
  split; [exact Hu|]. split; assumption.
Defined.


Lemma put_tnamed_layout_witness :
  @TTree_put_tnamed ref_env (VBytes (bstr "t")) (VBytes (bstr "a title"))
    (ex_world (ex_tree []) ∅)
  = (Ok (ok_or [] (fst (@TTree_put_tnamed ref_env (VBytes (bstr "t"))
                          (VBytes (bstr "a title")) (ex_world (ex_tree []) ∅)))),
     snd (@TTree_put_tnamed ref_env (VBytes (bstr "t")) (VBytes (bstr "a title"))
            (ex_world (ex_tree []) ∅)))
  ∧ ∃ en et,
      encode_string (bstr "t") = Ok en ∧ encode_string (bstr "a title") = Ok et
      ∧ (len (bstr "t") < 255 → en = byte_of_Z (len (bstr "t")) :: bstr "t")
      ∧ (len (bstr "a title") < 255 →
         et = byte_of_Z (len (bstr "a title")) :: bstr "a title")
      ∧ ok_or [] (fst (@TTree_put_tnamed ref_env (VBytes (bstr "t"))
                         (VBytes (bstr "a title")) (ex_world (ex_tree []) ∅)))
        = be_bytes 4 (Z.lor (len en + len et + 12) 0x40000000) ++ be_bytes 2 1
          ++ be_bytes 2 1 ++ be_bytes 4 0 ++ be_bytes 4 0x03000000 ++ en ++ et.
Proof.
  assert (He : @TTree_put_tnamed ref_env (VBytes (bstr "t")) (VBytes (bstr "a title"))
                 (ex_world (ex_tree []) ∅)
               = (Ok (ok_or [] (fst (@TTree_put_tnamed ref_env (VBytes (bstr "t"))
                                       (VBytes (bstr "a title"))
                                       (ex_world (ex_tree []) ∅)))),
                  snd (@TTree_put_tnamed ref_env (VBytes (bstr "t"))
                         (VBytes (bstr "a title")) (ex_world (ex_tree []) ∅))))
    by (apply run_ok; vm_compute; reflexivity).
  split; [exact He|].
  exact (@put_tnamed_layout ref_env false (bstr "t") (bstr "a title") _ _ _ He).
Defined.

Lemma attribute_block_missing_field_witness :
  @attr_fields ref_env K_TTree_tattfill (ex_world ex_tree_no_fill_style ∅)
  = Some (t_fields ex_tree_no_fill_style, ["_fFillColor"; "_fFillStyle"])
  ∧ "_fFillStyle" ∈ ["_fFillColor"; "_fFillStyle"]
  ∧ t_fields ex_tree_no_fill_style !! "_fFillStyle" = None
  ∧ ∃ key',
      key' ∈ ["_fFillColor"; "_fFillStyle"]
      ∧ t_fields ex_tree_no_fill_style !! key' = None
      ∧ @emit ref_env K_TTree_tattfill (ex_world ex_tree_no_fill_style ∅)
        = (Raise (KeyError key'),
           w_with_cursor (cursor_skip 6 (w_cursor (ex_world ex_tree_no_fill_style ∅)))
             (ex_world ex_tree_no_fill_style ∅)).
Proof.
  assert (Hin : "_fFillStyle" ∈ ["_fFillColor"; "_fFillStyle"])
    by (apply list_elem_of_further, list_elem_of_here).
  assert (Hn : t_fields ex_tree_no_fill_style !! "_fFillStyle" = None)
    by (vm_compute; reflexivity).
  split; [reflexivity|]. split; [exact Hin|]. split; [exact Hn|].
  exact (@attribute_block_missing_field ref_env K_TTree_tattfill
           (ex_world ex_tree_no_fill_style ∅) _ _ "_fFillStyle" eq_refl Hin Hn).
Defined.

Lemma short_attribute_block_layout_witness :
  short_fields K_TTree_tattline = true
  ∧ @attr_fields ref_env K_TTree_tattline (ex_world (ex_tree []) ∅)
    = Some (t_fields (ex_tree []), ["_fLineColor"; "_fLineStyle"; "_fLineWidth"])
  ∧ @emit ref_env K_TTree_tattline (ex_world (ex_tree []) ∅)
    = (Ok (ok_or [] (fst (@emit ref_env K_TTree_tattline (ex_world (ex_tree []) ∅)))),
       snd (@emit ref_env K_TTree_tattline (ex_world (ex_tree []) ∅)))
  ∧ ∃ zs,
      Forall2 (λ key z, ∃ v, t_fields (ex_tree []) !! key = Some v ∧ as_index v = Some z
                             ∧ -32768 <= z <= 32767)
        ["_fLineColor"; "_fLineStyle"; "_fLineWidth"] zs
      ∧ ok_or [] (fst (@emit ref_env K_TTree_tattline (ex_world (ex_tree []) ∅)))
        = be_bytes 4 (Z.lor (2 * len ["_fLineColor"; "_fLineStyle"; "_fLineWidth"] + 2)
                        0x40000000)
          ++ be_bytes 2 2 ++ concat (map (be_bytes 2) zs).
Proof.
  assert (He : @emit ref_env K_TTree_tattline (ex_world (ex_tree []) ∅)
               = (Ok (ok_or [] (fst (@emit ref_env K_TTree_tattline
                                       (ex_world (ex_tree []) ∅)))),
                  snd (@emit ref_env K_TTree_tattline (ex_world (ex_tree []) ∅))))
    by (apply run_ok; vm_compute; reflexivity).
  split; [reflexivity|]. split; [reflexivity|]. split; [exact He|].
  exact (@short_attribute_block_layout ref_env K_TTree_tattline _ _ _ _ _
           eq_refl eq_refl He).
Defined.
